(** * pyne.endf: the ENDF-6 record decoder of [python/pyne/endf.py]

    A shallow embedding of the parsing code of the module and the
    properties of its field decoder, record readers and section
    dispatcher.

    The module is Python 2 code ([range((NPL-1)/6 + 1)] needs integer
    division), so [/] on integers is floor division ([Z.div]), [str] is a
    byte string and [int], [float] and [eval] are the Python 2.7 builtins.

    Conventions of the embedding:
    - a [str] is a [list ascii]; slices are [firstn]/[skipn];
    - a computation that may raise returns an [outcome]; [Raise e] carries
      the class of the Python exception;
    - [eval] is embedded on a fragment of Python expressions only (blank
      text, [None], signed numeric literals); on any other text the
      embedding answers [Unmodelled];
    - a finite Python float is represented by the exact rational value of
      the decimal text it was read from, standing for the binary64 number
      nearest to it; values too large for binary64 become [Inf]; [int] of
      a float truncates that binary64 number ([binary64]);
    - [print] calls (the [verbose] reporting of [printInfo]) are left out. *)

From Stdlib Require Import ZArith QArith Qabs Qpower Qreduction List Ascii Bool Lia.
From Stdlib Require String.
Import ListNotations String.StringSyntax.
Delimit Scope string_scope with string.

Open Scope Z_scope.

(* ================================================================== *)
(** * Outcomes of Python computations *)

(** The exception classes the embedded code can raise. *)
Inductive exn : Type :=
| ValueError | IndexError | SyntaxError | TypeError
| AttributeError | OverflowError.

(** The Python name of an exception class. *)
Definition exn_name (e : exn) : String.string :=
  match e with
  | ValueError => "ValueError"%string
  | IndexError => "IndexError"%string
  | SyntaxError => "SyntaxError"%string
  | TypeError => "TypeError"%string
  | AttributeError => "AttributeError"%string
  | OverflowError => "OverflowError"%string
  end.

(** [Ok a]: the computation returns [a].  [Raise e]: it raises.
    [Unmodelled]: it reached an [eval] of text outside the embedded
    fragment.  [Loops]: it does not terminate. *)
Inductive outcome (A : Type) : Type :=
| Ok (a : A)
| Raise (e : exn)
| Unmodelled
| Loops.

Arguments Ok {A} a.
Arguments Raise {A} e.
Arguments Unmodelled {A}.
Arguments Loops {A}.

Definition obind {A B : Type} (c : outcome A) (k : A -> outcome B) : outcome B :=
  match c with
  | Ok a => k a
  | Raise e => Raise e
  | Unmodelled => Unmodelled
  | Loops => Loops
  end.

(** The computation raised an exception whose class is called [name]. *)
Definition raises_named {A : Type} (c : outcome A) (name : String.string) : Prop :=
  exists e, c = Raise e /\ exn_name e = name.

Arguments raises_named {A} c name%_string.

Definition is_Ok {A : Type} (c : outcome A) : bool :=
  match c with Ok _ => true | _ => false end.

(** State-passing computations: the state is the object the method
    mutates (a file handle, an [Evaluation]). *)
Definition M (S A : Type) : Type := S -> outcome (A * S).

Definition ret {S A : Type} (a : A) : M S A := fun s => Ok (a, s).

Definition bind {S A B : Type} (c : M S A) (k : A -> M S B) : M S B :=
  fun s => match c s with
           | Ok (a, s') => k a s'
           | Raise e => Raise e
           | Unmodelled => Unmodelled
           | Loops => Loops
           end.

(** A computation without effect on the state. *)
Definition pure {S A : Type} (c : outcome A) : M S A :=
  fun s => obind c (fun a => Ok (a, s)).

Declare Scope py_scope.
Delimit Scope py_scope with py.
Notation "x <- c ;; k" := (bind c (fun x => k))
  (at level 61, c at next level, right associativity) : py_scope.
Notation "c ;;; k" := (bind c (fun _ => k))
  (at level 61, right associativity) : py_scope.
Open Scope py_scope.

(** [for _ in range(n): body], the loop variable unused: [body] is run
    [n] times on the loop-carried value [a] (no time when [n <= 0]). *)
Fixpoint for_range_nat {S A : Type} (n : nat) (body : A -> M S A) (a : A) : M S A :=
  match n with
  | O => ret a
  | Datatypes.S n' => a' <- body a ;; for_range_nat n' body a'
  end.

Definition for_range {S A : Type} (n : Z) (body : A -> M S A) (a : A) : M S A :=
  for_range_nat (Z.to_nat n) body a.

(* ================================================================== *)
(** * Byte strings *)

Definition str : Type := list ascii.

(** A string literal. *)
Definition lit (s : String.string) : str := String.list_ascii_of_string s.
Arguments lit s%_string.

(** [s[a:b]] for literal bounds [0 <= a <= b]. *)
Definition slice (a b : nat) (s : str) : str := firstn (b - a) (skipn a s).

(** [s[a:]]. *)
Definition slice_from (a : nat) (s : str) : str := skipn a s.

(** [s[-2]]: [None] stands for the IndexError of a string shorter than 2. *)
Definition index_m2 (s : str) : option ascii :=
  if (length s <? 2)%nat then None else nth_error s (length s - 2).

(** [s[:-2]] and [s[-2:]]. *)
Definition slice_to_m2 (s : str) : str := firstn (length s - 2) s.
Definition slice_from_m2 (s : str) : str := skipn (length s - 2) s.

Definition ascii_in (c : ascii) (cs : list ascii) : bool :=
  existsb (Ascii.eqb c) cs.

Fixpoint str_eqb (s t : str) : bool :=
  match s, t with
  | [], [] => true
  | a :: s', b :: t' => Ascii.eqb a b && str_eqb s' t'
  | _, _ => false
  end.

(** C [isspace]: space, \t, \n, \v, \f, \r. *)
Definition is_space (c : ascii) : bool :=
  let n := nat_of_ascii c in
  ((n =? 32) || ((9 <=? n) && (n <=? 13)))%nat.

(** Space or tab: what [eval] skips in front of an expression. *)
Definition is_blank (c : ascii) : bool :=
  let n := nat_of_ascii c in ((n =? 32) || (n =? 9))%nat.

Definition is_digit (c : ascii) : bool :=
  let n := nat_of_ascii c in ((48 <=? n) && (n <=? 57))%nat.

Fixpoint drop_while (p : ascii -> bool) (s : str) : str :=
  match s with
  | [] => []
  | c :: s' => if p c then drop_while p s' else s
  end.

Definition rdrop_while (p : ascii -> bool) (s : str) : str :=
  rev (drop_while p (rev s)).

(** [s.strip()], as [int] and [float] apply it to their argument. *)
Definition strip (s : str) : str := rdrop_while is_space (drop_while is_space s).

(** The longest prefix satisfying [p], and the rest. *)
Fixpoint span (p : ascii -> bool) (s : str) : str * str :=
  match s with
  | [] => ([], [])
  | c :: s' => if p c then let (a, b) := span p s' in (c :: a, b) else ([], s)
  end.

Definition digit_val (c : ascii) : Z := Z.of_nat (nat_of_ascii c) - 48.

(** The number a string of decimal digits denotes. *)
Definition digits_val (ds : str) : Z :=
  fold_left (fun acc c => 10 * acc + digit_val c) ds 0.

Definition nonempty {A : Type} (l : list A) : bool :=
  match l with [] => false | _ => true end.

(** An optional sign in front: (is it [-]?, rest). *)
Definition split_sign (s : str) : bool * str :=
  match s with
  | "+"%char :: r => (false, r)
  | "-"%char :: r => (true, r)
  | _ => (false, s)
  end.

Definition to_lower (c : ascii) : ascii :=
  let n := nat_of_ascii c in
  if ((65 <=? n) && (n <=? 90))%nat then ascii_of_nat (n + 32) else c.

(* ================================================================== *)
(** * Python values *)

Inductive pyfloat : Type :=
| Fin (q : Q)
| Inf (negative : bool)
| NaN.

(** What a numeric slot decodes to: [convert] returns a float, an int or
    whatever else [eval] produced ([None] in the embedded fragment). *)
Inductive scalar : Type :=
| SNone
| SInt (n : Z)
| SFloat (f : pyfloat).

(** ** int(str) *)

(** [int(s)] for a string: surrounding whitespace, an optional sign, one
    or more decimal digits; anything else is a ValueError. *)
Definition py_int (s : str) : outcome Z :=
  let (neg, body) := split_sign (strip s) in
  if nonempty body && forallb is_digit body
  then Ok (if neg then - digits_val body else digits_val body)
  else Raise ValueError.

(** ** Decimal numerals *)

(** digits [. digits] with at least one digit:
    (value of all the digits, number of fraction digits, rest). *)
Definition parse_decimal (s : str) : option (Z * nat * str) :=
  let (ip, r1) := span is_digit s in
  match r1 with
  | "."%char :: r2 =>
      let (fp, r3) := span is_digit r2 in
      if nonempty (ip ++ fp) then Some (digits_val (ip ++ fp), length fp, r3)
      else None
  | _ => if nonempty ip then Some (digits_val ip, O, r1) else None
  end.

(** [e|E] [sign] digits: (exponent, rest). *)
Definition parse_exponent (s : str) : option (Z * str) :=
  match s with
  | c :: r =>
      if ascii_in c ["e"; "E"]%char then
        let (neg, r') := split_sign r in
        let (ds, rest) := span is_digit r' in
        if nonempty ds
        then Some (if neg then - digits_val ds else digits_val ds, rest)
        else None
      else None
  | [] => None
  end.

(** [m * 10^e] as a reduced fraction. *)
Definition dec_value (m e : Z) : Q :=
  Qred (if 0 <=? e then (m * 10 ^ e) # 1 else m # Z.to_pos (10 ^ (- e))).

(** A decimal numeral with an optional exponent: (value, rest). *)
Definition parse_number (s : str) : option (Q * str) :=
  match parse_decimal s with
  | None => None
  | Some (m, k, r) =>
      match r with
      | c :: _ =>
          if ascii_in c ["e"; "E"]%char then
            match parse_exponent r with
            | Some (e, rest) => Some (dec_value m (e - Z.of_nat k), rest)
            | None => None
            end
          else Some (dec_value m (- Z.of_nat k), r)
      | [] => Some (dec_value m (- Z.of_nat k), r)
      end
  end.

(** Magnitudes from [2^1024 - 2^970] on round to infinity in binary64. *)
Definition float_overflow : Q := inject_Z (2 ^ 1024 - 2 ^ 970).

Definition round_float (q : Q) : pyfloat :=
  if Qle_bool float_overflow (Qabs q) then Inf (negb (Qle_bool 0 q)) else Fin q.

Definition signed (neg : bool) (q : Q) : Q := if neg then Qred (- q) else q.

(** ** float(str) *)

(** [float(s)]: surrounding whitespace, an optional sign, then [inf],
    [infinity] or [nan] in any case, or a decimal numeral with an optional
    exponent; anything else is a ValueError. *)
Definition py_float (s : str) : outcome pyfloat :=
  let (neg, body) := split_sign (strip s) in
  let low := map to_lower body in
  if str_eqb low (lit "inf") || str_eqb low (lit "infinity") then Ok (Inf neg)
  else if str_eqb low (lit "nan") then Ok NaN
  else match parse_number body with
       | Some (q, []) => Ok (round_float (signed neg q))
       | _ => Raise ValueError
       end.

(** ** int(x) for a value *)

(** Truncation toward zero. *)
Definition Qtrunc (q : Q) : Z := Z.quot (Qnum q) (Z.pos (Qden q)).

(** [n / d] rounded to the nearest integer, a tie to the even one
    ([0 <= n], [0 < d]). *)
Definition round_half_even (n d : Z) : Z :=
  let f := n / d in
  let r := n mod d in
  if 2 * r <? d then f
  else if d <? 2 * r then f + 1
  else if Z.even f then f else f + 1.

(** The binary64 number nearest to [n / d], for [0 < n] and [0 < d]:
    [m * 2^e] with [m] the quotient by [2^e] rounded to the nearest
    integer, a tie to the even one, where [e] is the exponent that leaves
    53 bits, and is not below that of the subnormal numbers, -1074.
    [fl] is the integer part of the binary logarithm of [n / d]. *)
Definition binary64_pos (n d : Z) : Q :=
  let l := Z.log2 n - Z.log2 d in
  let fl := if (if 0 <=? l then d * 2 ^ l <=? n else d <=? n * 2 ^ (- l))
            then l else l - 1 in
  let e := Z.max (fl - 52) (-1074) in
  if 0 <=? e then inject_Z (round_half_even n (d * 2 ^ e) * 2 ^ e)
  else Qred (Qmake (round_half_even (n * 2 ^ (- e)) d) (Z.to_pos (2 ^ (- e)))).

(** The binary64 number a float literal of value [q] is: [float] and
    [eval] round a decimal numeral correctly.  The values below the
    overflow threshold are the ones asked for. *)
Definition binary64 (q : Q) : Q :=
  match Qnum q with
  | Z0 => 0
  | Zpos n => binary64_pos (Zpos n) (Zpos (Qden q))
  | Zneg n => Qred (- binary64_pos (Zpos n) (Zpos (Qden q)))
  end.

(** [int(v)].  A finite float is kept as the decimal it was read from;
    [int] truncates the binary64 number it is. *)
Definition int_of_scalar (v : scalar) : outcome Z :=
  match v with
  | SNone => Raise TypeError
  | SInt n => Ok n
  | SFloat (Fin q) => Ok (Qtrunc (binary64 q))
  | SFloat (Inf _) => Raise OverflowError
  | SFloat NaN => Raise ValueError
  end.

(** ** eval(str), on the embedded fragment *)

(** A decimal integer literal of Python 2: [0], or digits not starting
    with [0] (a longer literal starting with [0] is octal). *)
Definition int_literal (ds : str) : bool :=
  match ds with
  | [] => false
  | ["0"%char] => true
  | c :: _ => negb (Ascii.eqb c "0"%char)
  end.

(** [eval(s)].  Spaces and tabs around the expression are not
    significant.  Embedded: nothing at all (SyntaxError), [None], and an
    optionally signed decimal integer or float literal. *)
Definition py_eval (s : str) : outcome scalar :=
  let u := rdrop_while is_blank (drop_while is_blank s) in
  match u with
  | [] => Raise SyntaxError
  | _ =>
      if str_eqb u (lit "None") then Ok SNone
      else
        let (neg, body) := split_sign u in
        match span is_digit body with
        | (ip, []) =>
            if int_literal ip
            then Ok (SInt (if neg then - digits_val ip else digits_val ip))
            else Unmodelled
        | (_, c :: _) =>
            if ascii_in c ["."; "e"; "E"]%char then
              match parse_number body with
              | Some (q, []) => Ok (SFloat (round_float (signed neg q)))
              | _ => Unmodelled
              end
            else Unmodelled
        end
  end.

(* ================================================================== *)
(** * The field decoder *)

(** [convert(string)]:
<<
    if string[-2] in '+-':
        return float(string[:-2] + 'e' + string[-2:])
    else:
        return eval(string)
>> *)
Definition convert (string : str) : outcome scalar :=
  match index_m2 string with
  | None => Raise IndexError
  | Some c =>
      if ascii_in c ["+"; "-"]%char
      then obind (py_float (slice_to_m2 string ++ "e"%char :: slice_from_m2 string))
                 (fun f => Ok (SFloat f))
      else py_eval string
  end.

(* ================================================================== *)
(** * The line stream *)

(** The file handle [self.fh]: the lines of the file (each with its line
    end, so no line of a file is the empty string) and the index of the
    next line to read. *)
Record stream : Type := { lines : list str; pos : nat }.

(** [fh.readline()]: the next line, or [''] at the end of the file, where
    the position stays. *)
Definition readline : M stream str :=
  fun fh =>
    match nth_error (lines fh) (pos fh) with
    | Some l => Ok (l, {| lines := lines fh; pos := S (pos fh) |})
    | None => Ok ([], fh)
    end.

(* ================================================================== *)
(** * The document model *)

(** The list [[C1, C2, L1, L2, N1, N2, MAT, MF, MT, NS]] a control or head
    record is decoded to. *)
Module Items.
Record t : Type :=
  { C1 : scalar; C2 : scalar; L1 : Z; L2 : Z; N1 : Z; N2 : Z;
    MAT : Z; MF : Z; MT : Z; NS : Z }.
End Items.

(** The list [[HL, MAT, MF, MT, NS]] of a text record. *)
Module TextItems.
Record t : Type := { HL : str; MAT : Z; MF : Z; MT : Z; NS : Z }.
End TextItems.

(** [ENDFTab1Record]: the four lists [__init__] creates empty. *)
Record ENDFTab1Record : Type :=
  { NBT : list Z; INT : list Z; x : list scalar; y : list scalar }.

Definition ENDFTab1Record_init : ENDFTab1Record :=
  {| NBT := []; INT := []; x := []; y := [] |}.

(** What [getListRecord] returns: [itemsList] when [onlyList], the pair
    [(items, itemsList)] otherwise. *)
Inductive list_record : Type :=
| OnlyList (itemsList : list scalar)
| ItemsAndList (items : Items.t) (itemsList : list scalar).

Definition itemsList_of (r : list_record) : list scalar :=
  match r with
  | OnlyList l => l
  | ItemsAndList _ l => l
  end.

(** The values the handlers store in the attributes of a reaction. *)
Inductive attr : Type :=
| AScalar (v : scalar)
| AInt (n : Z)
| AStr (s : str)
| ALines (l : list str)
| AList (r : list_record)
| ATab1 (r : ENDFTab1Record).

(** [ENDFReaction(MT)]: [MT] and the attributes set on the object later. *)
Record ENDFReaction : Type :=
  { MT : Z; attrs : list (String.string * attr) }.

Definition ENDFReaction_init (mt : Z) : ENDFReaction := {| MT := mt; attrs := [] |}.

(** [r.name = v]. *)
Definition setattr (name : String.string) (v : attr) (r : ENDFReaction) : ENDFReaction :=
  {| MT := MT r;
     attrs := (name, v) :: filter (fun p => negb (String.eqb (fst p) name)) (attrs r) |}.

Definition getattr (name : String.string) (r : ENDFReaction) : option attr :=
  option_map snd (find (fun p => String.eqb (fst p) name) (attrs r)).

Arguments setattr name%_string v r.
Arguments getattr name%_string r.

(** An [ENDFFile] whose [__init__] ran: [ENDFFile1] is the only class of
    file the module instantiates. *)
Record ENDFFile : Type := { fileNumber : Z; reactions : list ENDFReaction }.

Definition ENDFFile1_init : ENDFFile := {| fileNumber := 1; reactions := [] |}.

(** A directory entry [(MF, MT, NC, MOD)]. *)
Definition entry : Type := (Z * Z * Z * Z)%type.

(** [Evaluation]: the file handle, the files and the directory
    [reactionList] (an attribute [readHeader] sets). *)
Record Evaluation : Type :=
  { fh : stream; files : list ENDFFile; reactionList : list entry }.

Definition Evaluation_init (ls : list str) : Evaluation :=
  {| fh := {| lines := ls; pos := 0 |}; files := []; reactionList := [] |}.

(** A method working on [self.fh] only. *)
Definition on_fh {A : Type} (c : M stream A) : M Evaluation A :=
  fun ev =>
    match c (fh ev) with
    | Ok (a, fh') =>
        Ok (a, {| fh := fh'; files := files ev; reactionList := reactionList ev |})
    | Raise e => Raise e
    | Unmodelled => Unmodelled
    | Loops => Loops
    end.

Definition set_files (fs : list ENDFFile) : M Evaluation unit :=
  fun ev => Ok (tt, {| fh := fh ev; files := fs; reactionList := reactionList ev |}).

Definition set_reactionList (l : list entry) : M Evaluation unit :=
  fun ev => Ok (tt, {| fh := fh ev; files := files ev; reactionList := l |}).

(* ================================================================== *)
(** * Record readers *)

Notation "'let?' x ':=' c 'in' k" := (obind c (fun x => k))
  (at level 10, x name, c at level 100, k at level 200).

(** [if not line: line = self.fh.readline()]. *)
Definition line_or_read (line : option str) : M stream str :=
  match line with
  | Some (c :: l) => ret (c :: l)
  | _ => readline
  end.

(** The fields of [getTextRecord], from the line. *)
Definition text_fields (line : str) : outcome TextItems.t :=
  let HL := slice 0 66 line in
  let? MAT := py_int (slice 66 70 line) in
  let? MF := py_int (slice 70 72 line) in
  let? MT := py_int (slice 72 75 line) in
  let? NS := py_int (slice 75 80 line) in
  Ok {| TextItems.HL := HL; TextItems.MAT := MAT; TextItems.MF := MF;
        TextItems.MT := MT; TextItems.NS := NS |}.

Definition getTextRecord (line : option str) : M Evaluation TextItems.t :=
  line <- on_fh (line_or_read line) ;;
  pure (text_fields line).

(** The fields of [getContRecord], from the line. *)
Definition cont_fields (skipC : bool) (line : str) : outcome Items.t :=
  let? C12 := (if skipC then Ok (SNone, SNone)
               else let? C1 := convert (slice 0 11 line) in
                    let? C2 := convert (slice 11 22 line) in
                    Ok (C1, C2)) in
  let? L1 := py_int (slice 22 33 line) in
  let? L2 := py_int (slice 33 44 line) in
  let? N1 := py_int (slice 44 55 line) in
  let? N2 := py_int (slice 55 66 line) in
  let? MAT := py_int (slice 66 70 line) in
  let? MF := py_int (slice 70 72 line) in
  let? MT := py_int (slice 72 75 line) in
  let? NS := py_int (slice 75 80 line) in
  Ok {| Items.C1 := fst C12; Items.C2 := snd C12; Items.L1 := L1; Items.L2 := L2;
        Items.N1 := N1; Items.N2 := N2; Items.MAT := MAT; Items.MF := MF;
        Items.MT := MT; Items.NS := NS |}.

Definition getContRecord (line : option str) (skipC : bool) : M Evaluation Items.t :=
  line <- on_fh (line_or_read line) ;;
  pure (cont_fields skipC line).

(** The fields of [getHeadRecord]: [ZA = int(convert(line[:11]))]. *)
Definition head_fields (line : str) : outcome Items.t :=
  let? ZA := (let? v := convert (slice 0 11 line) in int_of_scalar v) in
  let? AWR := convert (slice 11 22 line) in
  let? L1 := py_int (slice 22 33 line) in
  let? L2 := py_int (slice 33 44 line) in
  let? N1 := py_int (slice 44 55 line) in
  let? N2 := py_int (slice 55 66 line) in
  let? MAT := py_int (slice 66 70 line) in
  let? MF := py_int (slice 70 72 line) in
  let? MT := py_int (slice 72 75 line) in
  let? NS := py_int (slice 75 80 line) in
  Ok {| Items.C1 := SInt ZA; Items.C2 := AWR; Items.L1 := L1; Items.L2 := L2;
        Items.N1 := N1; Items.N2 := N2; Items.MAT := MAT; Items.MF := MF;
        Items.MT := MT; Items.NS := NS |}.

Definition getHeadRecord (line : option str) : M Evaluation Items.t :=
  line <- on_fh (line_or_read line) ;;
  pure (head_fields line).

(** ** LIST records *)

(** One turn of the inner loop of [getListRecord]:
<<
    val = convert(line[0:11]); itemsList.append(val); line = line[11:]
>> *)
Definition list_item (st : str * list scalar) : outcome (str * list scalar) :=
  let (line, itemsList) := st in
  let? val := convert (slice 0 11 line) in
  Ok (slice_from 11 line, itemsList ++ [val]).

(** One turn of the outer loop, on [(itemsList, m)]:
<<
    line = self.fh.readline(); toRead = min(6,NPL-m)
    for j in range(toRead): ...
    m = m + toRead
>> *)
Definition list_line (NPL : Z) (st : list scalar * Z) : M stream (list scalar * Z) :=
  let (itemsList, m) := st in
  line <- readline ;;
  let toRead := Z.min 6 (NPL - m) in
  r <- for_range toRead (fun st => pure (list_item st)) (line, itemsList) ;;
  ret (snd r, m + toRead).

Definition getListRecord (onlyList : bool) : M Evaluation list_record :=
  items <- getContRecord None false ;;
  let NPL := Items.N1 items in
  r <- on_fh (for_range ((NPL - 1) / 6 + 1) (list_line NPL) ([], 0)) ;;
  let itemsList := fst r in
  if onlyList then ret (OnlyList itemsList)
  else ret (ItemsAndList items itemsList).

(** ** TAB1 records *)

(** One turn of the inner loop over the interpolation regions:
<<
    NBT = int(line[0:11]); INT = int(line[11:22])
    self.NBT.append(NBT); self.INT.append(INT); line = line[22:]
>> *)
Definition tab1_region (st : str * ENDFTab1Record) : outcome (str * ENDFTab1Record) :=
  let (line, self) := st in
  let? nbt := py_int (slice 0 11 line) in
  let? int := py_int (slice 11 22 line) in
  Ok (slice_from 22 line,
      {| NBT := NBT self ++ [nbt]; INT := INT self ++ [int]; x := x self; y := y self |}).

(** One turn of the inner loop over the tabulated pairs:
<<
    x = convert(line[:11]); y = convert(line[11:22])
    self.x.append(x); self.y.append(y); line = line[22:]
>> *)
Definition tab1_pair (st : str * ENDFTab1Record) : outcome (str * ENDFTab1Record) :=
  let (line, self) := st in
  let? xv := convert (slice 0 11 line) in
  let? yv := convert (slice 11 22 line) in
  Ok (slice_from 22 line,
      {| NBT := NBT self; INT := INT self; x := x self ++ [xv]; y := y self ++ [yv] |}).

(** One turn of either outer loop, on [(self, m)]; [N] is [NR] or [NP]. *)
Definition tab1_line (item : str * ENDFTab1Record -> outcome (str * ENDFTab1Record))
    (N : Z) (st : ENDFTab1Record * Z) : M stream (ENDFTab1Record * Z) :=
  let (self, m) := st in
  line <- readline ;;
  let toRead := Z.min 3 (N - m) in
  r <- for_range toRead (fun st => pure (item st)) (line, self) ;;
  ret (snd r, m + toRead).

(** [ENDFTab1Record.read(self, fh)]; the result is [self] after the call. *)
Definition ENDFTab1Record_read (self : ENDFTab1Record) : M stream ENDFTab1Record :=
  line <- readline ;;
  NR <- pure (py_int (slice 44 55 line)) ;;
  NP <- pure (py_int (slice 55 66 line)) ;;
  r <- for_range ((NR - 1) / 3 + 1) (tab1_line tab1_region NR) (self, 0) ;;
  r <- for_range ((NP - 1) / 3 + 1) (tab1_line tab1_pair NP) (fst r, 0) ;;
  ret (fst r).

Definition getTab1Record : M Evaluation ENDFTab1Record :=
  on_fh (ENDFTab1Record_read ENDFTab1Record_init).

(* ================================================================== *)
(** * Lookups in the document *)

(** The first element satisfying [p], with its index: the index is the
    reference to the object, through which the handlers mutate it. *)
Fixpoint find_first {A : Type} (p : A -> bool) (l : list A) (i : nat) : option (nat * A) :=
  match l with
  | [] => None
  | a :: l' => if p a then Some (i, a) else find_first p l' (S i)
  end.

(** [findFile(fileNumber)]:
<<
    for f in self.files:
        if f.fileNumber == fileNumber:
            return f
>>
    Falling off the loop returns [None]. *)
Definition findFile (fileNumber_ : Z) : M Evaluation (option (nat * ENDFFile)) :=
  fun self =>
    Ok (find_first (fun f => fileNumber f =? fileNumber_) (files self) 0, self).

(** The inner loop of [findMT] over the files from index [i] on. *)
Fixpoint findMT_files (MT_ : Z) (fs : list ENDFFile) (i : nat)
  : option (nat * nat * ENDFReaction) :=
  match fs with
  | [] => None
  | f :: fs' =>
      match find_first (fun r => MT r =? MT_) (reactions f) 0 with
      | Some (j, r) => Some (i, j, r)
      | None => findMT_files MT_ fs' (S i)
      end
  end.

(** [findMT(MT)]:
<<
    for f in self.files:
        for r in f.reactions:
            if r.MT == MT:
                return r
>> *)
Definition findMT (MT_ : Z) : M Evaluation (option (nat * nat * ENDFReaction)) :=
  fun self => Ok (findMT_files MT_ (files self) 0, self).

(** ** Mutation through a reference *)

Fixpoint update_nth {A : Type} (i : nat) (f : A -> A) (l : list A) : list A :=
  match l, i with
  | [], _ => []
  | a :: l', O => f a :: l'
  | a :: l', Datatypes.S i' => a :: update_nth i' f l'
  end.

(** [f.reactions.append(r)] for the result [f] of [findFile]: on [None]
    the attribute access raises.  Returns the reference to [r]. *)
Definition append_reaction (f : option (nat * ENDFFile)) (r : ENDFReaction)
  : M Evaluation (nat * nat) :=
  match f with
  | None => fun _ => Raise AttributeError
  | Some (i, file) =>
      fs <- (fun self => Ok (files self, self)) ;;
      set_files (update_nth i (fun f => {| fileNumber := fileNumber f;
                                            reactions := reactions f ++ [r] |}) fs) ;;;
      ret (i, length (reactions file))
  end.

(** [r.name = v] for the reaction behind the reference. *)
Definition set_reaction_attr (ref : nat * nat) (name : String.string) (v : attr)
  : M Evaluation unit :=
  fs <- (fun self => Ok (files self, self)) ;;
  set_files (update_nth (fst ref)
               (fun f => {| fileNumber := fileNumber f;
                            reactions := update_nth (snd ref) (setattr name v) (reactions f) |})
               fs).

Arguments set_reaction_attr ref name%_string v.

(* ================================================================== *)
(** * Section handlers *)

(** [readTotalNu]. *)
Definition readTotalNu : M Evaluation unit :=
  file1 <- findFile 1 ;;
  nuTotal <- append_reaction file1 (ENDFReaction_init 452) ;;
  items <- getHeadRecord None ;;
  let LNU := Items.L2 items in
  set_reaction_attr nuTotal "LNU" (AInt LNU) ;;;
  (if LNU =? 1 then
     r <- getListRecord false ;; set_reaction_attr nuTotal "coeffs" (AList r)
   else if LNU =? 2 then
     r <- getTab1Record ;; set_reaction_attr nuTotal "value" (ATab1 r)
   else ret tt) ;;;
  (* Skip SEND record *)
  on_fh readline ;;;
  ret tt.

(** [readDelayedNu]. *)
Definition readDelayedNu : M Evaluation unit :=
  file1 <- findFile 1 ;;
  nuDelay <- append_reaction file1 (ENDFReaction_init 455) ;;
  items <- getHeadRecord None ;;
  let LDG := Items.L1 items in
  let LNU := Items.L2 items in
  set_reaction_attr nuDelay "LDG" (AInt LDG) ;;;
  set_reaction_attr nuDelay "LNU" (AInt LNU) ;;;
  if (LNU =? 2) && (LDG =? 0) then
    r <- getListRecord true ;;
    set_reaction_attr nuDelay "decayConst" (AList r) ;;;
    t <- getTab1Record ;;
    set_reaction_attr nuDelay "value" (ATab1 t) ;;;
    on_fh readline ;;;
    ret tt
  else ret tt.

(** [readPromptNu]. *)
Definition readPromptNu : M Evaluation unit :=
  file1 <- findFile 1 ;;
  nuPrompt <- append_reaction file1 (ENDFReaction_init 456) ;;
  items <- getHeadRecord None ;;
  let LNU := Items.L2 items in
  set_reaction_attr nuPrompt "LNU" (AInt LNU) ;;;
  (if LNU =? 2 then
     r <- getTab1Record ;; set_reaction_attr nuPrompt "value" (ATab1 r)
   else if LNU =? 1 then
     r <- getListRecord true ;; set_reaction_attr nuPrompt "value" (AList r)
   else ret tt) ;;;
  (* Skip SEND record *)
  on_fh readline ;;;
  ret tt.

(** [readFissionEnergy]: the reaction and the head record, nothing more. *)
Definition readFissionEnergy : M Evaluation unit :=
  file1 <- findFile 1 ;;
  eRelease <- append_reaction file1 (ENDFReaction_init 458) ;;
  items <- getHeadRecord None ;;
  ret tt.

(** [readDelayedPhoton]: the reaction and the head record, nothing more. *)
Definition readDelayedPhoton : M Evaluation unit :=
  file1 <- findFile 1 ;;
  dp <- append_reaction file1 (ENDFReaction_init 460) ;;
  items <- getHeadRecord None ;;
  ret tt.

(* ================================================================== *)
(** * The header and the directory *)

Definition digit_char (d : Z) : ascii := ascii_of_nat (Z.to_nat (48 + d)).

Fixpoint dec_digits (fuel : nat) (n : Z) (acc : str) : str :=
  match fuel with
  | O => acc
  | Datatypes.S f =>
      let acc' := digit_char (n mod 10) :: acc in
      if n / 10 =? 0 then acc' else dec_digits f (n / 10) acc'
  end.

(** ['{0:2}'.format(n)]: the decimal text of [n], right-aligned to two
    characters. *)
Definition format_2 (n : Z) : str :=
  let body := if n <? 0 then "-"%char :: dec_digits (Z.to_nat (- n)) (- n) []
              else dec_digits (Datatypes.S (Z.to_nat n)) n [] in
  repeat " "%char (2 - length body) ++ body.

(** [fh.tell()] and [fh.seek(position)]: positions are indices of lines. *)
Definition tell : M stream nat := fun fh => Ok (pos fh, fh).

Definition seek (position : nat) : M stream unit :=
  fun fh => Ok (tt, {| lines := lines fh; pos := position |}).

(** The loop of [seekFile]:
<<
    while True:
        position = self.fh.tell()
        line = self.fh.readline()
        if line == '':
            # Reached EOF
            print('Could not find File {0}'.format(fileNum))
        if line[70:72] == fileString:
            self.fh.seek(position)
            break
>>
    At the end of the file nothing leaves the loop: the message is
    printed and the next turn starts. *)
Fixpoint seek_loop (fuel : nat) (fileString : str) : M stream unit :=
  match fuel with
  | O => fun _ => Loops
  | Datatypes.S fuel' =>
      position <- tell ;;
      line <- readline ;;
      if str_eqb (slice 70 72 line) fileString then seek position
      else seek_loop fuel' fileString
  end.

Definition lines_left (self : Evaluation) : nat :=
  length (lines (fh self)) - pos (fh self).

(** [seekFile(fileNum)].  A turn of the loop that does not end it reads a
    line, or is at the end of the file, where every later turn is the
    same turn again: with one turn more than there are lines, fuel that
    is used up is a loop that does not end. *)
Definition seekFile (fileNum : Z) : M Evaluation unit :=
  on_fh (seek 0) ;;;
  let fileString := format_2 fileNum in
  left <- (fun self => Ok (lines_left self, self)) ;;
  on_fh (seek_loop (Datatypes.S left) fileString).

(** The descriptive records: [line = self.fh.readline()[:66]]. *)
Definition description_line (description : list str) : M Evaluation (list str) :=
  line <- on_fh readline ;;
  ret (description ++ [slice 0 66 line]).

(** The directory loop:
<<
    while True:
        line = self.fh.readline()
        if line[72:75] == '  0':
            break
        items = self.getContRecord(line, skipC=True)
        ...
        self.reactionList.append((MF,MT,NC,MOD))
>>
    Every turn that does not raise reads a line, so [fuel] above the
    number of lines left is never used up. *)
Fixpoint directory_loop (fuel : nat) (reactionList_ : list entry)
  : M Evaluation (list entry) :=
  match fuel with
  | O => fun _ => Loops
  | Datatypes.S fuel' =>
      line <- on_fh readline ;;
      if str_eqb (slice 72 75 line) (lit "  0") then ret reactionList_
      else
        items <- getContRecord (Some line) true ;;
        let MF := Items.L1 items in
        let MT := Items.L2 items in
        let NC := Items.N1 items in
        let MOD := Items.N2 items in
        directory_loop fuel' (reactionList_ ++ [(MF, MT, NC, MOD)])
  end.

(** [readHeader].  [file1] and [data] are local objects until
    [self.files.append(file1)], the last statement. *)
Definition readHeader : M Evaluation unit :=
  (* Find File 1 in evaluation *)
  seekFile 1 ;;;
  let data := ENDFReaction_init 451 in
  (* First HEAD record *)
  items <- getHeadRecord None ;;
  let data := setattr "ZA" (AScalar (Items.C1 items)) data in
  let data := setattr "AWR" (AScalar (Items.C2 items)) data in
  let data := setattr "LRP" (AInt (Items.L1 items)) data in
  let data := setattr "LFI" (AInt (Items.L2 items)) data in
  let data := setattr "NLIB" (AInt (Items.N1 items)) data in
  let data := setattr "NMOD" (AInt (Items.N2 items)) data in
  (* Control record 1 *)
  items <- getContRecord None false ;;
  let data := setattr "ELIS" (AScalar (Items.C1 items)) data in
  STA <- pure (int_of_scalar (Items.C2 items)) ;;
  let data := setattr "STA" (AInt STA) data in
  let data := setattr "LIS" (AInt (Items.L1 items)) data in
  let data := setattr "LISO" (AInt (Items.L2 items)) data in
  let data := setattr "NFOR" (AInt (Items.N2 items)) data in
  (* Control record 2 *)
  items <- getContRecord None false ;;
  let data := setattr "AWI" (AScalar (Items.C1 items)) data in
  let data := setattr "EMAX" (AScalar (Items.C2 items)) data in
  let data := setattr "LREL" (AInt (Items.L1 items)) data in
  let data := setattr "NSUB" (AInt (Items.N1 items)) data in
  let data := setattr "NVER" (AInt (Items.N2 items)) data in
  (* Control record 3 *)
  items <- getContRecord None false ;;
  let data := setattr "TEMP" (AScalar (Items.C1 items)) data in
  let data := setattr "LDRV" (AInt (Items.L1 items)) data in
  let NWD := Items.N1 items in
  let data := setattr "NWD" (AInt NWD) data in
  let data := setattr "NXC" (AInt (Items.N2 items)) data in
  (* Text record 1 *)
  items <- getTextRecord None ;;
  let text := TextItems.HL items in
  let data := setattr "ZSYMAM" (AStr (slice 0 11 text)) data in
  let data := setattr "ALAB" (AStr (slice 11 22 text)) data in
  let data := setattr "EDATE" (AStr (slice 22 32 text)) data in
  let data := setattr "AUTH" (AStr (slice 32 66 text)) data in
  (* Text record 2 *)
  items <- getTextRecord None ;;
  let text := TextItems.HL items in
  let data := setattr "REF" (AStr (slice 1 22 text)) data in
  let data := setattr "DDATE" (AStr (slice 22 32 text)) data in
  let data := setattr "RDATE" (AStr (slice 33 43 text)) data in
  let data := setattr "ENDATE" (AStr (slice 55 63 text)) data in
  (* Text record 3 *)
  items <- getTextRecord None ;;
  let data := setattr "HSUB" (AStr (TextItems.HL items)) data in
  (* Now read descriptive records *)
  description <- for_range (NWD - 3) description_line [] ;;
  let data := setattr "description" (ALines description) data in
  (* File numbers, reaction designations, and number of records *)
  left <- (fun self => Ok (lines_left self, self)) ;;
  reactionList_ <- directory_loop (Datatypes.S left) [] ;;
  set_reactionList reactionList_ ;;;
  fs <- (fun self => Ok (files self, self)) ;;
  set_files (fs ++ [{| fileNumber := 1; reactions := [data] |}]).

(* ================================================================== *)
(** * The dispatcher *)

(** The body of the loop of [read] for one directory entry. *)
Definition dispatch_entry (e : entry) : M Evaluation unit :=
  let '(MF, MT, NC, MOD) := e in
  (* File 1 data *)
  if MF =? 1 then
    if MT =? 452 then readTotalNu
    else if MT =? 455 then readDelayedNu
    else if MT =? 456 then readPromptNu
    else if MT =? 458 then readFissionEnergy
    else if MT =? 460 then readDelayedPhoton
    else ret tt
  else ret tt.

(** [for MF, MT, NC, MOD in entries: ...]. *)
Fixpoint dispatch (entries : list entry) : M Evaluation unit :=
  match entries with
  | [] => ret tt
  | e :: entries' => dispatch_entry e ;;; dispatch entries'
  end.

(** [read]: the header, then the directory [self.reactionList[1:]]. *)
Definition read : M Evaluation unit :=
  readHeader ;;;
  entries <- (fun self => Ok (tl (reactionList self), self)) ;;
  dispatch entries.

(** The section kinds the dispatcher has a handler for. *)
Definition recognized (e : entry) : bool :=
  let '(MF, MT, NC, MOD) := e in
  (MF =? 1) && ((MT =? 452) || (MT =? 455) || (MT =? 456) || (MT =? 458) || (MT =? 460)).

(* ================================================================== *)
(** * Definitions used to state the properties *)

(** ** The value of a slot in exponent-suffix notation *)

(** The mantissa: a plain decimal numeral (no exponent marker), with
    optional whitespace and sign in front. *)
Definition endf_mantissa (m : str) : option Q :=
  let (neg, body) := split_sign (drop_while is_space m) in
  match parse_decimal body with
  | Some (v, k, []) => Some (signed neg (dec_value v (- Z.of_nat k)))
  | _ => None
  end.

(** The two-character exponent suffix: a sign and a digit. *)
Definition endf_exponent (suffix : str) : option Z :=
  match suffix with
  | [sg; d] =>
      if is_digit d then
        if Ascii.eqb sg "+"%char then Some (digit_val d)
        else if Ascii.eqb sg "-"%char then Some (- digit_val d)
        else None
      else None
  | _ => None
  end.

(** mantissa * 10^exponent, for a slot split before its last two
    characters. *)
Definition endf_value (slot : str) : option Q :=
  match endf_mantissa (slice_to_m2 slot), endf_exponent (slice_from_m2 slot) with
  | Some qm, Some e => Some (Qred (qm * inject_Z 10 ^ e))
  | _, _ => None
  end.

(** ** Line counts *)

(** ceil(a / b) for [0 < b]. *)
Definition ceil_div (a b : Z) : Z := - ((- a) / b).

(** ** The common shape of the three line loops *)

(** One turn of an outer loop reading up to [c] items per line, on
    [(acc, m)]: [list_line] and [tab1_line] are instances. *)
Definition block_line {Acc : Type} (c : Z) (item : str * Acc -> outcome (str * Acc))
    (N : Z) (st : Acc * Z) : M stream (Acc * Z) :=
  let (acc, m) := st in
  line <- readline ;;
  let toRead := Z.min c (N - m) in
  r <- for_range toRead (fun st => pure (item st)) (line, acc) ;;
  ret (snd r, m + toRead).

(** [n] turns of an inner loop, as a computation without state. *)
Fixpoint iter_items {Acc : Type} (item : str * Acc -> outcome (str * Acc))
    (n : nat) (st : str * Acc) : outcome (str * Acc) :=
  match n with
  | O => Ok st
  | Datatypes.S n' => let? st' := item st in iter_items item n' st'
  end.

(** The slots [slots] are laid out on the lines [ls], [c] to a line, every
    line but the last one full; what follows the slots on a line is free. *)
Inductive Packed (c : nat) : list str -> list str -> Prop :=
| Packed_nil : Packed c [] []
| Packed_line (chunk others : list str) (tail : str) (ls : list str) :
    chunk <> [] ->
    (length chunk <= c)%nat ->
    ((length chunk < c)%nat -> others = []) ->
    Packed c others ls ->
    Packed c (chunk ++ others) ((concat chunk ++ tail) :: ls).

(** The lines of the stream from the position on. *)
Definition unread (fh_ : stream) : list str := skipn (pos fh_) (lines fh_).

(** ** Auxiliary definitions of the proofs *)

(** What [readline] returns, and the state after it. *)
Definition next_line (s : stream) : str * stream :=
  match nth_error (lines s) (pos s) with
  | Some l => (l, {| lines := lines s; pos := Datatypes.S (pos s) |})
  | None => ([], s)
  end.

(** [k] turns of a loop over lines of [c] items, from [m] items read on,
    read the [N - m] items that are left. *)
Definition covers (c N : Z) (k : nat) (m : Z) : Prop :=
  match k with
  | O => N = m
  | Datatypes.S k' => c * Z.of_nat k' < N - m <= c * Z.of_nat k
  end.

(** The evaluation with its file handle replaced. *)
Definition with_fh (ev : Evaluation) (fh' : stream) : Evaluation :=
  {| fh := fh'; files := files ev; reactionList := reactionList ev |}.

(** The value a slot decodes to ([None] when it does not decode). *)
Definition slot_value (sl : str) : scalar :=
  match convert sl with Ok v => v | _ => SNone end.

(** A slot of 11 characters that [convert] decodes. *)
Definition good_slot (sl : str) : Prop := length sl = 11%nat /\ is_Ok (convert sl) = true.


(** ** What the properties compare *)

(** From [ev] to [ev'] the stream went [n] lines forward and nothing else
    changed. *)
Definition advanced (ev ev' : Evaluation) (n : Z) : Prop :=
  lines (fh ev') = lines (fh ev) /\
  Z.of_nat (pos (fh ev')) = Z.of_nat (pos (fh ev)) + n /\
  files ev' = files ev /\ reactionList ev' = reactionList ev.

(** An evaluation about to read [ls], with the files [fs]. *)
Definition evaluation_at (ls : list str) (fs : list ENDFFile) : Evaluation :=
  {| fh := {| lines := ls; pos := 0 |}; files := fs; reactionList := [] |}.

(** The document a run leaves. *)
Definition document_of (o : outcome (unit * Evaluation)) : outcome (list ENDFFile) :=
  obind o (fun r => Ok (files (snd r))).

(** The value a computation returns, if it does. *)
Definition fst_ok {A S : Type} (o : outcome (A * S)) : option A :=
  match o with Ok (a, _) => Some a | _ => None end.

(** Skipping the entry [e], whose section is the lines [section_], leaves
    the entries after it parsed as they are without that section. *)
Definition resynchronized (e : entry) (section_ rest : list str)
    (entries : list entry) (fs : list ENDFFile) : Prop :=
  document_of (dispatch (e :: entries) (evaluation_at (section_ ++ rest) fs))
  = document_of (dispatch entries (evaluation_at rest fs)).

(** The invariant stated for TAB1 records. *)
Fixpoint nondecreasing (l : list Z) : Prop :=
  match l with
  | a :: (b :: _) as l' => a <= b /\ nondecreasing l'
  | _ => True
  end.

Definition tab1_invariant (NR NP : Z) (r : ENDFTab1Record) : Prop :=
  Z.of_nat (length (NBT r)) = NR /\ Z.of_nat (length (INT r)) = NR /\
  Z.of_nat (length (x r)) = NP /\ Z.of_nat (length (y r)) = NP /\
  nondecreasing (NBT r) /\ last (NBT r) 0 = NP.

(* ================================================================== *)
(** * Tapes *)

Definition nl : ascii := "010"%char.

(** A line of the tape: the text and its line end. *)
Definition line (s : String.string) : str := lit s ++ [nl].
Arguments line s%_string.

(** A synthetic evaluation of material 9228: the header with its
    directory, then the sections of file 1. *)
Definition tape_header : list str :=
  [ line " synthetic tape                                                      1 0  0    0";
    line " 9.223500+4 2.330250+2          1          1          0          09228 1451    1";
    line " 0.000000+0 0.000000+0          0          0          0          69228 1451    2";
    line " 1.000000+0 2.000000+7          0          0         10          79228 1451    3";
    line " 0.000000+0 0.000000+0          0          0          3          49228 1451    4";
    line " 92-U -235 LANL       EVAL-SEP06 Young,Chadwick,Talou,Madland     9228 1451    5";
    line "                      DIST-DEC06                       20111222   9228 1451    6";
    line "----ENDF/B-VII.1      MATERIAL 9228                               9228 1451    7";
    line "                                1        451         13          09228 1451    8";
    line "                                1        452          4          09228 1451    9";
    line "                                1        453          3          09228 1451   10";
    line "                                1        456          4          09228 1451   11";
    line " 0.000000+0 0.000000+0          0          0          0          09228 1  099999"].

Definition section_452 : list str :=
  [ line " 9.223500+4 2.330250+2          0          1          0          09228 1452    1";
    line " 0.000000+0 0.000000+0          0          0          2          09228 1452    2";
    line " 2.436700+0 5.000000-2                                            9228 1452    3";
    line " 0.000000+0 0.000000+0          0          0          0          09228 1  099999"].

Definition section_453 : list str :=
  [ line " 9.223500+4 2.330250+2          0          0          0          09228 1453    1";
    line " 1.000000+0 2.000000+0          0          0          0          09228 1453    2";
    line " 0.000000+0 0.000000+0          0          0          0          09228 1  099999"].

Definition section_456 : list str :=
  [ line " 9.223500+4 2.330250+2          0          1          0          09228 1456    1";
    line " 0.000000+0 0.000000+0          0          0          1          09228 1456    2";
    line " 2.414000+0                                                       9228 1456    3";
    line " 0.000000+0 0.000000+0          0          0          0          09228 1  099999"].

Definition section_458 : list str :=
  [ line " 9.223500+4 2.330250+2          0          0          0          09228 1458    1";
    line " 0.000000+0 0.000000+0          0          0         18          99228 1458    2";
    line " 1.691300+8 4.900000+5 4.838000+6 7.000000+4 7.400000+6 1.110000+69228 1458    3";
    line " 6.600000+6 5.000000+5 6.330000+6 5.000000+4 6.500000+6 5.000000+49228 1458    4";
    line " 8.750000+6 7.000000+4 2.028300+8 1.300000+5 1.940200+8 1.500000+59228 1458    5";
    line " 0.000000+0 0.000000+0          0          0          0          09228 1  099999"].

Definition section_460 : list str :=
  [ line " 9.223500+4 2.330250+2          1          0          0          09228 1460    1";
    line " 0.000000+0 0.000000+0          0          0          0          09228 1  099999"].

Definition list8_lines : list str :=
  [ line " 0.000000+0 0.000000+0          0          0          8          09228 1452    2";
    line " 1.000000+0 2.000000+0 3.000000+0 4.000000+0 5.000000+0 6.000000+09228 1452    3";
    line " 7.500000-1-8.250000+2                                            9228 1452    4"].

Definition list8_slots : list str :=
  [lit " 1.000000+0";
   lit " 2.000000+0";
   lit " 3.000000+0";
   lit " 4.000000+0";
   lit " 5.000000+0";
   lit " 6.000000+0";
   lit " 7.500000-1";
   lit "-8.250000+2"].

Definition tab1_lines : list str :=
  [ line " 0.000000+0 0.000000+0          0          0          1          29228 1452    2";
    line "          2          2                                            9228 1452    3";
    line " 1.000000-5 2.436700+0 2.000000+7 5.209845+0                      9228 1452    4"].

Definition tab1_unordered_lines : list str :=
  [ line " 0.000000+0 0.000000+0          0          0          2          39228 1452    2";
    line "          3          2          2          5                      9228 1452    3";
    line " 1.000000-5 2.436700+0 1.000000+3 2.500000+0 2.000000+7 5.209845+09228 1452    4"].

Definition tab1_four_lines : list str :=
  [ line " 0.000000+0 0.000000+0          0          0          1          49228 1452    2";
    line "          4          2                                            9228 1452    3";
    line " 1.000000-5 2.436700+0 1.000000+3 2.500000+0 1.000000+6 2.600000+09228 1452    4";
    line " 2.000000+7 5.209845+0                                            9228 1452    5"].


(** The tape: header, total nu, a section the dispatcher does not know,
    prompt nu. *)
Definition tape_sandwich : list str :=
  tape_header ++ section_452 ++ section_453 ++ section_456.

(** A TAB1 record cut before its last line. *)
Definition tab1_truncated_lines : list str := removelast tab1_four_lines.

(** A document of one file with two reactions, at the end of its tape. *)
Definition sample_file : ENDFFile :=
  {| fileNumber := 1; reactions := [ENDFReaction_init 451; ENDFReaction_init 452] |}.

Definition sample_document : Evaluation := evaluation_at [] [sample_file].

(** The values of the LIST record [list8_lines]. *)
Definition list8_values : list scalar :=
  [SFloat (Fin (1 # 1)); SFloat (Fin (2 # 1)); SFloat (Fin (3 # 1));
   SFloat (Fin (4 # 1)); SFloat (Fin (5 # 1)); SFloat (Fin (6 # 1));
   SFloat (Fin (3 # 4)); SFloat (Fin (-825 # 1))].

(* ================================================================== *)
(** * Further definitions used to state properties *)

(** [c] keeps [P]: from a state where [P] holds, a run of [c] that returns
    ends in a state where [P] holds. *)
Definition preserves {S A : Type} (P : S -> Prop) (c : M S A) : Prop :=
  forall s a s', P s -> c s = Ok (a, s') -> P s'.

(** From [s] to [s'] the stream kept its lines and its cursor did not move
    back, nor past the end of the file if it was not past it. *)
Definition forward (s s' : stream) : Prop :=
  lines s' = lines s /\ (pos s <= pos s')%nat /\
  ((pos s <= length (lines s))%nat -> (pos s' <= length (lines s'))%nat).

(** The document [fs'] has the files of [fs], each with the reactions it
    had, in their order and unchanged, and possibly more after them. *)
Definition extends (fs fs' : list ENDFFile) : Prop :=
  Forall2 (fun f f' => fileNumber f' = fileNumber f /\
                       exists added, reactions f' = reactions f ++ added)
          fs fs'.

(** [f] with the reaction [r] appended. *)
Definition with_reaction (r : ENDFReaction) (f : ENDFFile) : ENDFFile :=
  {| fileNumber := fileNumber f; reactions := reactions f ++ [r] |}.

(** The reaction type of a directory entry. *)
Definition entry_MT (e : entry) : Z := let '(_, MT_, _, _) := e in MT_.

(** What a handler keeps true after it has appended its reaction to the
    file at index [i] of the files [fs0]: the directory is [rl0], and the
    files are [fs0] with one reaction of type [mt] more in that file. *)
Definition reaction_added (fs0 : list ENDFFile) (rl0 : list entry) (i : nat) (mt : Z)
    (ev : Evaluation) : Prop :=
  reactionList ev = rl0 /\
  exists r, MT r = mt /\ files ev = update_nth i (with_reaction r) fs0.

(** The document is the files [fs0] and the directory [rl0]. *)
Definition document_is (fs0 : list ENDFFile) (rl0 : list entry) (ev : Evaluation) : Prop :=
  files ev = fs0 /\ reactionList ev = rl0.

(** From a state where [P] holds, a run of [c] that returns [a] ends in a
    state where [Q a] holds. *)
Definition hoare {S A : Type} (P : S -> Prop) (c : M S A) (Q : A -> S -> Prop) : Prop :=
  forall s a s', P s -> c s = Ok (a, s') -> Q a s'.

(** [l] is a line of the directory holding the entry [e]: not the line
    that ends the directory, and one whose four integer fields decode. *)
Definition directory_line (l : str) (e : entry) : Prop :=
  l <> [] /\ str_eqb (slice 72 75 l) (lit "  0") = false /\
  exists items, cont_fields true l = Ok items /\
                e = (Items.L1 items, Items.L2 items, Items.N1 items, Items.N2 items).

(** The number [int] decodes ([0] when it does not decode). *)
Definition int_value (s : str) : Z :=
  match py_int s with Ok n => n | _ => 0 end.

(** A slot of 22 characters holding a pair (NBT, INT), and what reading it
    appends to the record. *)
Definition good_region (sl : str) : Prop :=
  length sl = 22%nat /\ is_Ok (py_int (firstn 11 sl)) = true /\
  is_Ok (py_int (skipn 11 sl)) = true.

Definition region_step (sl : str) (self : ENDFTab1Record) : ENDFTab1Record :=
  {| NBT := NBT self ++ [int_value (firstn 11 sl)];
     INT := INT self ++ [int_value (skipn 11 sl)];
     x := x self; y := y self |}.

(** A slot of 22 characters holding a pair (x, y), and what reading it
    appends to the record. *)
Definition good_pair (sl : str) : Prop :=
  length sl = 22%nat /\ is_Ok (convert (firstn 11 sl)) = true /\
  is_Ok (convert (skipn 11 sl)) = true.

Definition pair_step (sl : str) (self : ENDFTab1Record) : ENDFTab1Record :=
  {| NBT := NBT self; INT := INT self;
     x := x self ++ [slot_value (firstn 11 sl)];
     y := y self ++ [slot_value (skipn 11 sl)] |}.

(** The slot [sl] holds the integers [v]. *)
Definition region_holds (sl : str) (v : Z * Z) : Prop :=
  length sl = 22%nat /\ py_int (firstn 11 sl) = Ok (fst v) /\
  py_int (skipn 11 sl) = Ok (snd v).

(** The slot [sl] holds the values [v]. *)
Definition pair_holds (sl : str) (v : scalar * scalar) : Prop :=
  length sl = 22%nat /\ convert (firstn 11 sl) = Ok (fst v) /\
  convert (skipn 11 sl) = Ok (snd v).

(** From [ev] to [ev'] only the stream was read: it went forward, and the
    files and the directory are the same. *)
Definition read_on (ev ev' : Evaluation) : Prop :=
  forward (fh ev) (fh ev') /\ files ev' = files ev /\
  reactionList ev' = reactionList ev.

(* ================================================================== *)
(** * The files of a tape *)

(** [files.add(fileNum)]: the set is kept as the list of its members, in
    the order they came in. *)
Definition set_add (n : Z) (s : list Z) : list Z :=
  if existsb (Z.eqb n) s then s else s ++ [n].

(** The loop of [lookForFiles]:
<<
    for line in self.fh:
        try:
            fileNum = int(line[70:72])
            if fileNum == 0:
                continue
        except ValueError:
            raise
        except IndexError:
            raise
        files.add(fileNum)
>> *)
Fixpoint look_lines (ls : list str) (files_ : list Z) : outcome (list Z) :=
  match ls with
  | [] => Ok files_
  | line :: ls' =>
      let? fileNum := py_int (slice 70 72 line) in
      if fileNum =? 0 then look_lines ls' files_
      else look_lines ls' (set_add fileNum files_)
  end.

(** [lookForFiles]: from the start of the file to its end; the set it
    prints is what is returned here. *)
Definition lookForFiles : M Evaluation (list Z) :=
  fun self =>
    let? files_ := look_lines (lines (fh self)) [] in
    Ok (files_, with_fh self {| lines := lines (fh self);
                                pos := length (lines (fh self)) |}).

(* ================================================================== *)
(** * More of the synthetic tape *)

(** Delayed nu with energy-independent decay constants: six constants, and
    a table of one region and two points. *)
Definition section_455 : list str :=
  [ line " 9.223500+4 2.330250+2          0          2          0          09228 1455    1";
    line " 0.000000+0 0.000000+0          0          0          6          09228 1455    2";
    line " 1.249423-2 3.182413-2 1.093750-1 3.169900-1 1.353980+0 8.636380+09228 1455    3";
    line " 0.000000+0 0.000000+0          0          0          1          29228 1455    4";
    line "          2          2                                            9228 1455    5";
    line " 1.000000-5 1.585000-2 2.000000+7 9.000000-3                      9228 1455    6";
    line " 0.000000+0 0.000000+0          0          0          0          09228 1  099999"].

(** A TAB1 record of one region and no point, and the same cut before
    its last line. *)
Definition tab1_region_lines : list str :=
  [ line " 0.000000+0 0.000000+0          0          0          1          09228 1452    2";
    line "          2          2                                            9228 1452    3"].

(** An evaluation about to read [ls], holding an empty File 1. *)
Definition file1_document (ls : list str) : Evaluation :=
  evaluation_at ls [ENDFFile1_init].

(** The slots of 11 characters of a line, [n] of them. *)
Fixpoint slots_11 (n : nat) (l : str) : list str :=
  match n with
  | O => []
  | Datatypes.S n' => firstn 11 l :: slots_11 n' (skipn 11 l)
  end.

(** The slots of 22 characters of a line, [n] of them. *)
Fixpoint slots_22 (n : nat) (l : str) : list str :=
  match n with
  | O => []
  | Datatypes.S n' => firstn 22 l :: slots_22 n' (skipn 22 l)
  end.

(* ================================================================== *)
(** * The search of [seekFile] in closed form *)

(** The index of the first line whose columns 71-72 are [fileString],
    counting from [i]. *)
Fixpoint seek_from (ls : list str) (i : nat) (fileString : str) : option nat :=
  match ls with
  | [] => None
  | l :: ls' =>
      if str_eqb (slice 70 72 l) fileString then Some i
      else seek_from ls' (Datatypes.S i) fileString
  end.

(* ================================================================== *)
(** * Properties *)

(** ** The definitions on small inputs *)

Example py_int_field : py_int (lit "        452") = Ok 452.
Proof. vm_compute. reflexivity. Qed.

Example py_int_signed : py_int (lit "  -17 ") = Ok (-17).
Proof. vm_compute. reflexivity. Qed.

Example py_float_plain : py_float (lit " 2.5e-1") = Ok (Fin (1 # 4)).
Proof. vm_compute. reflexivity. Qed.

Example py_float_overflow : py_float (lit "1e400") = Ok (Inf false).
Proof. vm_compute. reflexivity. Qed.

Example py_eval_int : py_eval (lit "   12 ") = Ok (SInt 12).
Proof. vm_compute. reflexivity. Qed.

Example py_eval_other : py_eval (lit "1+1") = Unmodelled.
Proof. vm_compute. reflexivity. Qed.

(** With a two-digit exponent the sign is not in the second-to-last
    place: the slot goes to [eval], as the subtraction 1.23456 - 12. *)
Example convert_two_digit_exponent :
  convert (lit " 1.23456-12") = Unmodelled.
Proof. vm_compute. reflexivity. Qed.

(** With an explicit exponent marker in front of the sign the mantissa is
    no numeral: [float] is given [1.234567Ee+5]. *)
Example convert_explicit_marker :
  convert (lit "1.234567E+5") = Raise ValueError.
Proof. vm_compute. reflexivity. Qed.

(** [int] of a float truncates the binary64 number: 1e23 is not one. *)
Example int_of_float_binary64 :
  obind (convert (lit "       1e23")) int_of_scalar = Ok 99999999999999991611392.
Proof. vm_compute. reflexivity. Qed.

Example int_of_float_exact :
  obind (convert (lit " 9.223500+4")) int_of_scalar = Ok 92235.
Proof. vm_compute. reflexivity. Qed.

Example binary64_tenth :
  binary64 (1 # 10) = 3602879701896397 # 36028797018963968.
Proof. vm_compute. reflexivity. Qed.

Example binary64_tie_to_even :
  binary64 (9007199254740993 # 1) = 9007199254740992 # 1.
Proof. vm_compute. reflexivity. Qed.

Example format_2_one : format_2 1 = lit " 1".
Proof. vm_compute. reflexivity. Qed.

Example ceil_div_values :
  ceil_div 0 6 = 0 /\ ceil_div 6 6 = 1 /\ ceil_div 8 6 = 2 /\ ceil_div 4 3 = 2.
Proof. vm_compute. repeat split. Qed.

Example read_sandwich_document :
  obind (document_of (read (Evaluation_init tape_sandwich)))
        (fun fs => Ok (map (fun f => (fileNumber f, map MT (reactions f))) fs))
  = Ok [(1, [451; 452; 456])].
Proof. vm_compute. reflexivity. Qed.

(* ================================================================== *)
(** * Strings: scanning lemmas *)

Lemma drop_while_app_stop (p : ascii -> bool) (a : str) (c : ascii) (t : str) :
  p c = false -> drop_while p (a ++ c :: t) = drop_while p a ++ c :: t.
Proof.
  intros Hc. induction a as [|b a IH]; simpl.
  - now rewrite Hc.
  - destruct (p b); [exact IH | reflexivity].
Qed.

Lemma drop_while_all (p : ascii -> bool) (s : str) :
  forallb p s = true -> drop_while p s = [].
Proof.
  induction s as [|b s IH]; simpl; [reflexivity|].
  intros H. apply andb_true_iff in H as [Hb Hs]. now rewrite Hb, IH.
Qed.

Lemma rdrop_while_snoc (p : ascii -> bool) (a : str) (c : ascii) :
  p c = false -> rdrop_while p (a ++ [c]) = a ++ [c].
Proof.
  intros Hc. unfold rdrop_while. rewrite rev_app_distr. simpl.
  rewrite Hc. simpl. now rewrite rev_involutive.
Qed.

Lemma rdrop_while_snoc_skip (p : ascii -> bool) (a : str) (c : ascii) :
  p c = true -> rdrop_while p (a ++ [c]) = rdrop_while p a.
Proof.
  intros Hc. unfold rdrop_while. rewrite rev_app_distr. simpl.
  now rewrite Hc.
Qed.

Lemma rdrop_while_all (p : ascii -> bool) (s : str) :
  forallb p s = true -> rdrop_while p s = [].
Proof.
  intros H. unfold rdrop_while. rewrite drop_while_all; [reflexivity|].
  apply forallb_forall. intros c Hc. apply in_rev in Hc.
  now apply (proj1 (forallb_forall p s) H).
Qed.

Lemma span_app (p : ascii -> bool) (a t : str) :
  match t with [] => True | c :: _ => p c = false end ->
  span p (a ++ t) = (fst (span p a), snd (span p a) ++ t).
Proof.
  intros Ht. induction a as [|b a IH]; simpl.
  - destruct t as [|c t]; [reflexivity|]. simpl. now rewrite Ht.
  - destruct (p b); [|reflexivity].
    rewrite IH. now destruct (span p a).
Qed.

Lemma span_parts (p : ascii -> bool) (s : str) :
  fst (span p s) ++ snd (span p s) = s /\ forallb p (fst (span p s)) = true.
Proof.
  induction s as [|b s [IH1 IH2]]; simpl; [now split|].
  destruct (p b) eqn:Hb; [|now split].
  destruct (span p s) as [u v]. simpl in *. rewrite Hb, IH1, IH2. now split.
Qed.

Lemma span_all (p : ascii -> bool) (s : str) :
  forallb p s = true -> span p s = (s, []).
Proof.
  induction s as [|b s IH]; simpl; [reflexivity|].
  intros H. apply andb_true_iff in H as [Hb Hs]. now rewrite Hb, IH.
Qed.

Lemma str_eqb_eq (s t : str) : str_eqb s t = true -> s = t.
Proof.
  revert t. induction s as [|a s IH]; intros [|b t]; simpl; try discriminate; auto.
  intros H. apply andb_true_iff in H as [H1 H2].
  apply Ascii.eqb_eq in H1. subst. f_equal. now apply IH.
Qed.

Lemma str_eqb_refl (s : str) : str_eqb s s = true.
Proof. induction s; simpl; [reflexivity|]. now rewrite Ascii.eqb_refl. Qed.

Lemma sign_cases (c : ascii) :
  ascii_in c ["+"; "-"]%char = true -> c = "+"%char \/ c = "-"%char.
Proof.
  unfold ascii_in. simpl. intros H.
  apply orb_true_iff in H as [H|H]; [left; now apply Ascii.eqb_eq|].
  apply orb_true_iff in H as [H|H]; [right; now apply Ascii.eqb_eq|discriminate].
Qed.

(** [s[:-2]], [s[-2]] and [s[-2:]] of a string of two characters or more. *)
Lemma split_m2 (s : str) :
  (2 <= length s)%nat ->
  exists m c d, s = m ++ [c; d] /\ index_m2 s = Some c /\
                slice_to_m2 s = m /\ slice_from_m2 s = [c; d].
Proof.
  intros H.
  assert (Hs : s = firstn (length s - 2) s ++ skipn (length s - 2) s)
    by (symmetry; apply firstn_skipn).
  assert (Hl : length (skipn (length s - 2) s) = 2%nat)
    by (rewrite length_skipn; lia).
  destruct (skipn (length s - 2) s) as [|c [|d [|e r]]] eqn:Hk; try discriminate.
  exists (firstn (length s - 2) s), c, d.
  unfold index_m2, slice_to_m2, slice_from_m2.
  rewrite Hk. repeat split; auto.
  destruct (Nat.ltb_spec (length s) 2); [lia|].
  rewrite Hs at 1. rewrite nth_error_app2; rewrite length_firstn; [|lia].
  replace (length s - 2 - Nat.min (length s - 2) (length s))%nat with 0%nat by lia.
  reflexivity.
Qed.

Lemma index_m2_short (s : str) : (length s < 2)%nat -> index_m2 s = None.
Proof.
  intros H. unfold index_m2. destruct (Nat.ltb_spec (length s) 2); [reflexivity|lia].
Qed.

Lemma split_sign_app_e (s t : str) :
  split_sign (s ++ "e"%char :: t)
  = (fst (split_sign s), snd (split_sign s) ++ "e"%char :: t).
Proof.
  destruct s as [|a s]; [reflexivity|].
  destruct a as [[] [] [] [] [] [] [] []]; reflexivity.
Qed.

Lemma is_space_not_digit (c : ascii) : is_space c = true -> is_digit c = false.
Proof.
  destruct c as [[] [] [] [] [] [] [] []]; vm_compute; intros H;
    try reflexivity; discriminate H.
Qed.

Lemma digits_val_single (d : ascii) : digits_val [d] = digit_val d.
Proof. unfold digits_val. simpl. lia. Qed.

(* ================================================================== *)
(** * Numerals *)

Lemma parse_decimal_app (body t : str) :
  match t with
  | [] => True
  | c :: _ => is_digit c = false /\ c <> "."%char
  end ->
  parse_decimal (body ++ t)
  = match parse_decimal body with
    | Some (v, k, r) => Some (v, k, r ++ t)
    | None => None
    end.
Proof.
  intros Ht. unfold parse_decimal.
  rewrite span_app by (destruct t; [exact I | apply Ht]).
  destruct (span is_digit body) as [ip r1]. simpl.
  destruct r1 as [|c r2]; simpl.
  - destruct t as [|c t]; [now destruct (nonempty ip)|].
    destruct Ht as [_ Hdot].
    destruct (nonempty ip);
      destruct c as [[] [] [] [] [] [] [] []]; try reflexivity; now elim Hdot.
  - assert (Hr : forall (X : Type) (a b : X),
               match c with "."%char => a | _ => b end
               = if Ascii.eqb c "."%char then a else b).
    { intros. destruct c as [[] [] [] [] [] [] [] []]; reflexivity. }
    rewrite !Hr. destruct (Ascii.eqb c "."%char).
    + rewrite span_app by (destruct t; [exact I | apply Ht]).
      destruct (span is_digit r2) as [fp r3]. simpl.
      now destruct (nonempty (ip ++ fp)).
    + now destruct (nonempty ip).
Qed.

(** What [parse_exponent] leaves of a text holding an [e] further on. *)
Lemma parse_exponent_rest (a u : str) (e : Z) (rest : str) :
  a <> [] ->
  parse_exponent (a ++ "e"%char :: u) = Some (e, rest) -> rest <> [].
Proof.
  intros Ha. destruct a as [|c0 a]; [contradiction|].
  unfold parse_exponent. rewrite <- app_comm_cons.
  destruct (ascii_in c0 ["e"; "E"]%char); [|intros H; discriminate H].
  rewrite split_sign_app_e.
  destruct (split_sign a) as [neg w]. cbn [fst snd].
  rewrite span_app by reflexivity.
  destruct (span is_digit w) as [ds r]. cbn [fst snd].
  destruct (nonempty ds); [|intros H; discriminate H].
  intros H. injection H as _ <-. now destruct r.
Qed.

Lemma Qpower_10_nonzero : ~ inject_Z 10 == 0.
Proof. intros H. unfold Qeq in H. simpl in H. discriminate H. Qed.

(** [dec_value m e] is m * 10^e. *)
Lemma dec_value_spec (m e : Z) : dec_value m e == inject_Z m * inject_Z 10 ^ e.
Proof.
  unfold dec_value. rewrite Qred_correct.
  destruct (Z.leb_spec 0 e) as [He|He].
  - rewrite <- Zpower_Qpower by assumption.
    rewrite <- inject_Z_mult. reflexivity.
  - replace e with (- (- e)) at 2 by lia.
    rewrite Qpower_opp. rewrite <- Zpower_Qpower by lia.
    assert (Hp : 0 < 10 ^ (- e)) by (apply Z.pow_pos_nonneg; lia).
    rewrite (Qmake_Qdiv m (Z.to_pos (10 ^ (- e)))).
    rewrite Z2Pos.id by assumption. reflexivity.
Qed.

Lemma signed_spec (neg : bool) (q : Q) :
  signed neg q == if neg then - q else q.
Proof. destruct neg; unfold signed; [apply Qred_correct | reflexivity]. Qed.

Lemma dec_value_red (m e : Z) : Qred (dec_value m e) = dec_value m e.
Proof. unfold dec_value. apply Qred_complete. apply Qred_correct. Qed.

Lemma signed_dec_red (neg : bool) (m e : Z) :
  Qred (signed neg (dec_value m e)) = signed neg (dec_value m e).
Proof.
  destruct neg; unfold signed.
  - apply Qred_complete. apply Qred_correct.
  - apply dec_value_red.
Qed.

(** Shifting the exponent of the numeral is multiplying its value. *)
Lemma signed_dec_value_shift (neg : bool) (v : Z) (k e : Z) :
  signed neg (dec_value v (e - k))
  = Qred (signed neg (dec_value v (- k)) * inject_Z 10 ^ e).
Proof.
  rewrite <- signed_dec_red. apply Qred_complete.
  assert (H : dec_value v (e - k) == dec_value v (- k) * inject_Z 10 ^ e).
  { rewrite !dec_value_spec.
    replace (e - k) with (- k + e) by lia.
    rewrite Qpower_plus by apply Qpower_10_nonzero. ring. }
  destruct neg; unfold signed.
  - rewrite !Qred_correct, H. ring.
  - exact H.
Qed.

(* ================================================================== *)
(** * [float] on a mantissa joined to its exponent suffix *)

Lemma sign_not_space (c : ascii) :
  c = "+"%char \/ c = "-"%char -> is_space c = false.
Proof. intros [-> | ->]; reflexivity. Qed.

Lemma strip_suffix (m : str) (c d : ascii) :
  c = "+"%char \/ c = "-"%char ->
  strip (m ++ "e"%char :: [c; d])
  = drop_while is_space m ++ "e"%char :: c :: (if is_space d then [] else [d]).
Proof.
  intros Hc. unfold strip.
  rewrite drop_while_app_stop by reflexivity.
  set (m' := drop_while is_space m).
  replace (m' ++ "e"%char :: [c; d]) with ((m' ++ ["e"%char; c]) ++ [d])
    by (rewrite <- app_assoc; reflexivity).
  destruct (is_space d) eqn:Hd.
  - rewrite rdrop_while_snoc_skip by assumption.
    replace (m' ++ ["e"%char; c]) with ((m' ++ ["e"%char]) ++ [c])
      by (rewrite <- app_assoc; reflexivity).
    rewrite rdrop_while_snoc by (now apply sign_not_space).
    rewrite <- app_assoc. reflexivity.
  - rewrite rdrop_while_snoc by assumption.
    rewrite <- app_assoc. reflexivity.
Qed.

Lemma not_a_word (body tl w : str) (c : ascii) :
  c = "+"%char \/ c = "-"%char -> ~ In c w ->
  str_eqb (map to_lower (body ++ "e"%char :: c :: tl)) w = false.
Proof.
  intros Hc Hw. destruct (str_eqb _ w) eqn:E; [|reflexivity].
  apply str_eqb_eq in E. exfalso. apply Hw. rewrite <- E.
  replace c with (to_lower c) at 1 by (destruct Hc as [-> | ->]; reflexivity).
  apply in_map. apply in_or_app. right. right. now left.
Qed.

Lemma sign_not_in_words (c : ascii) :
  c = "+"%char \/ c = "-"%char ->
  ~ In c (lit "inf") /\ ~ In c (lit "infinity") /\ ~ In c (lit "nan").
Proof.
  intros [-> | ->]; repeat split; simpl; intros H;
    repeat (destruct H as [H|H]; [discriminate H|]); exact H.
Qed.

(** The exponent [parse_exponent] reads from [e], the sign and what is
    left of the last character. *)
Lemma parse_exponent_suffix (c d : ascii) :
  c = "+"%char \/ c = "-"%char ->
  parse_exponent ("e"%char :: c :: (if is_space d then [] else [d]))
  = match endf_exponent [c; d] with
    | Some e => Some (e, [])
    | None => None
    end.
Proof.
  intros Hc. unfold parse_exponent, endf_exponent.
  change (ascii_in "e" ["e"; "E"]%char) with true. cbv iota.
  destruct (is_space d) eqn:Hs.
  - rewrite (is_space_not_digit d Hs).
    destruct Hc as [-> | ->]; reflexivity.
  - destruct (is_digit d) eqn:Hd.
    + destruct Hc as [-> | ->]; simpl; rewrite Hd; simpl;
        rewrite digits_val_single; reflexivity.
    + destruct Hc as [-> | ->]; simpl; rewrite Hd; reflexivity.
Qed.

(** [float] of mantissa + 'e' + suffix is the value of the slot in
    exponent-suffix notation, and a ValueError when the slot has none. *)
Lemma py_float_suffix (m : str) (c d : ascii) :
  c = "+"%char \/ c = "-"%char ->
  py_float (m ++ "e"%char :: [c; d])
  = match endf_mantissa m, endf_exponent [c; d] with
    | Some qm, Some e => Ok (round_float (Qred (qm * inject_Z 10 ^ e)))
    | _, _ => Raise ValueError
    end.
Proof.
  intros Hc. unfold py_float, endf_mantissa.
  rewrite strip_suffix by assumption.
  rewrite split_sign_app_e.
  destruct (split_sign (drop_while is_space m)) as [neg body]. cbn [fst snd].
  destruct (sign_not_in_words c Hc) as (W1 & W2 & W3).
  rewrite !not_a_word by assumption. cbn [orb].
  unfold parse_number.
  rewrite parse_decimal_app by (split; [reflexivity | discriminate]).
  destruct (parse_decimal body) as [[[v k] r]|]; [|reflexivity].
  destruct r as [|c' r'].
  - cbn [app]. change (ascii_in "e" ["e"; "E"]%char) with true. cbv iota.
    rewrite parse_exponent_suffix by assumption.
    destruct (endf_exponent [c; d]) as [e|]; [|reflexivity].
    now rewrite signed_dec_value_shift.
  - rewrite <- app_comm_cons.
    destruct (ascii_in c' ["e"; "E"]%char).
    + rewrite app_comm_cons.
      destruct (parse_exponent _) as [[e rest]|] eqn:E; [|reflexivity].
      apply parse_exponent_rest in E; [|discriminate].
      destruct rest; [contradiction | reflexivity].
    + reflexivity.
Qed.

(** The branch of [convert] for a sign in the second-to-last place. *)
Lemma convert_sign_branch (slot : str) (c : ascii) :
  index_m2 slot = Some c -> ascii_in c ["+"; "-"]%char = true ->
  convert slot
  = match endf_value slot with
    | Some q => Ok (SFloat (round_float q))
    | None => Raise ValueError
    end.
Proof.
  intros Hi Hc.
  assert (Hl : (2 <= length slot)%nat).
  { destruct (Nat.leb_spec 2 (length slot)); [assumption|].
    rewrite index_m2_short in Hi by lia. discriminate. }
  destruct (split_m2 slot Hl) as (m & c0 & d & Hs & Hi' & Hm & Hx).
  rewrite Hi in Hi'. injection Hi' as <-.
  unfold convert, endf_value. rewrite Hi, Hc, Hm, Hx.
  rewrite py_float_suffix by (now apply sign_cases).
  destruct (endf_mantissa m); [|reflexivity].
  destruct (endf_exponent [c; d]); reflexivity.
Qed.

(** The other branch. *)
Lemma convert_eval_branch (slot : str) (c : ascii) :
  index_m2 slot = Some c -> ascii_in c ["+"; "-"]%char = false ->
  convert slot = py_eval slot.
Proof. intros Hi Hc. unfold convert. now rewrite Hi, Hc. Qed.

Lemma convert_short (slot : str) :
  (length slot < 2)%nat -> convert slot = Raise IndexError.
Proof. intros H. unfold convert. now rewrite index_m2_short. Qed.

(* ================================================================== *)
(** * No overflow for a slot of 11 characters *)

Lemma digit_val_bound (c : ascii) : is_digit c = true -> 0 <= digit_val c <= 9.
Proof.
  unfold is_digit, digit_val. intros H.
  apply andb_true_iff in H as [H1 H2].
  apply Nat.leb_le in H1, H2. lia.
Qed.

Lemma fold_digits_bound (ds : str) (acc : Z) :
  forallb is_digit ds = true -> 0 <= acc ->
  0 <= fold_left (fun a c => 10 * a + digit_val c) ds acc
    < (acc + 1) * 10 ^ Z.of_nat (length ds).
Proof.
  revert acc. induction ds as [|d ds IH]; intros acc Hd Ha.
  - simpl. lia.
  - simpl in Hd. apply andb_true_iff in Hd as [Hd Hds].
    pose proof (digit_val_bound d Hd) as Hb.
    cbn [fold_left length].
    specialize (IH (10 * acc + digit_val d) Hds ltac:(lia)).
    rewrite Nat2Z.inj_succ, Z.pow_succ_r by lia.
    assert (0 < 10 ^ Z.of_nat (length ds)) by (apply Z.pow_pos_nonneg; lia).
    nia.
Qed.

Lemma digits_val_bound (ds : str) :
  forallb is_digit ds = true -> 0 <= digits_val ds < 10 ^ Z.of_nat (length ds).
Proof.
  intros H. pose proof (fold_digits_bound ds 0 H ltac:(lia)) as B.
  unfold digits_val. lia.
Qed.

Lemma pow10_mono (a b : nat) : (a <= b)%nat -> 10 ^ Z.of_nat a <= 10 ^ Z.of_nat b.
Proof. intros H. apply Z.pow_le_mono_r; lia. Qed.

Lemma parse_decimal_bound (body : str) (v : Z) (k : nat) (r : str) :
  parse_decimal body = Some (v, k, r) ->
  0 <= v < 10 ^ Z.of_nat (length body).
Proof.
  unfold parse_decimal.
  destruct (span_parts is_digit body) as [Hb Hip].
  destruct (span is_digit body) as [ip r1]. cbn [fst snd] in *.
  assert (Hlen : length body = (length ip + length r1)%nat)
    by (rewrite <- Hb; apply length_app).
  assert (Hdef : (if nonempty ip then Some (digits_val ip, 0%nat, r1) else None)
                 = Some (v, k, r) -> 0 <= v < 10 ^ Z.of_nat (length body)).
  { destruct (nonempty ip); [|discriminate]. intros H. injection H as <- _ _.
    pose proof (digits_val_bound ip Hip).
    pose proof (pow10_mono (length ip) (length body) ltac:(lia)). lia. }
  destruct r1 as [|c r2]; [exact Hdef|].
  destruct (Ascii.eqb c "."%char) eqn:Hc.
  - apply Ascii.eqb_eq in Hc. subst c.
    destruct (span_parts is_digit r2) as [Hr Hfp].
    destruct (span is_digit r2) as [fp r3]. cbn [fst snd] in *.
    destruct (nonempty (ip ++ fp)); [|discriminate].
    intros H. injection H as <- _ _.
    assert (Hd : forallb is_digit (ip ++ fp) = true)
      by (rewrite forallb_app, Hip, Hfp; reflexivity).
    pose proof (digits_val_bound _ Hd) as B.
    assert (length r2 = (length fp + length r3)%nat)
      by (rewrite <- Hr; apply length_app).
    pose proof (pow10_mono (length (ip ++ fp)) (length body)) as P.
    rewrite length_app in P. cbn [length] in Hlen.
    specialize (P ltac:(lia)). rewrite length_app in B. lia.
  - intros H. apply Hdef.
    destruct c as [[] [] [] [] [] [] [] []]; try exact H; discriminate Hc.
Qed.

Lemma drop_while_length (p : ascii -> bool) (s : str) :
  (length (drop_while p s) <= length s)%nat.
Proof.
  induction s as [|b s IH]; simpl; [lia|]. destruct (p b); simpl; lia.
Qed.

Lemma split_sign_length (s : str) : (length (snd (split_sign s)) <= length s)%nat.
Proof.
  destruct s as [|a s]; [simpl; lia|].
  destruct a as [[] [] [] [] [] [] [] []]; simpl; lia.
Qed.

Lemma endf_mantissa_shape (m : str) (qm : Q) :
  endf_mantissa m = Some qm ->
  exists neg v k, qm = signed neg (dec_value v (- Z.of_nat k)) /\
                  0 <= v < 10 ^ Z.of_nat (length m).
Proof.
  unfold endf_mantissa.
  pose proof (split_sign_length (drop_while is_space m)) as L1.
  pose proof (drop_while_length is_space m) as L2.
  destruct (split_sign (drop_while is_space m)) as [neg body]. cbn [snd] in L1.
  destruct (parse_decimal body) as [[[v k] r]|] eqn:E; [|discriminate].
  destruct r; [|discriminate]. intros H. injection H as <-.
  exists neg, v, k. split; [reflexivity|].
  pose proof (parse_decimal_bound _ _ _ _ E).
  pose proof (pow10_mono (length body) (length m) ltac:(lia)). lia.
Qed.

Lemma endf_exponent_bound (suffix : str) (e : Z) :
  endf_exponent suffix = Some e -> -9 <= e <= 9.
Proof.
  unfold endf_exponent. destruct suffix as [|sg [|d [|? ?]]]; try discriminate.
  destruct (is_digit d) eqn:Hd; [|discriminate].
  pose proof (digit_val_bound d Hd).
  destruct (Ascii.eqb sg "+"%char); [intros E; injection E as <-; lia|].
  destruct (Ascii.eqb sg "-"%char); [intros E; injection E as <-; lia|discriminate].
Qed.

Lemma Qabs_scaled (n j : Z) :
  Qle (Qabs (inject_Z n * inject_Z 10 ^ j)) (inject_Z (Z.abs n * 10 ^ Z.max 0 j)).
Proof.
  destruct (Z.leb_spec 0 j) as [Hj|Hj].
  - rewrite Z.max_r by lia.
    rewrite <- Zpower_Qpower by assumption. rewrite <- inject_Z_mult.
    unfold Qabs, inject_Z, Qle. simpl.
    rewrite Z.abs_mul, (Z.abs_eq (10 ^ j)) by (apply Z.pow_nonneg; lia). lia.
  - rewrite Z.max_l by lia. rewrite Z.pow_0_r, Z.mul_1_r.
    replace j with (- (- j)) by lia.
    rewrite Qpower_opp. rewrite <- Zpower_Qpower by lia.
    assert (Hp : 0 < 10 ^ (- j)) by (apply Z.pow_pos_nonneg; lia).
    assert (E : inject_Z n * / inject_Z (10 ^ (- j)) == n # Z.to_pos (10 ^ (- j))).
    { rewrite (Qmake_Qdiv n (Z.to_pos (10 ^ (- j)))).
      rewrite Z2Pos.id by assumption. reflexivity. }
    rewrite E. unfold Qabs, inject_Z, Qle. simpl.
    assert (1 <= Z.pos (Z.to_pos (10 ^ (- j)))) by lia.
    pose proof (Z.abs_nonneg n). nia.
Qed.

Lemma round_float_small (q : Q) (b : Z) :
  Qle (Qabs q) (inject_Z b) -> b < 2 ^ 1024 - 2 ^ 970 -> round_float q = Fin q.
Proof.
  intros Hq Hb. unfold round_float.
  destruct (Qle_bool float_overflow (Qabs q)) eqn:E; [|reflexivity].
  apply Qle_bool_iff in E. exfalso.
  assert (H : Qle float_overflow (inject_Z b)) by (eapply Qle_trans; eassumption).
  unfold float_overflow in H. rewrite <- Zle_Qle in H. lia.
Qed.

(** The value of a slot of at most 11 characters is a finite float. *)
Lemma endf_value_finite (slot : str) (q : Q) :
  (length slot <= 11)%nat -> endf_value slot = Some q -> round_float q = Fin q.
Proof.
  intros Hl. unfold endf_value.
  destruct (endf_mantissa (slice_to_m2 slot)) as [qm|] eqn:Em; [|discriminate].
  destruct (endf_exponent (slice_from_m2 slot)) as [e|] eqn:Ee; [|discriminate].
  intros H. injection H as <-.
  destruct (endf_mantissa_shape _ _ Em) as (neg & v & k & -> & Hv).
  pose proof (endf_exponent_bound _ _ Ee) as He.
  assert (Hm : (length (slice_to_m2 slot) <= 9)%nat).
  { unfold slice_to_m2. rewrite length_firstn. lia. }
  pose proof (pow10_mono _ _ Hm) as Hp. change (Z.of_nat 9) with 9 in Hp.
  set (j := e - Z.of_nat k).
  assert (Hq : Qred (signed neg (dec_value v (- Z.of_nat k)) * inject_Z 10 ^ e)
               == inject_Z (if neg then - v else v) * inject_Z 10 ^ j).
  { rewrite Qred_correct.
    assert (D : dec_value v (- Z.of_nat k) * inject_Z 10 ^ e
                == inject_Z v * inject_Z 10 ^ j).
    { rewrite dec_value_spec. unfold j.
      replace (e - Z.of_nat k) with (- Z.of_nat k + e) by lia.
      rewrite Qpower_plus by apply Qpower_10_nonzero. ring. }
    destruct neg; unfold signed.
    - rewrite Qred_correct, inject_Z_opp.
      transitivity (- (dec_value v (- Z.of_nat k) * inject_Z 10 ^ e))%Q; [ring|].
      rewrite D. ring.
    - exact D. }
  apply (round_float_small _ (10 ^ 9 * 10 ^ 9)); [|vm_compute; reflexivity].
  rewrite Hq.
  eapply Qle_trans; [apply Qabs_scaled|].
  rewrite <- Zle_Qle.
  assert (Z.abs (if neg then - v else v) = v) by (destruct neg; lia).
  assert (0 < 10 ^ Z.max 0 j) by (apply Z.pow_pos_nonneg; lia).
  assert (10 ^ Z.max 0 j <= 10 ^ 9) by (apply Z.pow_le_mono_r; lia).
  nia.
Qed.

(* ================================================================== *)
(** * Line counts *)

(** The number of turns [range((N-1)/c + 1)] makes is ceil(N/c). *)
Lemma range_count_ceil (N c : Z) : 0 < c -> (N - 1) / c + 1 = ceil_div N c.
Proof.
  intros Hc. unfold ceil_div.
  pose proof (Z.div_mod (N - 1) c ltac:(lia)) as E.
  pose proof (Z.mod_pos_bound (N - 1) c Hc) as B.
  assert (H : - N / c = - ((N - 1) / c) - 1).
  { symmetry. apply (Z.div_unique_pos (- N) c _ (c - 1 - (N - 1) mod c)); lia. }
  lia.
Qed.

Lemma div_minus_one (c : Z) : 0 < c -> (Z.of_nat 0 - 1) / c = -1.
Proof.
  intros Hc. symmetry. apply (Z.div_unique_pos _ c (-1) (c - 1)); lia.
Qed.

(** ceil(a/b) is the least number of lines of [b] slots holding [a]. *)
Lemma ceil_div_spec (a b : Z) :
  0 < b -> b * (ceil_div a b - 1) < a <= b * ceil_div a b.
Proof.
  intros Hb. rewrite <- range_count_ceil by assumption.
  pose proof (Z.mul_div_le (a - 1) b Hb).
  pose proof (Z.mul_succ_div_gt (a - 1) b Hb). lia.
Qed.

Lemma ceil_div_nonneg (a b : Z) : 0 < b -> 0 <= a -> 0 <= ceil_div a b.
Proof.
  intros Hb Ha. pose proof (ceil_div_spec a b Hb).
  destruct (Z.leb_spec 0 (ceil_div a b)); [assumption | nia].
Qed.

(* ================================================================== *)
(** * The line loops *)

Lemma for_range_pure {S Acc : Type} (item : str * Acc -> outcome (str * Acc))
    (n : nat) (st : str * Acc) (s : S) :
  for_range_nat n (fun st => pure (item st)) st s
  = obind (iter_items item n st) (fun r => Ok (r, s)).
Proof.
  revert st. induction n as [|n IH]; intros st; [reflexivity|].
  cbn [for_range_nat iter_items]. unfold bind at 1, pure at 1.
  destruct (item st) as [st'| | |]; cbn [obind]; [apply IH | reflexivity..].
Qed.

Lemma readline_eq (s : stream) : readline s = Ok (next_line s).
Proof. unfold readline, next_line. now destruct (nth_error _ _). Qed.

Lemma skipn_cons_inv {A : Type} (n : nat) (l : list A) (a : A) (r : list A) :
  skipn n l = a :: r -> nth_error l n = Some a /\ skipn (Datatypes.S n) l = r.
Proof.
  revert l. induction n as [|n IH]; intros l H.
  - destruct l; [discriminate|]. simpl in H. injection H as -> ->. now split.
  - destruct l; [discriminate|]. simpl in H. apply IH in H. exact H.
Qed.

Lemma next_line_unread (s : stream) (l : str) (r : list str) :
  unread s = l :: r ->
  next_line s = (l, {| lines := lines s; pos := Datatypes.S (pos s) |}) /\
  unread {| lines := lines s; pos := Datatypes.S (pos s) |} = r.
Proof.
  unfold unread, next_line. intros H.
  apply skipn_cons_inv in H as [H1 H2]. rewrite H1. now split.
Qed.

Section BlockLoop.
Context {Acc : Type}.
Variables (c : Z) (item : str * Acc -> outcome (str * Acc)) (N : Z).
Hypothesis c_pos : 0 < c.

Lemma block_line_eq (acc : Acc) (m : Z) (s : stream) :
  block_line c item N (acc, m) s
  = match iter_items item (Z.to_nat (Z.min c (N - m))) (fst (next_line s), acc) with
    | Ok r => Ok ((snd r, m + Z.min c (N - m)), snd (next_line s))
    | Raise e => Raise e
    | Unmodelled => Unmodelled
    | Loops => Loops
    end.
Proof.
  unfold block_line, bind. rewrite readline_eq.
  destruct (next_line s) as [l s1]. cbn [fst snd].
  unfold for_range. rewrite for_range_pure.
  destruct (iter_items _ _ _); reflexivity.
Qed.

Lemma covers_init : 0 <= N -> covers c N (Z.to_nat ((N - 1) / c + 1)) 0.
Proof.
  intros HN.
  pose proof (Z.mul_div_le (N - 1) c c_pos).
  pose proof (Z.mul_succ_div_gt (N - 1) c c_pos).
  destruct (Z.to_nat ((N - 1) / c + 1)) as [|k'] eqn:E; unfold covers.
  - assert ((N - 1) / c + 1 <= 0) by lia. nia.
  - assert (Z.of_nat k' = (N - 1) / c) by lia. nia.
Qed.

Section Measure.
Variables (size : Acc -> nat) (d : nat).
Hypothesis item_size :
  forall l a l' a', item (l, a) = Ok (l', a') -> size a' = (size a + d)%nat.
Hypothesis item_empty : forall a, is_Ok (item ([], a)) = false.

Lemma iter_items_size (n : nat) (l : str) (a : Acc) (l' : str) (a' : Acc) :
  iter_items item n (l, a) = Ok (l', a') -> size a' = (size a + n * d)%nat.
Proof.
  revert l a. induction n as [|n IH]; intros l a H.
  - injection H as _ <-. lia.
  - cbn [iter_items] in H.
    destruct (item (l, a)) as [[l1 a1]| | |] eqn:E; try discriminate H.
    cbn [obind] in H. apply IH in H. apply item_size in E. lia.
Qed.

Lemma iter_items_empty (n : nat) (a : Acc) :
  (0 < n)%nat -> is_Ok (iter_items item n ([], a)) = false.
Proof.
  destruct n as [|n]; [lia|]. intros _. cbn [iter_items].
  pose proof (item_empty a) as H.
  destruct (item ([], a)); [discriminate H | reflexivity..].
Qed.

(** When the loop returns, it has read one line a turn, none of them
    past the end of the file, and [N - m] items. *)
Lemma block_loop_ok (k : nat) :
  forall (m : Z) (acc : Acc) (s : stream) (r : Acc * Z) (s' : stream),
    covers c N k m ->
    for_range_nat k (block_line c item N) (acc, m) s = Ok (r, s') ->
    lines s' = lines s /\ pos s' = (pos s + k)%nat /\
    (k <= length (lines s) - pos s)%nat /\
    snd r = N /\ size (fst r) = (size acc + Z.to_nat (N - m) * d)%nat.
Proof.
  induction k as [|k IH]; intros m acc s r s' Hc H.
  - injection H as <- <-. unfold covers in Hc. subst m.
    rewrite Z.sub_diag. cbn. repeat split; lia.
  - cbn [for_range_nat] in H. unfold bind in H.
    rewrite block_line_eq in H.
    unfold covers in Hc.
    set (toRead := Z.min c (N - m)) in *.
    assert (Ht : 1 <= toRead) by (unfold toRead; lia).
    unfold next_line in H.
    destruct (nth_error (lines s) (pos s)) as [l|] eqn:El; cbn [fst snd] in H.
    + destruct (iter_items item (Z.to_nat toRead) (l, acc)) as [[l' a']| | |] eqn:Ei;
        try discriminate H.
      cbn [snd] in H.
      assert (Hc' : covers c N k (m + toRead)).
      { unfold covers. destruct k as [|k']; unfold toRead; lia. }
      apply (IH _ _ _ _ _ Hc') in H.
      cbn [lines pos] in H. destruct H as (H1 & H2 & H3 & H4 & H5).
      apply iter_items_size in Ei.
      assert (pos s < length (lines s))%nat
        by (apply nth_error_Some; congruence).
      assert (Z.to_nat (N - m)
              = (Z.to_nat toRead + Z.to_nat (N - (m + toRead)))%nat)
        by (unfold toRead; lia).
      repeat split; try assumption; lia.
    + pose proof (iter_items_empty (Z.to_nat toRead) acc ltac:(lia)) as E.
      match type of H with
      | context [iter_items item ?n ?st] =>
          remember (iter_items item n st) as X eqn:EX in H
      end.
      assert (E2 : is_Ok X = false) by (rewrite EX; exact E).
      destruct X; [discriminate E2 | discriminate H..].
Qed.
End Measure.

(** ** Lines that hold what the loop asks for *)
Section Packed.
Variables (good : str -> Prop) (step : str -> Acc -> Acc).
Hypothesis item_ok :
  forall sl rest a, good sl -> item (sl ++ rest, a) = Ok (rest, step sl a).

Lemma iter_items_chunk (chunk : list str) (tail : str) (a : Acc) :
  Forall good chunk ->
  iter_items item (length chunk) (concat chunk ++ tail, a)
  = Ok (tail, fold_left (fun a sl => step sl a) chunk a).
Proof.
  revert a. induction chunk as [|sl chunk IH]; intros a Hg; [reflexivity|].
  inversion Hg as [|? ? Hsl Hch]; subst.
  cbn [length concat iter_items fold_left]. rewrite <- app_assoc.
  rewrite item_ok by assumption. cbn [obind]. now apply IH.
Qed.

Lemma packed_loop (slots : list str) (ls : list str) :
  Packed (Z.to_nat c) slots ls ->
  forall (acc : Acc) (m : Z) (s : stream) (rest : list str),
    Forall good slots ->
    N - m = Z.of_nat (length slots) ->
    unread s = ls ++ rest ->
    for_range_nat (length ls) (block_line c item N) (acc, m) s
    = Ok ((fold_left (fun a sl => step sl a) slots acc, N),
          {| lines := lines s; pos := pos s + length ls |}).
Proof.
  induction 1 as [|chunk others tail ls Hne Hle Hlast HP IH];
    intros acc m s rest Hg Hm Hu.
  - cbn. unfold ret. cbn in Hm. replace m with N by lia.
    rewrite Nat.add_0_r. now destruct s.
  - cbn [for_range_nat length]. unfold bind. rewrite block_line_eq.
    rewrite <- app_comm_cons in Hu.
    apply next_line_unread in Hu as [Hn Hu]. rewrite Hn. cbn [fst snd].
    apply Forall_app in Hg as [Hg1 Hg2].
    rewrite length_app in Hm.
    assert (Ht : Z.min c (N - m) = Z.of_nat (length chunk)).
    { destruct (Nat.ltb_spec (length chunk) (Z.to_nat c)) as [Hlt|Hge].
      - rewrite (Hlast Hlt) in Hm. cbn in Hm. lia.
      - lia. }
    rewrite Ht, Nat2Z.id.
    rewrite iter_items_chunk by assumption. cbn [snd].
    assert (Hm' : N - (m + Z.of_nat (length chunk)) = Z.of_nat (length others))
      by lia.
    rewrite (IH _ _ _ rest Hg2 Hm' Hu).
    rewrite fold_left_app. cbn [lines pos].
    do 3 f_equal. lia.
Qed.

Lemma packed_count (slots : list str) (ls : list str) :
  Packed (Z.to_nat c) slots ls ->
  Z.to_nat ((Z.of_nat (length slots) - 1) / c + 1) = length ls.
Proof.
  induction 1 as [|chunk others tail ls Hne Hle Hlast HP IH].
  - cbn [length]. rewrite div_minus_one by assumption. reflexivity.
  - rewrite length_app. cbn [length]. rewrite <- IH.
    assert (0 < length chunk)%nat by (destruct chunk; [contradiction | cbn; lia]).
    destruct (Nat.ltb_spec (length chunk) (Z.to_nat c)) as [Hlt|Hge].
    + rewrite (Hlast Hlt). cbn [length]. rewrite Nat.add_0_r.
      rewrite div_minus_one by assumption.
      rewrite Z.div_small by lia. reflexivity.
    + replace (Z.of_nat (length chunk + length others) - 1)
        with (Z.of_nat (length others) - 1 + 1 * c) by lia.
      rewrite Z.div_add by lia.
      assert (-1 <= (Z.of_nat (length others) - 1) / c).
      { apply Z.div_le_lower_bound; lia. }
      lia.
Qed.
End Packed.
End BlockLoop.

(* ================================================================== *)
(** * The record readers, unfolded *)

Lemma next_line_lines (s : stream) : lines (snd (next_line s)) = lines s.
Proof. unfold next_line. now destruct (nth_error _ _). Qed.

Lemma next_line_some (s : stream) (l : str) :
  nth_error (lines s) (pos s) = Some l ->
  next_line s = (l, {| lines := lines s; pos := Datatypes.S (pos s) |}).
Proof. unfold next_line. now intros ->. Qed.

Lemma next_line_none (s : stream) :
  nth_error (lines s) (pos s) = None -> next_line s = ([], s).
Proof. unfold next_line. now intros ->. Qed.

(** At the end of the file: no line is left. *)
Lemma at_end_none (s : stream) :
  (length (lines s) - pos s = 0)%nat -> nth_error (lines s) (pos s) = None.
Proof. intros H. apply nth_error_None. lia. Qed.

Lemma on_fh_eq {A : Type} (c : M stream A) (ev : Evaluation) :
  on_fh c ev
  = match c (fh ev) with
    | Ok (a, fh') => Ok (a, with_fh ev fh')
    | Raise e => Raise e
    | Unmodelled => Unmodelled
    | Loops => Loops
    end.
Proof. reflexivity. Qed.

Lemma read_fields_eq {A : Type} (fields : str -> outcome A) (ev : Evaluation) :
  bind (on_fh (line_or_read None)) (fun line => pure (fields line)) ev
  = obind (fields (fst (next_line (fh ev))))
          (fun r => Ok (r, with_fh ev (snd (next_line (fh ev))))).
Proof.
  unfold bind, on_fh, line_or_read. rewrite readline_eq.
  destruct (next_line (fh ev)) as [l s1]. reflexivity.
Qed.

Lemma getTextRecord_eq (ev : Evaluation) :
  getTextRecord None ev
  = obind (text_fields (fst (next_line (fh ev))))
          (fun r => Ok (r, with_fh ev (snd (next_line (fh ev))))).
Proof. apply read_fields_eq. Qed.

Lemma getContRecord_eq (skipC : bool) (ev : Evaluation) :
  getContRecord None skipC ev
  = obind (cont_fields skipC (fst (next_line (fh ev))))
          (fun r => Ok (r, with_fh ev (snd (next_line (fh ev))))).
Proof. apply read_fields_eq. Qed.

Lemma getHeadRecord_eq (ev : Evaluation) :
  getHeadRecord None ev
  = obind (head_fields (fst (next_line (fh ev))))
          (fun r => Ok (r, with_fh ev (snd (next_line (fh ev))))).
Proof. apply read_fields_eq. Qed.

(** On the empty string [readline] returns at the end of the file, the
    first conversion of each reader raises. *)
Lemma text_fields_empty : text_fields [] = Raise ValueError.
Proof. reflexivity. Qed.

Lemma cont_fields_empty (skipC : bool) :
  cont_fields skipC [] = Raise (if skipC then ValueError else IndexError).
Proof. destruct skipC; reflexivity. Qed.

Lemma head_fields_empty : head_fields [] = Raise IndexError.
Proof. reflexivity. Qed.

(** A reader of one line that returns has read a line. *)
Lemma one_line_read {A : Type} (fields : str -> outcome A) (ev : Evaluation)
    (r : A) (ev' : Evaluation) :
  is_Ok (fields []) = false ->
  obind (fields (fst (next_line (fh ev))))
        (fun r => Ok (r, with_fh ev (snd (next_line (fh ev))))) = Ok (r, ev') ->
  exists l, nth_error (lines (fh ev)) (pos (fh ev)) = Some l /\
            fields l = Ok r /\
            ev' = with_fh ev {| lines := lines (fh ev);
                                pos := Datatypes.S (pos (fh ev)) |}.
Proof.
  intros He H. unfold next_line in H.
  destruct (nth_error (lines (fh ev)) (pos (fh ev))) as [l|]; cbn [fst snd] in H.
  - exists l. destruct (fields l) as [a| | |]; try discriminate H.
    cbn [obind] in H. injection H as <- <-. auto.
  - destruct (fields []); [discriminate He | discriminate H..].
Qed.

Lemma cont_fields_N1 (skipC : bool) (l : str) (it : Items.t) :
  cont_fields skipC l = Ok it -> py_int (slice 44 55 l) = Ok (Items.N1 it).
Proof.
  unfold cont_fields.
  destruct (if skipC then _ else _) as [C12| | |]; try discriminate.
  cbn [obind].
  repeat match goal with
         | |- context [obind (py_int ?s) _] =>
             destruct (py_int s); cbn [obind]; try discriminate
         end.
  intros H. injection H as <-. reflexivity.
Qed.

(* ================================================================== *)
(** * LIST records *)

Lemma list_item_size (l : str) (a : list scalar) (l' : str) (a' : list scalar) :
  list_item (l, a) = Ok (l', a') -> length a' = (length a + 1)%nat.
Proof.
  unfold list_item. destruct (convert _); try discriminate.
  cbn [obind]. intros H. injection H as _ <-. now rewrite length_app.
Qed.

Lemma list_item_empty (a : list scalar) : is_Ok (list_item ([], a)) = false.
Proof. reflexivity. Qed.

Lemma getListRecord_eq (onlyList : bool) (ev : Evaluation) :
  getListRecord onlyList ev
  = match cont_fields false (fst (next_line (fh ev))) with
    | Ok items =>
        match for_range_nat (Z.to_nat ((Items.N1 items - 1) / 6 + 1))
                (block_line 6 list_item (Items.N1 items)) ([], 0)
                (snd (next_line (fh ev))) with
        | Ok (r, fh') =>
            Ok (if onlyList then OnlyList (fst r) else ItemsAndList items (fst r),
                with_fh ev fh')
        | Raise e => Raise e
        | Unmodelled => Unmodelled
        | Loops => Loops
        end
    | Raise e => Raise e
    | Unmodelled => Unmodelled
    | Loops => Loops
    end.
Proof.
  unfold getListRecord. unfold bind at 1. rewrite getContRecord_eq.
  destruct (cont_fields false _) as [items| | |]; try reflexivity.
  cbn [obind]. unfold bind, on_fh. cbn [fh with_fh].
  change (for_range ((Items.N1 items - 1) / 6 + 1) (list_line (Items.N1 items)))
    with (for_range_nat (Z.to_nat ((Items.N1 items - 1) / 6 + 1))
            (block_line 6 list_item (Items.N1 items))).
  destruct (for_range_nat _ _ _ _) as [[r fh']| | |]; try reflexivity.
  destruct onlyList; reflexivity.
Qed.

(** What a returning [getListRecord] has done. *)
Lemma getListRecord_inv (onlyList : bool) (ev : Evaluation)
    (r : list_record) (ev' : Evaluation) (hdr : str) (NPL : Z) :
  getListRecord onlyList ev = Ok (r, ev') ->
  nth_error (lines (fh ev)) (pos (fh ev)) = Some hdr ->
  py_int (slice 44 55 hdr) = Ok NPL ->
  0 <= NPL ->
  Z.of_nat (length (itemsList_of r)) = NPL /\
  Z.of_nat (pos (fh ev')) = Z.of_nat (pos (fh ev)) + 1 + ceil_div NPL 6 /\
  1 + ceil_div NPL 6 <= Z.of_nat (lines_left ev) /\
  lines (fh ev') = lines (fh ev) /\
  files ev' = files ev /\ reactionList ev' = reactionList ev.
Proof.
  intros H Hl Hn HN. rewrite getListRecord_eq in H.
  rewrite (next_line_some _ _ Hl) in H. cbn [fst snd] in H.
  destruct (cont_fields false hdr) as [items| | |] eqn:Ec; try discriminate H.
  apply cont_fields_N1 in Ec. rewrite Hn in Ec. injection Ec as Ec.
  rewrite <- Ec in H.
  destruct (for_range_nat _ _ _ _) as [[r1 fh']| | |] eqn:El; try discriminate H.
  injection H as <- <-.
  apply (block_loop_ok 6 list_item NPL ltac:(lia) (@length scalar) 1
           list_item_size list_item_empty) in El;
    [|apply covers_init; lia].
  cbn [lines pos length] in El. destruct El as (E1 & E2 & E3 & E4 & E5).
  rewrite range_count_ceil in E2, E3 by lia.
  pose proof (ceil_div_nonneg NPL 6 ltac:(lia) HN).
  assert (pos (fh ev) < length (lines (fh ev)))%nat
    by (apply nth_error_Some; congruence).
  unfold lines_left. cbn [fh with_fh files reactionList].
  repeat split; try assumption; try lia.
  destruct onlyList; cbn [itemsList_of]; lia.
Qed.

Lemma slice_app_exact (n : nat) (sl rest : str) :
  length sl = n -> slice 0 n (sl ++ rest) = sl /\ slice_from n (sl ++ rest) = rest.
Proof.
  intros H. unfold slice, slice_from. cbn [skipn]. rewrite Nat.sub_0_r.
  subst n. split.
  - rewrite firstn_app, Nat.sub_diag, firstn_all. cbn. apply app_nil_r.
  - rewrite skipn_app, Nat.sub_diag, skipn_all. reflexivity.
Qed.

Lemma list_item_ok (sl rest : str) (a : list scalar) :
  good_slot sl -> list_item (sl ++ rest, a) = Ok (rest, a ++ [slot_value sl]).
Proof.
  intros [Hl Hc]. unfold list_item, slot_value.
  destruct (slice_app_exact 11 sl rest Hl) as [-> ->].
  destruct (convert sl); try discriminate Hc. reflexivity.
Qed.

Lemma fold_left_snoc {A B : Type} (f : B -> A) (l : list B) (acc : list A) :
  fold_left (fun a b => a ++ [f b]) l acc = acc ++ map f l.
Proof.
  revert acc. induction l as [|b l IH]; intros acc; cbn.
  - now rewrite app_nil_r.
  - rewrite IH, <- app_assoc. reflexivity.
Qed.

Lemma good_slots_values (slots : list str) (vals : list scalar) :
  Forall2 (fun sl v => length sl = 11%nat /\ convert sl = Ok v) slots vals ->
  Forall good_slot slots /\ map slot_value slots = vals /\
  length vals = length slots.
Proof.
  induction 1 as [|sl v slots vals [Hl Hc] _ (IH1 & IH2 & IH3)]; [now repeat split|].
  repeat split.
  - constructor; [|assumption]. split; [assumption|]. now rewrite Hc.
  - cbn. unfold slot_value at 1. now rewrite Hc, IH2.
  - cbn. now rewrite IH3.
Qed.

(** [getListRecord] on a well-formed LIST record. *)
Lemma getListRecord_packed (onlyList : bool) (ev : Evaluation) (hdr : str)
    (items : Items.t) (slots : list str) (vals : list scalar)
    (ls rest : list str) :
  unread (fh ev) = hdr :: ls ++ rest ->
  cont_fields false hdr = Ok items ->
  Items.N1 items = Z.of_nat (length slots) ->
  Packed 6 slots ls ->
  Forall2 (fun sl v => length sl = 11%nat /\ convert sl = Ok v) slots vals ->
  getListRecord onlyList ev
  = Ok (if onlyList then OnlyList vals else ItemsAndList items vals,
        with_fh ev {| lines := lines (fh ev);
                      pos := pos (fh ev) + 1 + length ls |}).
Proof.
  intros Hu Hc Hn HP Hv.
  destruct (good_slots_values _ _ Hv) as (Hg & Hvals & Hlen).
  rewrite getListRecord_eq.
  apply next_line_unread in Hu as [Hnl Hu]. rewrite Hnl. cbn [fst snd].
  rewrite Hc, Hn.
  rewrite (packed_count 6 ltac:(lia) slots ls HP).
  rewrite (packed_loop 6 list_item (Z.of_nat (length slots)) ltac:(lia) good_slot
             (fun sl a => a ++ [slot_value sl]) list_item_ok slots ls HP
             [] 0 _ rest Hg ltac:(lia) Hu).
  rewrite fold_left_snoc, Hvals. cbn [fst app lines pos].
  replace (Datatypes.S (pos (fh ev)) + length ls)%nat
    with (pos (fh ev) + 1 + length ls)%nat by lia.
  reflexivity.
Qed.

(* ================================================================== *)
(** * TAB1 records *)

Lemma tab1_region_inv (l : str) (a : ENDFTab1Record) (l' : str) (a' : ENDFTab1Record) :
  tab1_region (l, a) = Ok (l', a') ->
  exists nbt int, NBT a' = NBT a ++ [nbt] /\ INT a' = INT a ++ [int] /\
                  x a' = x a /\ y a' = y a.
Proof.
  unfold tab1_region.
  destruct (py_int (slice 0 11 l)) as [nbt| | |]; try discriminate. cbn [obind].
  destruct (py_int (slice 11 22 l)) as [int| | |]; try discriminate. cbn [obind].
  intros H. injection H as _ <-. exists nbt, int. cbn. auto.
Qed.

Lemma tab1_pair_inv (l : str) (a : ENDFTab1Record) (l' : str) (a' : ENDFTab1Record) :
  tab1_pair (l, a) = Ok (l', a') ->
  exists xv yv, x a' = x a ++ [xv] /\ y a' = y a ++ [yv] /\
                NBT a' = NBT a /\ INT a' = INT a.
Proof.
  unfold tab1_pair.
  destruct (convert (slice 0 11 l)) as [xv| | |]; try discriminate. cbn [obind].
  destruct (convert (slice 11 22 l)) as [yv| | |]; try discriminate. cbn [obind].
  intros H. injection H as _ <-. exists xv, yv. cbn. auto.
Qed.

Lemma tab1_region_empty (a : ENDFTab1Record) : is_Ok (tab1_region ([], a)) = false.
Proof. reflexivity. Qed.

Lemma tab1_pair_empty (a : ENDFTab1Record) : is_Ok (tab1_pair ([], a)) = false.
Proof. reflexivity. Qed.

Ltac tab1_size inv :=
  let H := fresh in
  intros ? ? ? ? H; apply inv in H;
  destruct H as (? & ? & H1 & H2 & H3 & H4);
  rewrite ?H1, ?H2, ?H3, ?H4, ?length_app; cbn [length]; lia.

(** The loop over the interpolation regions. *)
Lemma region_loop_ok (NR : Z) (k : nat) (m : Z) (self : ENDFTab1Record)
    (s : stream) (r : ENDFTab1Record * Z) (s' : stream) :
  covers 3 NR k m ->
  for_range_nat k (block_line 3 tab1_region NR) (self, m) s = Ok (r, s') ->
  lines s' = lines s /\ pos s' = (pos s + k)%nat /\
  (k <= length (lines s) - pos s)%nat /\
  length (NBT (fst r)) = (length (NBT self) + Z.to_nat (NR - m))%nat /\
  length (INT (fst r)) = (length (INT self) + Z.to_nat (NR - m))%nat /\
  length (x (fst r)) = length (x self) /\
  length (y (fst r)) = length (y self).
Proof.
  intros Hc H.
  pose proof (block_loop_ok 3 tab1_region NR ltac:(lia)
                (fun a => length (NBT a)) 1 ltac:(tab1_size tab1_region_inv)
                tab1_region_empty k m self s r s' Hc H) as (A1 & A2 & A3 & _ & A5).
  pose proof (block_loop_ok 3 tab1_region NR ltac:(lia)
                (fun a => length (INT a)) 1 ltac:(tab1_size tab1_region_inv)
                tab1_region_empty k m self s r s' Hc H) as (_ & _ & _ & _ & B5).
  pose proof (block_loop_ok 3 tab1_region NR ltac:(lia)
                (fun a => length (x a)) 0 ltac:(tab1_size tab1_region_inv)
                tab1_region_empty k m self s r s' Hc H) as (_ & _ & _ & _ & C5).
  pose proof (block_loop_ok 3 tab1_region NR ltac:(lia)
                (fun a => length (y a)) 0 ltac:(tab1_size tab1_region_inv)
                tab1_region_empty k m self s r s' Hc H) as (_ & _ & _ & _ & D5).
  repeat split; try assumption; lia.
Qed.

(** The loop over the tabulated pairs. *)
Lemma pair_loop_ok (NP : Z) (k : nat) (m : Z) (self : ENDFTab1Record)
    (s : stream) (r : ENDFTab1Record * Z) (s' : stream) :
  covers 3 NP k m ->
  for_range_nat k (block_line 3 tab1_pair NP) (self, m) s = Ok (r, s') ->
  lines s' = lines s /\ pos s' = (pos s + k)%nat /\
  (k <= length (lines s) - pos s)%nat /\
  length (x (fst r)) = (length (x self) + Z.to_nat (NP - m))%nat /\
  length (y (fst r)) = (length (y self) + Z.to_nat (NP - m))%nat /\
  length (NBT (fst r)) = length (NBT self) /\
  length (INT (fst r)) = length (INT self).
Proof.
  intros Hc H.
  pose proof (block_loop_ok 3 tab1_pair NP ltac:(lia)
                (fun a => length (x a)) 1 ltac:(tab1_size tab1_pair_inv)
                tab1_pair_empty k m self s r s' Hc H) as (A1 & A2 & A3 & _ & A5).
  pose proof (block_loop_ok 3 tab1_pair NP ltac:(lia)
                (fun a => length (y a)) 1 ltac:(tab1_size tab1_pair_inv)
                tab1_pair_empty k m self s r s' Hc H) as (_ & _ & _ & _ & B5).
  pose proof (block_loop_ok 3 tab1_pair NP ltac:(lia)
                (fun a => length (NBT a)) 0 ltac:(tab1_size tab1_pair_inv)
                tab1_pair_empty k m self s r s' Hc H) as (_ & _ & _ & _ & C5).
  pose proof (block_loop_ok 3 tab1_pair NP ltac:(lia)
                (fun a => length (INT a)) 0 ltac:(tab1_size tab1_pair_inv)
                tab1_pair_empty k m self s r s' Hc H) as (_ & _ & _ & _ & D5).
  repeat split; try assumption; lia.
Qed.

Lemma ENDFTab1Record_read_eq (self : ENDFTab1Record) (s : stream) :
  ENDFTab1Record_read self s
  = let line := fst (next_line s) in
    match py_int (slice 44 55 line) with
    | Ok NR =>
        match py_int (slice 55 66 line) with
        | Ok NP =>
            match for_range_nat (Z.to_nat ((NR - 1) / 3 + 1))
                    (block_line 3 tab1_region NR) (self, 0) (snd (next_line s)) with
            | Ok (r1, s1) =>
                match for_range_nat (Z.to_nat ((NP - 1) / 3 + 1))
                        (block_line 3 tab1_pair NP) (fst r1, 0) s1 with
                | Ok (r2, s2) => Ok (fst r2, s2)
                | Raise e => Raise e
                | Unmodelled => Unmodelled
                | Loops => Loops
                end
            | Raise e => Raise e
            | Unmodelled => Unmodelled
            | Loops => Loops
            end
        | Raise e => Raise e
        | Unmodelled => Unmodelled
        | Loops => Loops
        end
    | Raise e => Raise e
    | Unmodelled => Unmodelled
    | Loops => Loops
    end.
Proof.
  unfold ENDFTab1Record_read. unfold bind at 1. rewrite readline_eq.
  destruct (next_line s) as [l s0]. cbn [fst snd]. cbv zeta.
  unfold bind at 1, pure at 1.
  destruct (py_int (slice 44 55 l)) as [NR| | |]; try reflexivity. cbn [obind].
  unfold bind at 1, pure at 1.
  destruct (py_int (slice 55 66 l)) as [NP| | |]; reflexivity.
Qed.

(** What a returning [ENDFTab1Record.read] has done. *)
Lemma ENDFTab1Record_read_inv (self r : ENDFTab1Record) (s s' : stream)
    (hdr : str) (NR NP : Z) :
  ENDFTab1Record_read self s = Ok (r, s') ->
  nth_error (lines s) (pos s) = Some hdr ->
  py_int (slice 44 55 hdr) = Ok NR ->
  py_int (slice 55 66 hdr) = Ok NP ->
  0 <= NR -> 0 <= NP ->
  Z.of_nat (length (NBT r)) = Z.of_nat (length (NBT self)) + NR /\
  Z.of_nat (length (INT r)) = Z.of_nat (length (INT self)) + NR /\
  Z.of_nat (length (x r)) = Z.of_nat (length (x self)) + NP /\
  Z.of_nat (length (y r)) = Z.of_nat (length (y self)) + NP /\
  Z.of_nat (pos s') = Z.of_nat (pos s) + 1 + ceil_div NR 3 + ceil_div NP 3 /\
  1 + ceil_div NR 3 + ceil_div NP 3 <= Z.of_nat (length (lines s) - pos s) /\
  lines s' = lines s.
Proof.
  intros H Hl HNR HNP HR HP. rewrite ENDFTab1Record_read_eq in H.
  rewrite (next_line_some _ _ Hl) in H. cbn [fst snd] in H. cbv zeta in H.
  rewrite HNR, HNP in H.
  destruct (for_range_nat _ _ _ _) as [[r1 s1]| | |] eqn:E1; try discriminate H.
  destruct (for_range_nat _ _ (fst r1, 0) s1) as [[r2 s2]| | |] eqn:E2;
    try discriminate H.
  injection H as <- <-.
  apply region_loop_ok in E1; [|apply covers_init; lia].
  apply pair_loop_ok in E2; [|apply covers_init; lia].
  cbn [lines pos] in E1.
  destruct E1 as (A1 & A2 & A3 & A4 & A5 & A6 & A7).
  destruct E2 as (B1 & B2 & B3 & B4 & B5 & B6 & B7).
  rewrite range_count_ceil in A2, A3, B2, B3 by lia.
  pose proof (ceil_div_nonneg NR 3 ltac:(lia) HR).
  pose proof (ceil_div_nonneg NP 3 ltac:(lia) HP).
  assert (pos s < length (lines s))%nat by (apply nth_error_Some; congruence).
  rewrite A1 in B3.
  repeat split; try lia. congruence.
Qed.

(* ================================================================== *)
(** * Blank slots *)

Lemma is_blank_space (c : ascii) : is_blank c = true -> is_space c = true.
Proof.
  destruct c as [[] [] [] [] [] [] [] []]; vm_compute; intros H;
    try reflexivity; discriminate H.
Qed.

Lemma is_blank_not_sign (c : ascii) :
  is_blank c = true -> ascii_in c ["+"; "-"]%char = false.
Proof.
  destruct c as [[] [] [] [] [] [] [] []]; vm_compute; intros H;
    try reflexivity; discriminate H.
Qed.

Lemma forallb_impl {A : Type} (p q : A -> bool) (l : list A) :
  (forall a, p a = true -> q a = true) -> forallb p l = true -> forallb q l = true.
Proof.
  intros Hpq. induction l as [|a l IH]; cbn; [reflexivity|].
  intros H. apply andb_true_iff in H as [Ha Hl]. now rewrite (Hpq a Ha), IH.
Qed.

Lemma py_int_blank (slot : str) :
  forallb is_blank slot = true -> py_int slot = Raise ValueError.
Proof.
  intros H. apply (forallb_impl _ _ _ is_blank_space) in H.
  unfold py_int, strip. rewrite drop_while_all by assumption. reflexivity.
Qed.

Lemma py_eval_blank (slot : str) :
  forallb is_blank slot = true -> py_eval slot = Raise SyntaxError.
Proof.
  intros H. unfold py_eval. rewrite drop_while_all by assumption. reflexivity.
Qed.

Lemma index_m2_in (slot : str) (c : ascii) : index_m2 slot = Some c -> In c slot.
Proof.
  unfold index_m2. destruct (length slot <? 2)%nat; [discriminate|].
  apply nth_error_In.
Qed.

Lemma convert_blank (slot : str) :
  forallb is_blank slot = true -> (2 <= length slot)%nat ->
  convert slot = Raise SyntaxError.
Proof.
  intros H Hl.
  destruct (split_m2 slot Hl) as (m & c & d & _ & Hi & _ & _).
  rewrite (convert_eval_branch slot c Hi).
  - now apply py_eval_blank.
  - apply is_blank_not_sign.
    apply (proj1 (forallb_forall is_blank slot) H). now apply index_m2_in.
Qed.

Lemma cont_fields_skipC (l : str) (it : Items.t) :
  cont_fields true l = Ok it -> Items.C1 it = SNone /\ Items.C2 it = SNone.
Proof.
  unfold cont_fields. cbn [obind].
  repeat match goal with
         | |- context [obind (py_int ?s) _] =>
             destruct (py_int s); cbn [obind]; try discriminate
         end.
  intros H. injection H as <-. now split.
Qed.

(* ================================================================== *)
(** * Lookups *)

Lemma find_first_none {A : Type} (p : A -> bool) (l : list A) (i : nat) :
  (forall a, In a l -> p a = false) -> find_first p l i = None.
Proof.
  revert i. induction l as [|a l IH]; intros i H; [reflexivity|].
  cbn. rewrite (H a (or_introl eq_refl)). apply IH.
  intros b Hb. apply H. now right.
Qed.

Lemma find_first_first {A : Type} (p : A -> bool) (pre : list A) (a : A)
    (post : list A) (i : nat) :
  (forall b, In b pre -> p b = false) -> p a = true ->
  find_first p (pre ++ a :: post) i = Some (i + length pre, a)%nat.
Proof.
  revert i. induction pre as [|b pre IH]; intros i H Ha; cbn.
  - rewrite Ha. now rewrite Nat.add_0_r.
  - rewrite (H b (or_introl eq_refl)). rewrite IH; [|intros; apply H; now right|assumption].
    do 2 f_equal. lia.
Qed.

Lemma findMT_files_none (mt : Z) (fs : list ENDFFile) (i : nat) :
  (forall f r, In f fs -> In r (reactions f) -> MT r <> mt) ->
  findMT_files mt fs i = None.
Proof.
  revert i. induction fs as [|f fs IH]; intros i H; [reflexivity|].
  cbn. rewrite find_first_none.
  - apply IH. intros g r Hg. apply H. now right.
  - intros r Hr. apply Z.eqb_neq. apply (H f r); [now left | assumption].
Qed.

Lemma findMT_files_first (mt : Z) (pre : list ENDFFile) (f : ENDFFile)
    (post : list ENDFFile) (rpre : list ENDFReaction) (r : ENDFReaction)
    (rpost : list ENDFReaction) (i : nat) :
  (forall g r', In g pre -> In r' (reactions g) -> MT r' <> mt) ->
  reactions f = rpre ++ r :: rpost ->
  (forall r', In r' rpre -> MT r' <> mt) ->
  MT r = mt ->
  findMT_files mt (pre ++ f :: post) i = Some (i + length pre, length rpre, r)%nat.
Proof.
  revert i. induction pre as [|g pre IH]; intros i Hpre Hf Hrpre Hr; cbn.
  - rewrite Hf. rewrite find_first_first.
    + now rewrite Nat.add_0_r.
    + intros b Hb. apply Z.eqb_neq. now apply Hrpre.
    + now apply Z.eqb_eq.
  - rewrite find_first_none.
    + rewrite IH; try assumption.
      * do 3 f_equal. lia.
      * intros h r' Hh. apply Hpre. now right.
    + intros r' Hr'. apply Z.eqb_neq. apply (Hpre g r'); [now left | assumption].
Qed.

(* ================================================================== *)
(** * The field decoder *)

(** C1.  A slot of at most 11 characters whose second-to-last character
    is [+] or [-] decodes to the float mantissa * 10^exponent, where the
    mantissa is the slot without its last two characters and the exponent
    is the sign and digit they hold.  The slot [ 1.23456+5] decodes to
    123456.0 and the slot [-2.5     ] to -2.5. *)
Theorem convert_exponent_suffix :
  (forall (slot : str) (c : ascii) (q : Q),
      (length slot <= 11)%nat ->
      index_m2 slot = Some c -> ascii_in c ["+"; "-"]%char = true ->
      endf_value slot = Some q ->
      convert slot = Ok (SFloat (Fin q))) /\
  endf_value (lit " 1.23456+5") = Some (123456 # 1) /\
  convert (lit " 1.23456+5") = Ok (SFloat (Fin (123456 # 1))) /\
  convert (lit "-2.5     ") = Ok (SFloat (Fin (-5 # 2))).
Proof.
  split; [|repeat split; vm_compute; reflexivity].
  intros slot c q Hl Hi Hc Hv.
  rewrite (convert_sign_branch slot c Hi Hc), Hv.
  now rewrite (endf_value_finite slot q Hl Hv).
Qed.

Lemma convert_exponent_suffix_witness :
  convert (lit " 9.223500+4") = Ok (SFloat (Fin (92235 # 1))).
Proof.
  apply (proj1 convert_exponent_suffix (lit " 9.223500+4") "+"%char (92235 # 1)).
  - vm_compute. repeat constructor.
  - reflexivity.
  - reflexivity.
  - vm_compute. reflexivity.
Defined.

(** C7, as the code has it.  [convert] has no literal parser and no
    MalformedFieldError: a slot shorter than two characters raises
    IndexError; a slot with a sign in the second-to-last place that is not
    a mantissa and an exponent suffix raises the ValueError of [float];
    any other slot is handed to [eval]. *)
Theorem convert_malformed (slot : str) :
  ((length slot < 2)%nat -> convert slot = Raise IndexError) /\
  (forall c, index_m2 slot = Some c -> ascii_in c ["+"; "-"]%char = true ->
             endf_value slot = None -> convert slot = Raise ValueError) /\
  (forall c, index_m2 slot = Some c -> ascii_in c ["+"; "-"]%char = false ->
             convert slot = py_eval slot).
Proof.
  split; [|split].
  - apply convert_short.
  - intros c Hi Hc Hv. now rewrite (convert_sign_branch slot c Hi Hc), Hv.
  - intros c. apply convert_eval_branch.
Qed.

Lemma convert_malformed_witness :
  convert (lit "x") = Raise IndexError /\
  convert (lit " 1.2x4567+5") = Raise ValueError /\
  convert (lit "       None") = py_eval (lit "       None").
Proof.
  split; [|split].
  - apply (proj1 (convert_malformed (lit "x"))). vm_compute. constructor.
  - apply (proj1 (proj2 (convert_malformed (lit " 1.2x4567+5"))) "+"%char);
      vm_compute; reflexivity.
  - apply (proj2 (proj2 (convert_malformed (lit "       None"))) "n"%char);
      vm_compute; reflexivity.
Defined.

(** C7 fails: the slot [       None] is no number, and [convert] returns
    [None] for it; the garbage [ 1.2x4567+5] raises a ValueError. *)
Lemma convert_garbage_counterexample :
  convert (lit "       None") = Ok SNone /\
  ~ raises_named (convert (lit "       None")) "MalformedFieldError" /\
  convert (lit " 1.2x4567+5") = Raise ValueError /\
  ~ raises_named (convert (lit " 1.2x4567+5")) "MalformedFieldError".
Proof.
  repeat split; try (vm_compute; reflexivity).
  - intros (e & H & _). vm_compute in H. discriminate H.
  - intros (e & H & Hn). vm_compute in H. injection H as <-.
    vm_compute in Hn. discriminate Hn.
Qed.

(** C9, as the code has it.  A slot of spaces and tabs decodes to no
    number: [int] raises ValueError on it, [convert] raises SyntaxError
    (IndexError when the slot is shorter than two characters).  With
    [skipC] the slots C1 and C2 are not decoded and are [None]. *)
Theorem blank_slot_raises (slot : str) :
  forallb is_blank slot = true ->
  py_int slot = Raise ValueError /\
  ((2 <= length slot)%nat -> convert slot = Raise SyntaxError) /\
  ((length slot < 2)%nat -> convert slot = Raise IndexError) /\
  (forall line it, cont_fields true (slot ++ slot ++ line) = Ok it ->
                   Items.C1 it = SNone /\ Items.C2 it = SNone).
Proof.
  intros H. split; [|split; [|split]].
  - now apply py_int_blank.
  - now apply convert_blank.
  - apply convert_short.
  - intros line it E. now apply cont_fields_skipC in E.
Qed.

Lemma blank_slot_raises_witness :
  py_int (lit "           ") = Raise ValueError /\
  convert (lit "           ") = Raise SyntaxError.
Proof.
  destruct (blank_slot_raises (lit "           ") eq_refl) as (H1 & H2 & _).
  split; [exact H1 | apply H2]. vm_compute. repeat constructor.
Defined.

(** C9 fails: neither decoder returns zero on the blank slot. *)
Lemma blank_slot_counterexample :
  py_int (lit "           ") <> Ok 0 /\
  convert (lit "           ") <> Ok (SInt 0) /\
  convert (lit "           ") <> Ok (SFloat (Fin 0)).
Proof. repeat split; vm_compute; intros H; discriminate H. Qed.

(* ================================================================== *)
(** * Lookups in the document *)

(** C10.  [findFile] and [findMT] return [None] when nothing matches and
    the first match in insertion order otherwise; they leave the
    evaluation as it is and do not raise. *)
Theorem find_in_document (self : Evaluation) :
  (forall n, (forall f, In f (files self) -> fileNumber f <> n) ->
             findFile n self = Ok (None, self)) /\
  (forall mt, (forall f r, In f (files self) -> In r (reactions f) -> MT r <> mt) ->
              findMT mt self = Ok (None, self)) /\
  (forall n pre f post,
      files self = pre ++ f :: post ->
      (forall g, In g pre -> fileNumber g <> n) -> fileNumber f = n ->
      findFile n self = Ok (Some (length pre, f), self)) /\
  (forall mt pre f post rpre r rpost,
      files self = pre ++ f :: post ->
      (forall g r', In g pre -> In r' (reactions g) -> MT r' <> mt) ->
      reactions f = rpre ++ r :: rpost ->
      (forall r', In r' rpre -> MT r' <> mt) -> MT r = mt ->
      findMT mt self = Ok (Some (length pre, length rpre, r), self)).
Proof.
  split; [|split; [|split]].
  - intros n H. unfold findFile. rewrite find_first_none; [reflexivity|].
    intros f Hf. apply Z.eqb_neq. now apply H.
  - intros mt H. unfold findMT. now rewrite findMT_files_none.
  - intros n pre f post Hf Hpre Hn. unfold findFile. rewrite Hf.
    rewrite find_first_first; [reflexivity| |now apply Z.eqb_eq].
    intros g Hg. apply Z.eqb_neq. now apply Hpre.
  - intros mt pre f post rpre r rpost Hf Hpre Hr Hrpre Hmt. unfold findMT.
    rewrite Hf. now rewrite (findMT_files_first mt pre f post rpre r rpost 0).
Qed.

Lemma find_in_document_witness :
  findFile 2 sample_document = Ok (None, sample_document) /\
  findMT 455 sample_document = Ok (None, sample_document) /\
  findFile 1 sample_document = Ok (Some (0%nat, sample_file), sample_document) /\
  findMT 452 sample_document
  = Ok (Some (0%nat, 1%nat, ENDFReaction_init 452), sample_document).
Proof.
  destruct (find_in_document sample_document) as (H1 & H2 & H3 & H4).
  split; [|split; [|split]].
  - apply H1. intros f [<- | []]. vm_compute. intros E. discriminate E.
  - apply H2. intros f r [<- | []] [<- | [<- | []]]; vm_compute; intros E;
      discriminate E.
  - apply (H3 1 [] sample_file []); [reflexivity | intros g [] | reflexivity].
  - apply (H4 452 [] sample_file [] [ENDFReaction_init 451] (ENDFReaction_init 452) []);
      [reflexivity | intros g r' [] | reflexivity | | reflexivity].
    intros r' [<- | []]. vm_compute. intros E. discriminate E.
Defined.

(* ================================================================== *)
(** * LIST records *)

(** C4.  [getListRecord] returns as many values as the control line
    declares in N1, whatever the remainder of NPL by 6: every list it
    returns has NPL elements, and on a record whose NPL slots are laid out
    six to a line it returns the values of the slots, in their order. *)
Theorem getListRecord_values :
  (forall (onlyList : bool) (ev ev' : Evaluation) (r : list_record)
          (hdr : str) (NPL : Z),
      getListRecord onlyList ev = Ok (r, ev') ->
      nth_error (lines (fh ev)) (pos (fh ev)) = Some hdr ->
      py_int (slice 44 55 hdr) = Ok NPL -> 0 <= NPL ->
      Z.of_nat (length (itemsList_of r)) = NPL) /\
  (forall (onlyList : bool) (ev : Evaluation) (hdr : str) (items : Items.t)
          (slots : list str) (vals : list scalar) (ls rest : list str),
      unread (fh ev) = hdr :: ls ++ rest ->
      cont_fields false hdr = Ok items ->
      Items.N1 items = Z.of_nat (length slots) ->
      Packed 6 slots ls ->
      Forall2 (fun sl v => length sl = 11%nat /\ convert sl = Ok v) slots vals ->
      exists r ev',
        getListRecord onlyList ev = Ok (r, ev') /\
        itemsList_of r = vals /\
        Z.of_nat (length vals) = Items.N1 items /\
        unread (fh ev') = rest).
Proof.
  split.
  - intros onlyList ev ev' r hdr NPL H Hl Hn HN.
    now destruct (getListRecord_inv _ _ _ _ _ _ H Hl Hn HN) as (E & _).
  - intros onlyList ev hdr items slots vals ls rest Hu Hc Hn HP Hv.
    pose proof (getListRecord_packed onlyList ev hdr items slots vals ls rest
                  Hu Hc Hn HP Hv) as E.
    destruct (good_slots_values _ _ Hv) as (_ & _ & Hlen).
    eexists; eexists. split; [exact E|]. split; [now destruct onlyList|].
    split; [lia|].
    unfold unread, with_fh in *. cbn [fh lines pos].
    replace (pos (fh ev) + 1 + length ls)%nat
      with (Datatypes.S (length ls) + pos (fh ev))%nat by lia.
    rewrite <- skipn_skipn, Hu. cbn [skipn].
    rewrite skipn_app, Nat.sub_diag, skipn_all. reflexivity.
Qed.

(** The record of 8 values on a line of 6 and a line of 2. *)
Lemma getListRecord_values_witness :
  exists r ev',
    getListRecord true (evaluation_at list8_lines []) = Ok (r, ev') /\
    itemsList_of r = list8_values /\
    Z.of_nat (length list8_values) = 8 /\
    unread (fh ev') = [].
Proof.
  destruct (cont_fields false (hd [] list8_lines)) as [items| | |] eqn:Ec;
    try (vm_compute in Ec; discriminate Ec).
  assert (Hn : Items.N1 items = 8).
  { vm_compute in Ec. injection Ec as <-. reflexivity. }
  destruct (proj2 getListRecord_values true (evaluation_at list8_lines [])
              (hd [] list8_lines) items list8_slots list8_values
              (tl list8_lines) [])
    as (r & ev' & H1 & H2 & H3 & H4).
  - reflexivity.
  - exact Ec.
  - exact Hn.
  - change list8_slots with (firstn 6 list8_slots ++ skipn 6 list8_slots).
    change (tl list8_lines)
      with [concat (firstn 6 list8_slots) ++ line "9228 1452    3";
            concat (skipn 6 list8_slots)
            ++ line "                                            9228 1452    4"].
    apply Packed_line.
    + intros E; discriminate E.
    + cbn. repeat constructor.
    + cbn. intros E. exfalso. revert E. apply Nat.lt_irrefl.
    + rewrite <- (app_nil_r (skipn 6 list8_slots)).
      apply Packed_line.
      * intros E; discriminate E.
      * cbn. repeat constructor.
      * reflexivity.
      * apply Packed_nil.
  - unfold list8_slots, list8_values.
    repeat (constructor; [split; [reflexivity | vm_compute; reflexivity]|]).
    constructor.
  - exists r, ev'. rewrite Hn in H3. auto.
Defined.

(* ================================================================== *)
(** * Records laid out on lines *)

Lemma unread_nil_next (s : stream) : unread s = [] -> next_line s = ([], s).
Proof.
  unfold unread. intros H. apply next_line_none. apply nth_error_None.
  assert (L : length (skipn (pos s) (lines s)) = 0%nat) by now rewrite H.
  rewrite length_skipn in L. lia.
Qed.

Lemma unread_length (s : stream) : length (unread s) = (length (lines s) - pos s)%nat.
Proof. unfold unread. apply length_skipn. Qed.

(* ================================================================== *)
(** * TAB1 records on well-formed lines *)

Lemma slices_22 (sl rest : str) :
  length sl = 22%nat ->
  slice 0 11 (sl ++ rest) = firstn 11 sl /\
  slice 11 22 (sl ++ rest) = skipn 11 sl /\
  slice_from 22 (sl ++ rest) = rest.
Proof.
  intros H. unfold slice, slice_from.
  change (11 - 0)%nat with 11%nat. change (22 - 11)%nat with 11%nat.
  change (skipn 0 (sl ++ rest)) with (sl ++ rest).
  assert (H11 : (11 - length sl = 0)%nat) by lia.
  assert (Hs : length (skipn 11 sl) = 11%nat) by (rewrite length_skipn; lia).
  repeat split.
  - rewrite firstn_app, H11. change (firstn 0 rest) with (@nil ascii).
    apply app_nil_r.
  - rewrite skipn_app, H11. change (skipn 0 rest) with rest.
    rewrite firstn_app, Hs, Nat.sub_diag.
    change (firstn 0 rest) with (@nil ascii). rewrite app_nil_r.
    apply firstn_all2. lia.
  - rewrite skipn_app, H, Nat.sub_diag. change (skipn 0 rest) with rest.
    rewrite skipn_all2 by lia. reflexivity.
Qed.

Lemma tab1_region_ok (sl rest : str) (self : ENDFTab1Record) :
  good_region sl -> tab1_region (sl ++ rest, self) = Ok (rest, region_step sl self).
Proof.
  intros (Hl & H1 & H2). unfold tab1_region, region_step, int_value.
  destruct (slices_22 sl rest Hl) as (-> & -> & ->).
  destruct (py_int (firstn 11 sl)); try discriminate H1.
  destruct (py_int (skipn 11 sl)); try discriminate H2. reflexivity.
Qed.

Lemma tab1_pair_ok (sl rest : str) (self : ENDFTab1Record) :
  good_pair sl -> tab1_pair (sl ++ rest, self) = Ok (rest, pair_step sl self).
Proof.
  intros (Hl & H1 & H2). unfold tab1_pair, pair_step, slot_value.
  destruct (slices_22 sl rest Hl) as (-> & -> & ->).
  destruct (convert (firstn 11 sl)); try discriminate H1.
  destruct (convert (skipn 11 sl)); try discriminate H2. reflexivity.
Qed.

Lemma regions_fold (slots : list str) (vals : list (Z * Z)) :
  Forall2 region_holds slots vals ->
  Forall good_region slots /\ length vals = length slots /\
  forall self,
    fold_left (fun a sl => region_step sl a) slots self
    = {| NBT := NBT self ++ map fst vals; INT := INT self ++ map snd vals;
         x := x self; y := y self |}.
Proof.
  induction 1 as [|sl v slots vals (Hl & H1 & H2) _ (IH1 & IH2 & IH3)].
  - repeat split; [constructor|]. intros [a b c d]. cbn. now rewrite !app_nil_r.
  - repeat split.
    + constructor; [|assumption]. unfold good_region. now rewrite H1, H2.
    + cbn. now rewrite IH2.
    + intros self. cbn [fold_left]. rewrite IH3. unfold region_step, int_value.
      rewrite H1, H2. cbn [NBT INT x y map]. now rewrite <- !app_assoc.
Qed.

Lemma pairs_fold (slots : list str) (vals : list (scalar * scalar)) :
  Forall2 pair_holds slots vals ->
  Forall good_pair slots /\ length vals = length slots /\
  forall self,
    fold_left (fun a sl => pair_step sl a) slots self
    = {| NBT := NBT self; INT := INT self;
         x := x self ++ map fst vals; y := y self ++ map snd vals |}.
Proof.
  induction 1 as [|sl v slots vals (Hl & H1 & H2) _ (IH1 & IH2 & IH3)].
  - repeat split; [constructor|]. intros [a b c d]. cbn. now rewrite !app_nil_r.
  - repeat split.
    + constructor; [|assumption]. unfold good_pair. now rewrite H1, H2.
    + cbn. now rewrite IH2.
    + intros self. cbn [fold_left]. rewrite IH3. unfold pair_step, slot_value.
      rewrite H1, H2. cbn [NBT INT x y map]. now rewrite <- !app_assoc.
Qed.

Lemma unread_skip (s : stream) (ls rest : list str) :
  unread s = ls ++ rest ->
  unread {| lines := lines s; pos := pos s + length ls |} = rest.
Proof.
  unfold unread. cbn [lines pos]. intros H.
  rewrite Nat.add_comm, <- skipn_skipn, H.
  rewrite skipn_app, Nat.sub_diag, skipn_all. reflexivity.
Qed.

(** [ENDFTab1Record.read] on a well-formed TAB1 record. *)
Lemma ENDFTab1Record_read_packed (s : stream) (hdr : str)
    (regions points : list str) (rvals : list (Z * Z))
    (pvals : list (scalar * scalar)) (rls pls rest : list str) :
  unread s = hdr :: rls ++ pls ++ rest ->
  py_int (slice 44 55 hdr) = Ok (Z.of_nat (length regions)) ->
  py_int (slice 55 66 hdr) = Ok (Z.of_nat (length points)) ->
  Packed 3 regions rls -> Packed 3 points pls ->
  Forall2 region_holds regions rvals ->
  Forall2 pair_holds points pvals ->
  ENDFTab1Record_read ENDFTab1Record_init s
  = Ok ({| NBT := map fst rvals; INT := map snd rvals;
           x := map fst pvals; y := map snd pvals |},
        {| lines := lines s; pos := pos s + 1 + length rls + length pls |}).
Proof.
  intros Hu HNR HNP HPr HPp Hr Hp.
  destruct (regions_fold _ _ Hr) as (Gr & _ & Fr).
  destruct (pairs_fold _ _ Hp) as (Gp & _ & Fp).
  rewrite ENDFTab1Record_read_eq.
  apply next_line_unread in Hu as [Hnl Hu]. rewrite Hnl. cbn [fst snd]. cbv zeta.
  rewrite HNR, HNP.
  rewrite (packed_count 3 ltac:(lia) regions rls HPr).
  rewrite (packed_loop 3 tab1_region (Z.of_nat (length regions)) ltac:(lia)
             good_region region_step tab1_region_ok regions rls HPr
             ENDFTab1Record_init 0 _ (pls ++ rest) Gr ltac:(lia) Hu).
  cbn [fst].
  rewrite (packed_count 3 ltac:(lia) points pls HPp).
  apply unread_skip in Hu.
  rewrite (packed_loop 3 tab1_pair (Z.of_nat (length points)) ltac:(lia)
             good_pair pair_step tab1_pair_ok points pls HPp
             _ 0 _ rest Gp ltac:(lia) Hu).
  cbn [fst lines pos]. rewrite Fp, Fr. cbn.
  do 3 f_equal. lia.
Qed.

(* ================================================================== *)
(** * Counts that are not positive *)

Lemma range_count_nonpositive (N c : Z) :
  0 < c -> N <= 0 -> Z.to_nat ((N - 1) / c + 1) = 0%nat.
Proof.
  intros Hc HN. assert ((N - 1) / c < 0) by (apply Z.div_lt_upper_bound; lia).
  lia.
Qed.

(* ================================================================== *)
(** * Records cut by the end of the file *)

Lemma Packed_length (c : nat) (slots ls : list str) :
  Packed c slots ls -> (length slots <= c * length ls)%nat.
Proof.
  induction 1 as [|chunk others tail ls Hne Hle Hlast HP IH]; [cbn; lia|].
  rewrite length_app. cbn [length]. nia.
Qed.

(** The lines of a record but the last one: full lines, of slots that
    are not all the slots. *)
Lemma Packed_cut (c : nat) (ls : list str) :
  forall (slots : list str) (l : str),
    Packed c slots (ls ++ [l]) ->
    exists pre lc,
      slots = pre ++ lc /\ lc <> [] /\ Packed c pre ls /\
      length pre = (c * length ls)%nat.
Proof.
  induction ls as [|a ls IH]; intros slots l H.
  - cbn [app] in H. inversion H as [|chunk others tail ls0 Hne Hle Hlast HP]; subst.
    inversion HP; subst. exists [], (chunk ++ []).
    split; [reflexivity|]. split; [now rewrite app_nil_r|].
    split; [constructor | cbn; lia].
  - cbn [app] in H. inversion H as [|chunk others tail ls0 Hne Hle Hlast HP]; subst.
    destruct (IH _ _ HP) as (pre & lc & -> & Hlc & HPre & Hlen).
    assert (Hfull : length chunk = c).
    { destruct (Nat.ltb_spec (length chunk) c) as [Hlt|Hge]; [|lia].
      apply Hlast in Hlt. apply app_eq_nil in Hlt as [_ Hlt]. contradiction. }
    exists (chunk ++ pre), lc. split; [now rewrite app_assoc|].
    split; [exact Hlc|]. split.
    + apply Packed_line; [exact Hne | exact Hle | lia | exact HPre].
    + rewrite length_app. cbn [length]. nia.
Qed.

Section CutLoop.
Context {Acc : Type}.
Variables (c : Z) (item : str * Acc -> outcome (str * Acc)) (N : Z).
Hypothesis c_pos : 0 < c.
Variables (good : str -> Prop) (step : str -> Acc -> Acc) (e : exn).
Hypothesis item_ok :
  forall sl rest a, good sl -> item (sl ++ rest, a) = Ok (rest, step sl a).
Hypothesis item_end : forall a, item ([], a) = Raise e.

(** The loop over lines that end before the items do: after the full
    lines, the turn at the end of the file raises what the first
    conversion raises on the empty string. *)
Lemma cut_loop (slots ls : list str) :
  Packed (Z.to_nat c) slots ls ->
  forall (k : nat) (acc : Acc) (m : Z) (s : stream),
    Forall good slots ->
    length slots = (Z.to_nat c * length ls)%nat ->
    Z.of_nat (length slots) < N - m ->
    unread s = ls ->
    (length ls < k)%nat ->
    for_range_nat k (block_line c item N) (acc, m) s = Raise e.
Proof.
  induction 1 as [|chunk others tail ls Hne Hle Hlast HP IH];
    intros k acc m s Hg Hfull Hlt Hu Hk;
    (destruct k as [|k]; [cbn [length] in Hk; lia|]);
    cbn [for_range_nat]; unfold bind; rewrite (block_line_eq c item N).
  - rewrite (unread_nil_next s Hu). cbn [fst snd]. cbn [length] in Hlt.
    destruct (Z.to_nat (Z.min c (N - m))) as [|n] eqn:En; [lia|].
    cbn [iter_items]. rewrite item_end. reflexivity.
  - apply next_line_unread in Hu as [Hn Hu]. rewrite Hn. cbn [fst snd].
    apply Forall_app in Hg as [Hg1 Hg2].
    pose proof (Packed_length _ _ _ HP) as Hlen.
    rewrite length_app in Hfull, Hlt. cbn [length] in Hfull, Hk.
    assert (Hc : length chunk = Z.to_nat c) by nia.
    assert (Ho : length others = (Z.to_nat c * length ls)%nat) by nia.
    assert (Ht : Z.min c (N - m) = Z.of_nat (length chunk)) by lia.
    rewrite Ht, Nat2Z.id.
    rewrite (iter_items_chunk item good step item_ok) by exact Hg1.
    cbn [snd].
    apply IH; [exact Hg2 | exact Ho | lia | exact Hu | lia].
Qed.
End CutLoop.

Lemma range_count_above (N c : Z) (n : nat) :
  0 < c -> c * Z.of_nat n < N -> (n < Z.to_nat ((N - 1) / c + 1))%nat.
Proof.
  intros Hc H.
  assert (Z.of_nat n <= (N - 1) / c) by (apply Z.div_le_lower_bound; lia).
  lia.
Qed.

Lemma list_record_cut (onlyList : bool) (ev : Evaluation) (hdr : str)
    (items : Items.t) (slots : list str) (vals : list scalar) (ls : list str) :
  unread (fh ev) = hdr :: ls ->
  cont_fields false hdr = Ok items ->
  Packed 6 slots ls ->
  Forall2 (fun sl v => length sl = 11%nat /\ convert sl = Ok v) slots vals ->
  length slots = (6 * length ls)%nat ->
  Z.of_nat (length slots) < Items.N1 items ->
  getListRecord onlyList ev = Raise IndexError.
Proof.
  intros Hu Hc HP Hv Hfull Hlt.
  destruct (good_slots_values _ _ Hv) as (Hg & _ & _).
  rewrite getListRecord_eq.
  apply next_line_unread in Hu as [Hnl Hu]. rewrite Hnl. cbn [fst snd].
  rewrite Hc.
  rewrite (cut_loop 6 list_item (Items.N1 items) ltac:(lia) good_slot
             (fun sl a => a ++ [slot_value sl]) IndexError list_item_ok
             ltac:(reflexivity) slots ls HP _ [] 0 _ Hg Hfull ltac:(lia) Hu);
    [reflexivity|].
  apply range_count_above; lia.
Qed.

Lemma tab1_record_cut_regions (self : ENDFTab1Record) (s : stream) (hdr : str)
    (NR NP : Z) (regions : list str) (rvals : list (Z * Z)) (rls : list str) :
  unread s = hdr :: rls ->
  py_int (slice 44 55 hdr) = Ok NR -> py_int (slice 55 66 hdr) = Ok NP ->
  Packed 3 regions rls ->
  Forall2 region_holds regions rvals ->
  length regions = (3 * length rls)%nat ->
  Z.of_nat (length regions) < NR ->
  ENDFTab1Record_read self s = Raise ValueError.
Proof.
  intros Hu HNR HNP HP Hr Hfull Hlt.
  destruct (regions_fold _ _ Hr) as (Gr & _ & _).
  rewrite ENDFTab1Record_read_eq.
  apply next_line_unread in Hu as [Hnl Hu]. rewrite Hnl. cbn [fst snd]. cbv zeta.
  rewrite HNR, HNP.
  rewrite (cut_loop 3 tab1_region NR ltac:(lia) good_region region_step ValueError
             tab1_region_ok ltac:(reflexivity) regions rls HP _ self 0 _ Gr Hfull
             ltac:(lia) Hu);
    [reflexivity|].
  apply range_count_above; lia.
Qed.

Lemma tab1_record_cut_points (self : ENDFTab1Record) (s : stream) (hdr : str)
    (NP : Z) (regions points : list str) (rvals : list (Z * Z))
    (pvals : list (scalar * scalar)) (rls pls : list str) :
  unread s = hdr :: rls ++ pls ->
  py_int (slice 44 55 hdr) = Ok (Z.of_nat (length regions)) ->
  py_int (slice 55 66 hdr) = Ok NP ->
  Packed 3 regions rls -> Forall2 region_holds regions rvals ->
  Packed 3 points pls -> Forall2 pair_holds points pvals ->
  length points = (3 * length pls)%nat ->
  Z.of_nat (length points) < NP ->
  ENDFTab1Record_read self s = Raise IndexError.
Proof.
  intros Hu HNR HNP HPr Hr HPp Hp Hfull Hlt.
  destruct (regions_fold _ _ Hr) as (Gr & _ & _).
  destruct (pairs_fold _ _ Hp) as (Gp & _ & _).
  rewrite ENDFTab1Record_read_eq.
  apply next_line_unread in Hu as [Hnl Hu]. rewrite Hnl. cbn [fst snd]. cbv zeta.
  rewrite HNR, HNP.
  rewrite (packed_count 3 ltac:(lia) regions rls HPr).
  rewrite (packed_loop 3 tab1_region (Z.of_nat (length regions)) ltac:(lia)
             good_region region_step tab1_region_ok regions rls HPr
             self 0 _ pls Gr ltac:(lia) Hu).
  cbn [fst].
  apply unread_skip in Hu.
  rewrite (cut_loop 3 tab1_pair NP ltac:(lia) good_pair pair_step IndexError
             tab1_pair_ok ltac:(reflexivity) points pls HPp _ _ 0 _ Gp Hfull
             ltac:(lia) Hu);
    [reflexivity|].
  apply range_count_above; lia.
Qed.

(* ================================================================== *)
(** * TAB1 records *)

Lemma getTab1Record_inv (ev : Evaluation) (r : ENDFTab1Record) (ev' : Evaluation) :
  getTab1Record ev = Ok (r, ev') ->
  exists fh', ENDFTab1Record_read ENDFTab1Record_init (fh ev) = Ok (r, fh') /\
              ev' = with_fh ev fh'.
Proof.
  unfold getTab1Record. rewrite on_fh_eq.
  destruct (ENDFTab1Record_read _ _) as [[r0 fh']| | |]; try discriminate.
  intros H. injection H as <- <-. now exists fh'.
Qed.

(** C5, as the code has it.  A TAB1 record read from a line declaring
    [NR >= 0] regions and [NP >= 0] points has NR elements in NBT and in
    INT and NP elements in x and in y.  The values are those of the tape:
    on a record laid out three pairs to a line, NBT and INT are the
    integers of the regions and x and y the values of the points, in the
    order of the tape.  The code checks nothing: NBT is non-decreasing
    and ends in NP exactly when the integers of the tape are and do. *)
Theorem tab1_read_lengths :
  (forall (s s' : stream) (r : ENDFTab1Record) (hdr : str) (NR NP : Z),
      ENDFTab1Record_read ENDFTab1Record_init s = Ok (r, s') ->
      nth_error (lines s) (pos s) = Some hdr ->
      py_int (slice 44 55 hdr) = Ok NR ->
      py_int (slice 55 66 hdr) = Ok NP ->
      0 <= NR -> 0 <= NP ->
      Z.of_nat (length (NBT r)) = NR /\ Z.of_nat (length (INT r)) = NR /\
      Z.of_nat (length (x r)) = NP /\ Z.of_nat (length (y r)) = NP) /\
  (forall (s : stream) (hdr : str) (regions points : list str)
          (rvals : list (Z * Z)) (pvals : list (scalar * scalar))
          (rls pls rest : list str),
      unread s = hdr :: rls ++ pls ++ rest ->
      py_int (slice 44 55 hdr) = Ok (Z.of_nat (length regions)) ->
      py_int (slice 55 66 hdr) = Ok (Z.of_nat (length points)) ->
      Packed 3 regions rls -> Packed 3 points pls ->
      Forall2 region_holds regions rvals ->
      Forall2 pair_holds points pvals ->
      exists r s',
        ENDFTab1Record_read ENDFTab1Record_init s = Ok (r, s') /\
        NBT r = map fst rvals /\ INT r = map snd rvals /\
        x r = map fst pvals /\ y r = map snd pvals /\
        (tab1_invariant (Z.of_nat (length regions)) (Z.of_nat (length points)) r
         <-> nondecreasing (map fst rvals) /\
             last (map fst rvals) 0 = Z.of_nat (length points))).
Proof.
  split.
  - intros s s' r hdr NR NP H Hl HNR HNP HR HP.
    destruct (ENDFTab1Record_read_inv _ _ _ _ _ _ _ H Hl HNR HNP HR HP)
      as (A & B & C & D & _).
    cbn in A, B, C, D. auto.
  - intros s hdr regions points rvals pvals rls pls rest Hu HNR HNP HPr HPp Hr Hp.
    rewrite (ENDFTab1Record_read_packed s hdr regions points rvals pvals rls pls rest
               Hu HNR HNP HPr HPp Hr Hp).
    eexists; eexists. split; [reflexivity|].
    cbn [NBT INT x y]. do 4 (split; [reflexivity|]).
    pose proof (Forall2_length Hr) as Lr. pose proof (Forall2_length Hp) as Lp.
    unfold tab1_invariant. cbn [NBT INT x y]. rewrite !length_map.
    split.
    + intros (_ & _ & _ & _ & H1 & H2). now split.
    + intros [H1 H2]. rewrite <- Lr, <- Lp. now repeat split.
Qed.

Lemma tab1_read_lengths_witness :
  exists r s',
    ENDFTab1Record_read ENDFTab1Record_init {| lines := tab1_lines; pos := 0 |}
    = Ok (r, s') /\
    NBT r = [2] /\ INT r = [2] /\
    Z.of_nat (length (x r)) = 2 /\ Z.of_nat (length (y r)) = 2 /\
    tab1_invariant 1 2 r.
Proof.
  destruct (proj2 tab1_read_lengths {| lines := tab1_lines; pos := 0 |}
              (hd [] tab1_lines)
              (slots_22 1 (nth 1 tab1_lines []))
              (slots_22 2 (nth 2 tab1_lines []))
              [(2, 2)]
              (map (fun sl => (slot_value (firstn 11 sl), slot_value (skipn 11 sl)))
                   (slots_22 2 (nth 2 tab1_lines [])))
              [nth 1 tab1_lines []] [nth 2 tab1_lines []] [])
    as (r & s' & E & H1 & H2 & _ & _ & H5).
  - reflexivity.
  - vm_compute. reflexivity.
  - vm_compute. reflexivity.
  - change [nth 1 tab1_lines []]
      with [concat (slots_22 1 (nth 1 tab1_lines []))
            ++ skipn 22 (nth 1 tab1_lines [])].
    rewrite <- (app_nil_r (slots_22 1 (nth 1 tab1_lines []))) at 1.
    apply Packed_line;
      [intros X; discriminate X | cbn; lia | reflexivity | apply Packed_nil].
  - change [nth 2 tab1_lines []]
      with [concat (slots_22 2 (nth 2 tab1_lines []))
            ++ skipn 44 (nth 2 tab1_lines [])].
    rewrite <- (app_nil_r (slots_22 2 (nth 2 tab1_lines []))) at 1.
    apply Packed_line;
      [intros X; discriminate X | cbn; lia | reflexivity | apply Packed_nil].
  - repeat (constructor; [split; [reflexivity | split; vm_compute; reflexivity]|]).
    constructor.
  - repeat (constructor; [split; [reflexivity | split; vm_compute; reflexivity]|]).
    constructor.
  - destruct (proj1 tab1_read_lengths _ s' r (hd [] tab1_lines) 1 2 E)
      as (_ & _ & L3 & L4);
      try reflexivity; try (vm_compute; intros X; discriminate X).
    exists r, s'. split; [exact E|]. split; [exact H1|]. split; [exact H2|].
    split; [exact L3|]. split; [exact L4|].
    apply H5. cbn. split; [exact I | reflexivity].
Defined.

(** C5 fails: a record whose NBT is [3; 2] for NP = 3 is read as it is. *)
Lemma tab1_invariant_counterexample :
  exists r s',
    ENDFTab1Record_read ENDFTab1Record_init {| lines := tab1_unordered_lines; pos := 0 |}
    = Ok (r, s') /\
    NBT r = [3; 2] /\ ~ tab1_invariant 2 3 r.
Proof.
  eexists; eexists. split; [vm_compute; reflexivity|].
  split; [reflexivity|].
  intros (_ & _ & _ & _ & H & _). cbn in H. lia.
Qed.

(* ================================================================== *)
(** * Lines read *)

Lemma one_line_advanced {A : Type} (fields : str -> outcome A) (ev : Evaluation)
    (r : A) (ev' : Evaluation) :
  is_Ok (fields []) = false ->
  obind (fields (fst (next_line (fh ev))))
        (fun r => Ok (r, with_fh ev (snd (next_line (fh ev))))) = Ok (r, ev') ->
  advanced ev ev' 1.
Proof.
  intros He H. destruct (one_line_read fields ev r ev' He H) as (l & _ & _ & ->).
  unfold advanced, with_fh. cbn. repeat split; lia.
Qed.

(** C6, as the code has it.  A record reader that returns has moved the
    stream by the lines of its record, and changed nothing else: 1 line
    for a TEXT, CONTROL or HEAD record read from the stream,
    1 + ceil(NPL/6) for a LIST record and 1 + ceil(NR/3) + ceil(NP/3) for
    a TAB1 record, the counts being the non-negative ones of the first
    line. *)
Theorem record_lines_read :
  (forall ev r ev', getTextRecord None ev = Ok (r, ev') -> advanced ev ev' 1) /\
  (forall skipC ev r ev',
      getContRecord None skipC ev = Ok (r, ev') -> advanced ev ev' 1) /\
  (forall ev r ev', getHeadRecord None ev = Ok (r, ev') -> advanced ev ev' 1) /\
  (forall onlyList ev r ev' hdr NPL,
      getListRecord onlyList ev = Ok (r, ev') ->
      nth_error (lines (fh ev)) (pos (fh ev)) = Some hdr ->
      py_int (slice 44 55 hdr) = Ok NPL -> 0 <= NPL ->
      advanced ev ev' (1 + ceil_div NPL 6)) /\
  (forall ev r ev' hdr NR NP,
      getTab1Record ev = Ok (r, ev') ->
      nth_error (lines (fh ev)) (pos (fh ev)) = Some hdr ->
      py_int (slice 44 55 hdr) = Ok NR ->
      py_int (slice 55 66 hdr) = Ok NP ->
      0 <= NR -> 0 <= NP ->
      advanced ev ev' (1 + ceil_div NR 3 + ceil_div NP 3)).
Proof.
  split; [|split; [|split; [|split]]].
  - intros ev r ev' H. rewrite getTextRecord_eq in H.
    now apply one_line_advanced in H.
  - intros skipC ev r ev' H. rewrite getContRecord_eq in H.
    apply one_line_advanced in H; [assumption|].
    rewrite cont_fields_empty. reflexivity.
  - intros ev r ev' H. rewrite getHeadRecord_eq in H.
    now apply one_line_advanced in H.
  - intros onlyList ev r ev' hdr NPL H Hl Hn HN.
    destruct (getListRecord_inv _ _ _ _ _ _ H Hl Hn HN) as (_ & A & _ & B & C & D).
    unfold advanced. repeat split; try assumption. lia.
  - intros ev r ev' hdr NR NP H Hl HNR HNP HR HP.
    apply getTab1Record_inv in H as (fh' & H & ->).
    destruct (ENDFTab1Record_read_inv _ _ _ _ _ _ _ H Hl HNR HNP HR HP)
      as (_ & _ & _ & _ & A & _ & B).
    unfold advanced, with_fh. cbn [fh files reactionList].
    repeat split; try assumption. lia.
Qed.

Lemma record_lines_read_witness :
  exists r ev',
    getTab1Record (evaluation_at tab1_four_lines []) = Ok (r, ev') /\
    advanced (evaluation_at tab1_four_lines []) ev' 4.
Proof.
  destruct (getTab1Record (evaluation_at tab1_four_lines []))
    as [[r ev']| | |] eqn:E; try (vm_compute in E; discriminate E).
  exists r, ev'. split; [reflexivity|].
  apply (proj2 (proj2 (proj2 (proj2 record_lines_read)))
           (evaluation_at tab1_four_lines []) r ev' (hd [] tab1_four_lines) 1 4 E);
    try reflexivity; vm_compute; intros H; discriminate H.
Defined.

(** C6 fails for TAB1: the record of [tab1_lines], with NR = 1 and
    NP = 2, is read in 3 lines, where 2 + ceil(NR/3) + ceil(NP/3) is 4. *)
Lemma tab1_lines_counterexample :
  py_int (slice 44 55 (hd [] tab1_lines)) = Ok 1 /\
  py_int (slice 55 66 (hd [] tab1_lines)) = Ok 2 /\
  exists r ev',
    getTab1Record (evaluation_at tab1_lines []) = Ok (r, ev') /\
    pos (fh ev') = 3%nat /\
    ~ advanced (evaluation_at tab1_lines []) ev' (2 + ceil_div 1 3 + ceil_div 2 3).
Proof.
  split; [vm_compute; reflexivity|]. split; [vm_compute; reflexivity|].
  eexists; eexists. split; [vm_compute; reflexivity|].
  split; [reflexivity|].
  intros (_ & H & _). vm_compute in H. discriminate H.
Qed.

(* ================================================================== *)
(** * Truncated streams *)

Lemma lines_left_none (ev : Evaluation) :
  lines_left ev = 0%nat -> next_line (fh ev) = ([], fh ev).
Proof. intros H. apply next_line_none. now apply at_end_none. Qed.

(** C8, as the code has it.  The module has no
    UnexpectedEndOfStreamError.  At the end of the stream [readline]
    returns the empty string, on which the first conversion raises:
    ValueError from [int] (TEXT and TAB1 records, CONTROL records with
    [skipC]) or IndexError from [convert] (CONTROL, HEAD and LIST
    records).  A LIST or TAB1 record with fewer lines left than its first
    line asks for is not returned.  A record cut after full lines raises
    what the conversion it has come to raises on the empty string:
    IndexError in the items of a LIST record and in the points of a TAB1
    record, ValueError in the regions of a TAB1 record.  So a TAB1 record
    without its last line raises IndexError when that line is a line of
    points, and ValueError when the record has no point and that line is
    a line of regions. *)
Theorem truncated_read_fails :
  (forall ev, lines_left ev = 0%nat ->
      getTextRecord None ev = Raise ValueError /\
      getContRecord None false ev = Raise IndexError /\
      getContRecord None true ev = Raise ValueError /\
      getHeadRecord None ev = Raise IndexError /\
      (forall onlyList, getListRecord onlyList ev = Raise IndexError) /\
      getTab1Record ev = Raise ValueError) /\
  (forall onlyList ev hdr NPL,
      nth_error (lines (fh ev)) (pos (fh ev)) = Some hdr ->
      py_int (slice 44 55 hdr) = Ok NPL -> 0 <= NPL ->
      Z.of_nat (lines_left ev) < 1 + ceil_div NPL 6 ->
      is_Ok (getListRecord onlyList ev) = false) /\
  (forall ev hdr NR NP,
      nth_error (lines (fh ev)) (pos (fh ev)) = Some hdr ->
      py_int (slice 44 55 hdr) = Ok NR ->
      py_int (slice 55 66 hdr) = Ok NP ->
      0 <= NR -> 0 <= NP ->
      Z.of_nat (lines_left ev) < 1 + ceil_div NR 3 + ceil_div NP 3 ->
      is_Ok (getTab1Record ev) = false) /\
  (forall onlyList ev hdr items slots vals ls,
      unread (fh ev) = hdr :: ls ->
      cont_fields false hdr = Ok items ->
      Packed 6 slots ls ->
      Forall2 (fun sl v => length sl = 11%nat /\ convert sl = Ok v) slots vals ->
      length slots = (6 * length ls)%nat ->
      Z.of_nat (length slots) < Items.N1 items ->
      getListRecord onlyList ev = Raise IndexError) /\
  (forall ev hdr NR NP regions rvals rls,
      unread (fh ev) = hdr :: rls ->
      py_int (slice 44 55 hdr) = Ok NR ->
      py_int (slice 55 66 hdr) = Ok NP ->
      Packed 3 regions rls ->
      Forall2 region_holds regions rvals ->
      length regions = (3 * length rls)%nat ->
      Z.of_nat (length regions) < NR ->
      getTab1Record ev = Raise ValueError) /\
  (forall ev hdr NP regions rvals rls points pvals pls,
      unread (fh ev) = hdr :: rls ++ pls ->
      py_int (slice 44 55 hdr) = Ok (Z.of_nat (length regions)) ->
      py_int (slice 55 66 hdr) = Ok NP ->
      Packed 3 regions rls -> Forall2 region_holds regions rvals ->
      Packed 3 points pls -> Forall2 pair_holds points pvals ->
      length points = (3 * length pls)%nat ->
      Z.of_nat (length points) < NP ->
      getTab1Record ev = Raise IndexError) /\
  (forall ev hdr regions rvals rls points pvals pls,
      py_int (slice 44 55 hdr) = Ok (Z.of_nat (length regions)) ->
      py_int (slice 55 66 hdr) = Ok (Z.of_nat (length points)) ->
      Packed 3 regions rls -> Forall2 region_holds regions rvals ->
      Packed 3 points pls -> Forall2 pair_holds points pvals ->
      pls <> [] ->
      unread (fh ev) = hdr :: removelast (rls ++ pls) ->
      getTab1Record ev = Raise IndexError) /\
  (forall ev hdr NP regions rvals rls,
      py_int (slice 44 55 hdr) = Ok (Z.of_nat (length regions)) ->
      py_int (slice 55 66 hdr) = Ok NP -> NP <= 0 ->
      Packed 3 regions rls -> Forall2 region_holds regions rvals ->
      rls <> [] ->
      unread (fh ev) = hdr :: removelast rls ->
      getTab1Record ev = Raise ValueError).
Proof.
  split; [|split; [|split; [|split; [|split; [|split; [|split]]]]]].
  - intros ev H. pose proof (lines_left_none ev H) as E.
    split; [|split; [|split; [|split; [|split]]]].
    + rewrite getTextRecord_eq, E. reflexivity.
    + rewrite getContRecord_eq, E. reflexivity.
    + rewrite getContRecord_eq, E. reflexivity.
    + rewrite getHeadRecord_eq, E. reflexivity.
    + intros onlyList. rewrite getListRecord_eq, E. reflexivity.
    + unfold getTab1Record. rewrite on_fh_eq, ENDFTab1Record_read_eq, E.
      reflexivity.
  - intros onlyList ev hdr NPL Hl Hn HN Hlt.
    destruct (getListRecord onlyList ev) as [[r ev']| | |] eqn:E; try reflexivity.
    destruct (getListRecord_inv _ _ _ _ _ _ E Hl Hn HN) as (_ & _ & A & _). lia.
  - intros ev hdr NR NP Hl HNR HNP HR HP Hlt.
    destruct (getTab1Record ev) as [[r ev']| | |] eqn:E; try reflexivity.
    apply getTab1Record_inv in E as (fh' & E & _).
    destruct (ENDFTab1Record_read_inv _ _ _ _ _ _ _ E Hl HNR HNP HR HP)
      as (_ & _ & _ & _ & _ & A & _).
    unfold lines_left in Hlt. lia.
  - intros onlyList ev hdr items slots vals ls Hu Hc HP Hv Hfull Hlt.
    exact (list_record_cut onlyList ev hdr items slots vals ls Hu Hc HP Hv Hfull Hlt).
  - intros ev hdr NR NP regions rvals rls Hu HNR HNP HP Hr Hfull Hlt.
    unfold getTab1Record. rewrite on_fh_eq.
    now rewrite (tab1_record_cut_regions ENDFTab1Record_init (fh ev) hdr NR NP
                   regions rvals rls Hu HNR HNP HP Hr Hfull Hlt).
  - intros ev hdr NP regions rvals rls points pvals pls Hu HNR HNP HPr Hr HPp Hp
      Hfull Hlt.
    unfold getTab1Record. rewrite on_fh_eq.
    now rewrite (tab1_record_cut_points ENDFTab1Record_init (fh ev) hdr NP
                   regions points rvals pvals rls pls Hu HNR HNP HPr Hr HPp Hp
                   Hfull Hlt).
  - intros ev hdr regions rvals rls points pvals pls HNR HNP HPr Hr HPp Hp Hne Hu.
    destruct (exists_last Hne) as (pls' & l & ->).
    rewrite app_assoc, removelast_last in Hu.
    destruct (Packed_cut 3 pls' points l HPp) as (pre & lc & -> & Hlc & HPre & Hlen).
    apply Forall2_app_inv_l in Hp as (v1 & v2 & Hp1 & _ & _).
    unfold getTab1Record. rewrite on_fh_eq.
    rewrite (tab1_record_cut_points ENDFTab1Record_init (fh ev) hdr
               (Z.of_nat (length (pre ++ lc))) regions pre rvals v1 rls pls'
               Hu HNR HNP HPr Hr HPre Hp1 Hlen); [reflexivity|].
    rewrite length_app. destruct lc; [contradiction | cbn [length]; lia].
  - intros ev hdr NP regions rvals rls HNR HNP HP0 HPr Hr Hne Hu.
    destruct (exists_last Hne) as (rls' & l & ->).
    rewrite removelast_last in Hu.
    destruct (Packed_cut 3 rls' regions l HPr) as (pre & lc & -> & Hlc & HPre & Hlen).
    apply Forall2_app_inv_l in Hr as (v1 & v2 & Hr1 & _ & _).
    unfold getTab1Record. rewrite on_fh_eq.
    rewrite (tab1_record_cut_regions ENDFTab1Record_init (fh ev) hdr
               (Z.of_nat (length (pre ++ lc))) NP pre v1 rls'
               Hu HNR HNP HPre Hr1 Hlen); [reflexivity|].
    rewrite length_app. destruct lc; [contradiction | cbn [length]; lia].
Qed.

Lemma truncated_read_fails_witness :
  getTab1Record (evaluation_at tab1_truncated_lines []) = Raise IndexError /\
  getTab1Record (evaluation_at (removelast tab1_region_lines) []) = Raise ValueError.
Proof.
  destruct truncated_read_fails as (_ & _ & _ & _ & _ & _ & Hpoints & Hregions).
  split.
  - apply (Hpoints (evaluation_at tab1_truncated_lines []) (hd [] tab1_four_lines)
             (slots_22 1 (nth 1 tab1_four_lines [])) [(4, 2)]
             [nth 1 tab1_four_lines []]
             (slots_22 3 (nth 2 tab1_four_lines [])
              ++ slots_22 1 (nth 3 tab1_four_lines []))
             (map (fun sl => (slot_value (firstn 11 sl), slot_value (skipn 11 sl)))
                  (slots_22 3 (nth 2 tab1_four_lines [])
                   ++ slots_22 1 (nth 3 tab1_four_lines [])))
             [nth 2 tab1_four_lines []; nth 3 tab1_four_lines []]).
    + vm_compute. reflexivity.
    + vm_compute. reflexivity.
    + change [nth 1 tab1_four_lines []]
        with [concat (slots_22 1 (nth 1 tab1_four_lines []))
              ++ skipn 22 (nth 1 tab1_four_lines [])].
      rewrite <- (app_nil_r (slots_22 1 (nth 1 tab1_four_lines []))) at 1.
      apply Packed_line;
        [intros X; discriminate X | cbn; lia | reflexivity | apply Packed_nil].
    + repeat (constructor; [split; [reflexivity | split; vm_compute; reflexivity]|]).
      constructor.
    + change [nth 2 tab1_four_lines []; nth 3 tab1_four_lines []]
        with [concat (slots_22 3 (nth 2 tab1_four_lines []))
              ++ skipn 66 (nth 2 tab1_four_lines []);
              concat (slots_22 1 (nth 3 tab1_four_lines []))
              ++ skipn 22 (nth 3 tab1_four_lines [])].
      apply Packed_line; [intros X; discriminate X | cbn; lia | cbn; lia |].
      rewrite <- (app_nil_r (slots_22 1 (nth 3 tab1_four_lines []))) at 1.
      apply Packed_line;
        [intros X; discriminate X | cbn; lia | reflexivity | apply Packed_nil].
    + repeat (constructor; [split; [reflexivity | split; vm_compute; reflexivity]|]).
      constructor.
    + intros X. discriminate X.
    + reflexivity.
  - apply (Hregions (evaluation_at (removelast tab1_region_lines) [])
             (hd [] tab1_region_lines) 0
             (slots_22 1 (nth 1 tab1_region_lines [])) [(2, 2)]
             [nth 1 tab1_region_lines []]).
    + vm_compute. reflexivity.
    + vm_compute. reflexivity.
    + lia.
    + change [nth 1 tab1_region_lines []]
        with [concat (slots_22 1 (nth 1 tab1_region_lines []))
              ++ skipn 22 (nth 1 tab1_region_lines [])].
      rewrite <- (app_nil_r (slots_22 1 (nth 1 tab1_region_lines []))) at 1.
      apply Packed_line;
        [intros X; discriminate X | cbn; lia | reflexivity | apply Packed_nil].
    + repeat (constructor; [split; [reflexivity | split; vm_compute; reflexivity]|]).
      constructor.
    + intros X. discriminate X.
    + reflexivity.
Defined.

(** C8 fails: the TAB1 record cut before its last line raises the
    IndexError of [convert] on the empty string. *)
Lemma truncated_tab1_counterexample :
  getTab1Record (evaluation_at tab1_truncated_lines []) = Raise IndexError /\
  ~ raises_named (getTab1Record (evaluation_at tab1_truncated_lines []))
      "UnexpectedEndOfStreamError".
Proof.
  split; [vm_compute; reflexivity|].
  intros (e & H & Hn). vm_compute in H. injection H as <-.
  vm_compute in Hn. discriminate Hn.
Qed.

(* ================================================================== *)
(** * Section handlers *)

(** A handler made of the new reaction and the head record reads one
    line, on every stream. *)
Lemma head_only_one_line (mt : Z) (ev ev' : Evaluation) :
  bind (findFile 1) (fun file1 =>
    bind (append_reaction file1 (ENDFReaction_init mt)) (fun _ =>
      bind (getHeadRecord None) (fun _ => ret tt))) ev = Ok (tt, ev') ->
  lines (fh ev') = lines (fh ev) /\
  pos (fh ev') = Datatypes.S (pos (fh ev)).
Proof.
  unfold bind at 1, findFile.
  destruct (find_first _ (files ev) 0) as [[i file]|]; [|discriminate].
  unfold append_reaction. unfold bind, set_files, ret. cbn [fst snd].
  set (ev1 := {| fh := fh ev; files := _; reactionList := _ |}).
  destruct (getHeadRecord None ev1) as [[it ev2]| | |] eqn:E; try discriminate.
  intros H. injection H as <-.
  rewrite getHeadRecord_eq in E.
  apply one_line_read in E; [|reflexivity].
  destruct E as (l & _ & _ & ->). now split.
Qed.

Lemma readFissionEnergy_one_line (ev ev' : Evaluation) :
  readFissionEnergy ev = Ok (tt, ev') ->
  lines (fh ev') = lines (fh ev) /\ pos (fh ev') = Datatypes.S (pos (fh ev)).
Proof. apply head_only_one_line. Qed.

Lemma readDelayedPhoton_one_line (ev ev' : Evaluation) :
  readDelayedPhoton ev = Ok (tt, ev') ->
  lines (fh ev') = lines (fh ev) /\ pos (fh ev') = Datatypes.S (pos (fh ev)).
Proof. apply head_only_one_line. Qed.

(** C2.  [readFissionEnergy] and [readDelayedPhoton] read the head record
    of their section and return: the lines after it, the section-end line
    among them, are still unread.  [readTotalNu] on its section leaves the
    stream at the first line of the next one. *)
Theorem handlers_section_end :
  (exists ev',
      readFissionEnergy (evaluation_at (section_458 ++ section_460) [ENDFFile1_init])
      = Ok (tt, ev') /\
      unread (fh ev') = tl section_458 ++ section_460) /\
  (exists ev',
      readDelayedPhoton (evaluation_at (section_460 ++ section_452) [ENDFFile1_init])
      = Ok (tt, ev') /\
      unread (fh ev') = tl section_460 ++ section_452) /\
  (exists ev',
      readTotalNu (evaluation_at (section_452 ++ section_456) [ENDFFile1_init])
      = Ok (tt, ev') /\
      unread (fh ev') = section_456).
Proof.
  repeat split; eexists; (split; [vm_compute; reflexivity | reflexivity]).
Qed.

(* ================================================================== *)
(** * The dispatcher *)

(** C3, as the code has it.  For a directory entry that is none of the
    recognized kinds the dispatcher does nothing: it raises no error, adds
    no reaction and reads no line, so the lines of the section of that
    entry stay in front of the stream for the handlers that follow. *)
Theorem dispatch_unrecognized (e : entry) (entries : list entry) (ev : Evaluation) :
  recognized e = false ->
  dispatch_entry e ev = Ok (tt, ev) /\
  dispatch (e :: entries) ev = dispatch entries ev.
Proof.
  intros H.
  assert (E : dispatch_entry e ev = Ok (tt, ev)).
  { destruct e as [[[MF MT] NC] MOD]. unfold recognized in H.
    unfold dispatch_entry.
    destruct (MF =? 1); [|reflexivity]. cbn [andb] in H.
    destruct (MT =? 452); [discriminate H|].
    destruct (MT =? 455); [discriminate H|].
    destruct (MT =? 456); [discriminate H|].
    destruct (MT =? 458); [discriminate H|].
    destruct (MT =? 460); [discriminate H|]. reflexivity. }
  split; [exact E|].
  cbn [dispatch]. unfold bind. now rewrite E.
Qed.

Lemma dispatch_unrecognized_witness :
  dispatch_entry (1, 453, 3, 0) (evaluation_at section_453 [ENDFFile1_init])
  = Ok (tt, evaluation_at section_453 [ENDFFile1_init]) /\
  dispatch [(1, 453, 3, 0); (1, 456, 4, 0)] (evaluation_at section_453 [ENDFFile1_init])
  = dispatch [(1, 456, 4, 0)] (evaluation_at section_453 [ENDFFile1_init]).
Proof.
  apply (dispatch_unrecognized (1, 453, 3, 0) [(1, 456, 4, 0)]
           (evaluation_at section_453 [ENDFFile1_init])).
  reflexivity.
Defined.

(** C3 fails: with the section of the entry (1, 453) between two known
    sections, prompt nu (456) is read from the lines of section 453 and
    gets its LNU, 0, where its own section has LNU = 1 and a value. *)
Lemma skip_desynchronizes_counterexample :
  recognized (1, 453, 3, 0) = false /\
  ~ resynchronized (1, 453, 3, 0) section_453 section_456 [(1, 456, 4, 0)]
      [ENDFFile1_init] /\
  (exists ev,
      read (Evaluation_init tape_sandwich) = Ok (tt, ev) /\
      reactionList ev = [(1, 451, 13, 0); (1, 452, 4, 0); (1, 453, 3, 0); (1, 456, 4, 0)] /\
      fst_ok (findMT 456 ev)
      = Some (Some (0%nat, 2%nat, {| MT := 456; attrs := [("LNU"%string, AInt 0)] |}))) /\
  option_map Items.L2 (fst_ok (getHeadRecord None (evaluation_at section_456 [])))
  = Some 1.
Proof.
  split; [reflexivity|]. split; [|split].
  - unfold resynchronized. vm_compute. intros H. discriminate H.
  - eexists. split; [vm_compute; reflexivity|]. split; reflexivity.
  - vm_compute. reflexivity.
Qed.

(* ================================================================== *)
(** * The directory loop ends *)

Lemma py_int_not_loops (s : str) : py_int s <> Loops.
Proof.
  unfold py_int. destruct (split_sign (strip s)) as [neg body].
  destruct (nonempty body && forallb is_digit body); discriminate.
Qed.

Lemma cont_fields_skipC_not_loops (l : str) : cont_fields true l <> Loops.
Proof.
  unfold cont_fields. cbn [obind].
  repeat match goal with
         | |- context [obind (py_int ?s) _] =>
             let E := fresh "E" in
             destruct (py_int s) eqn:E; cbn [obind]; try discriminate;
             try (now apply py_int_not_loops in E)
         end.
Qed.

Lemma lines_left_next (ev : Evaluation) :
  (lines_left (with_fh ev (snd (next_line (fh ev)))) <= lines_left ev)%nat.
Proof.
  unfold lines_left, next_line.
  destruct (nth_error _ _); cbn [snd with_fh fh lines pos]; lia.
Qed.

(** With fuel above the number of lines left the directory loop returns
    or raises: the fuel is not used up. *)
Lemma directory_loop_fuel (fuel : nat) :
  forall (acc : list entry) (ev : Evaluation),
    (lines_left ev < fuel)%nat -> directory_loop fuel acc ev <> Loops.
Proof.
  induction fuel as [|fuel IH]; intros acc ev Hf; [lia|].
  cbn [directory_loop]. unfold bind at 1. rewrite on_fh_eq, readline_eq.
  unfold next_line.
  destruct (nth_error (lines (fh ev)) (pos (fh ev))) as [l|] eqn:El.
  - assert (Hp : (pos (fh ev) < length (lines (fh ev)))%nat)
      by (apply nth_error_Some; congruence).
    set (ev1 := with_fh ev _).
    assert (H1 : (lines_left ev1 < fuel)%nat).
    { unfold lines_left in *. unfold ev1. cbn [with_fh fh lines pos]. lia. }
    destruct (str_eqb (slice 72 75 l) (lit "  0")); [discriminate|].
    unfold bind at 1, getContRecord. unfold bind at 1. rewrite on_fh_eq.
    assert (Hline : exists l' ev2,
               line_or_read (Some l) (fh ev1) = Ok (l', fh ev2) /\
               with_fh ev1 (fh ev2) = ev2 /\
               (lines_left ev2 <= lines_left ev1)%nat).
    { destruct l as [|c l].
      - cbn [line_or_read]. rewrite readline_eq.
        exists (fst (next_line (fh ev1))), (with_fh ev1 (snd (next_line (fh ev1)))).
        split; [now destruct (next_line (fh ev1))|].
        split; [reflexivity | apply lines_left_next].
      - exists (c :: l), ev1. cbn [line_or_read]. unfold ret.
        split; [reflexivity|]. split; [now destruct ev1 | lia]. }
    destruct Hline as (l' & ev2 & -> & -> & H2).
    unfold pure.
    destruct (cont_fields true l') as [it| | |] eqn:Ec; cbn [obind];
      try discriminate.
    + apply IH. lia.
    + now apply cont_fields_skipC_not_loops in Ec.
  - cbn [fst snd].
    change (str_eqb (slice 72 75 []) (lit "  0")) with false. cbv iota.
    unfold bind at 1, getContRecord. unfold bind at 1. rewrite on_fh_eq.
    cbn [line_or_read]. rewrite readline_eq.
    replace (next_line (fh (with_fh ev (fh ev)))) with (([] : str), fh ev)
      by (symmetry; apply next_line_none; exact El).
    discriminate.
Qed.

(* ================================================================== *)
(** * The loop of [seekFile] *)

Lemma str_eqb_neq (s t : str) : s <> t -> str_eqb s t = false.
Proof.
  intros H. destruct (str_eqb s t) eqn:E; [|reflexivity].
  apply str_eqb_eq in E. contradiction.
Qed.

Lemma seek_from_first (pre : list str) (l : str) (post : list str) (i : nat) (fs : str) :
  (forall l', In l' pre -> slice 70 72 l' <> fs) -> slice 70 72 l = fs ->
  seek_from (pre ++ l :: post) i fs = Some (i + length pre)%nat.
Proof.
  revert i. induction pre as [|p pre IH]; intros i Hpre Hl;
    cbn [seek_from app length].
  - rewrite Hl, str_eqb_refl. now rewrite Nat.add_0_r.
  - rewrite str_eqb_neq by (apply Hpre; now left).
    rewrite IH; [f_equal; lia | intros; apply Hpre; now right | assumption].
Qed.

Lemma seek_from_none (ls : list str) (i : nat) (fs : str) :
  (forall l, In l ls -> slice 70 72 l <> fs) -> seek_from ls i fs = None.
Proof.
  revert i. induction ls as [|l ls IH]; intros i H; cbn [seek_from];
    [reflexivity|].
  rewrite str_eqb_neq by (apply H; now left).
  apply IH. intros; apply H; now right.
Qed.

Lemma seek_from_found (ls : list str) (i k : nat) (fs : str) :
  seek_from ls i fs = Some k ->
  (i <= k)%nat /\ exists l, nth_error ls (k - i) = Some l /\ slice 70 72 l = fs.
Proof.
  revert i. induction ls as [|l ls IH]; intros i H; [discriminate|].
  cbn [seek_from] in H. destruct (str_eqb (slice 70 72 l) fs) eqn:E.
  - injection H as <-. apply str_eqb_eq in E. rewrite Nat.sub_diag.
    split; [lia|]. now exists l.
  - apply IH in H as (Hle & l' & Hn & Hs). split; [lia|]. exists l'.
    replace (k - i)%nat with (Datatypes.S (k - Datatypes.S i)) by lia. now split.
Qed.

Lemma seek_from_split (ls : list str) (i k : nat) (fs : str) :
  seek_from ls i fs = Some k ->
  exists pre l post,
    ls = pre ++ l :: post /\ k = (i + length pre)%nat /\
    (forall l', In l' pre -> slice 70 72 l' <> fs) /\ slice 70 72 l = fs.
Proof.
  revert i. induction ls as [|a ls IH]; intros i H; [discriminate H|].
  cbn [seek_from] in H. destruct (str_eqb (slice 70 72 a) fs) eqn:E.
  - injection H as <-. exists [], a, ls.
    split; [reflexivity|]. split; [cbn [length]; lia|].
    split; [intros l' []|]. now apply str_eqb_eq.
  - apply IH in H as (pre & l & post & -> & -> & Hpre & Hl).
    exists (a :: pre), l, post.
    split; [reflexivity|]. split; [cbn [length]; lia|]. split; [|exact Hl].
    intros l' [<- | Hin]; [|now apply Hpre].
    intros Ea. rewrite Ea, str_eqb_refl in E. discriminate E.
Qed.

Lemma seek_from_none_inv (ls : list str) (i : nat) (fs : str) :
  seek_from ls i fs = None -> forall l, In l ls -> slice 70 72 l <> fs.
Proof.
  revert i. induction ls as [|a ls IH]; intros i H l Hin; [destruct Hin|].
  cbn [seek_from] in H. destruct (str_eqb (slice 70 72 a) fs) eqn:E;
    [discriminate H|].
  destruct Hin as [<- | Hin]; [|exact (IH _ H l Hin)].
  intros Ea. rewrite Ea, str_eqb_refl in E. discriminate E.
Qed.

Lemma format_2_nonempty (n : Z) : format_2 n <> [].
Proof.
  unfold format_2.
  destruct (if n <? 0 then _ else _) as [|c body]; [discriminate|].
  intros E. apply app_eq_nil in E as [_ E]. discriminate E.
Qed.

(** One turn of the loop. *)
Lemma seek_loop_turn (fuel : nat) (fs : str) (s : stream) :
  seek_loop (Datatypes.S fuel) fs s
  = if str_eqb (slice 70 72 (fst (next_line s))) fs
    then Ok (tt, {| lines := lines (snd (next_line s)); pos := pos s |})
    else seek_loop fuel fs (snd (next_line s)).
Proof.
  cbn [seek_loop]. unfold bind, tell. rewrite readline_eq.
  destruct (next_line s) as [l s1]. cbn [fst snd].
  destruct (str_eqb (slice 70 72 l) fs); reflexivity.
Qed.

(** The loop ends at the first line of the file, if the fuel lasts to it. *)
Lemma seek_loop_found (fs : str) (pre : list str) :
  forall (s : stream) (l : str) (post : list str) (fuel : nat),
    unread s = pre ++ l :: post ->
    (forall l', In l' pre -> slice 70 72 l' <> fs) ->
    slice 70 72 l = fs ->
    (length pre < fuel)%nat ->
    seek_loop fuel fs s
    = Ok (tt, {| lines := lines s; pos := pos s + length pre |}).
Proof.
  induction pre as [|p pre IH]; intros s l post fuel Hu Hpre Hl Hf;
    (destruct fuel as [|fuel]; [cbn [length] in Hf; lia|]);
    rewrite seek_loop_turn; cbn [app] in Hu;
    apply next_line_unread in Hu as [Hn Hu]; rewrite Hn; cbn [fst snd].
  - rewrite Hl, str_eqb_refl. cbn [lines length]. now rewrite Nat.add_0_r.
  - rewrite str_eqb_neq by (apply Hpre; now left).
    rewrite (IH _ l post fuel Hu); [|intros; apply Hpre; now right | exact Hl
                                   |cbn [length] in Hf; lia].
    cbn [lines pos length].
    replace (Datatypes.S (pos s) + length pre)%nat
      with (pos s + Datatypes.S (length pre))%nat by lia.
    reflexivity.
Qed.

(** Without a line of the file in what is left to read, no number of
    turns ends the loop: at the end of the file [readline] returns the
    empty string and the stream stays where it is. *)
Lemma seek_loop_absent (fs : str) :
  fs <> [] ->
  forall (fuel : nat) (s : stream),
    (forall l, In l (unread s) -> slice 70 72 l <> fs) ->
    seek_loop fuel fs s = Loops.
Proof.
  intros Hfs. induction fuel as [|fuel IH]; intros s H; [reflexivity|].
  rewrite seek_loop_turn.
  destruct (unread s) as [|l r] eqn:Hu.
  - rewrite (unread_nil_next s Hu). cbn [fst snd].
    change (slice 70 72 []) with (@nil ascii).
    rewrite str_eqb_neq by (intros E; apply Hfs; now symmetry).
    apply IH. rewrite Hu. intros l [].
  - apply next_line_unread in Hu as [Hn Hu']. rewrite Hn. cbn [fst snd].
    rewrite str_eqb_neq by (apply H; now left).
    apply IH. rewrite Hu'. intros l' Hl'. apply H. now right.
Qed.

(** [seekFile] in closed form. *)
Lemma seekFile_eq (fileNum : Z) (self : Evaluation) :
  seekFile fileNum self
  = match seek_from (lines (fh self)) 0 (format_2 fileNum) with
    | Some i =>
        Ok (tt, {| fh := {| lines := lines (fh self); pos := i |};
                   files := files self; reactionList := reactionList self |})
    | None => Loops
    end.
Proof.
  unfold seekFile. unfold bind at 1. rewrite on_fh_eq. unfold seek at 1.
  cbv zeta. unfold bind at 1. rewrite on_fh_eq.
  unfold lines_left, with_fh. cbn [fh lines pos files reactionList].
  destruct (seek_from (lines (fh self)) 0 (format_2 fileNum)) as [k|] eqn:E.
  - apply seek_from_split in E as (pre & l & post & Hl & -> & Hpre & Hm).
    rewrite (seek_loop_found _ pre _ l post); cbn [lines pos Nat.add];
      [reflexivity | exact Hl | exact Hpre | exact Hm |].
    rewrite Hl, length_app. cbn [length]. lia.
  - rewrite (seek_loop_absent _ (format_2_nonempty fileNum)); [reflexivity|].
    exact (seek_from_none_inv _ _ _ E).
Qed.

(* ================================================================== *)
(** * Reasoning on computations *)

Lemma bind_ok {S A B : Type} (c : M S A) (k : A -> M S B) (s : S) (b : B) (s' : S) :
  bind c k s = Ok (b, s') ->
  exists a s1, c s = Ok (a, s1) /\ k a s1 = Ok (b, s').
Proof.
  unfold bind. destruct (c s) as [[a s1]| | |]; try discriminate.
  intros H. now exists a, s1.
Qed.

Lemma pure_ok {S A : Type} (c : outcome A) (s : S) (a : A) (s' : S) :
  pure c s = Ok (a, s') -> c = Ok a /\ s' = s.
Proof.
  unfold pure. destruct c; try discriminate. cbn [obind].
  intros H. injection H as <- <-. now split.
Qed.

Lemma on_fh_ok {A : Type} (c : M stream A) (ev : Evaluation) (a : A) (ev' : Evaluation) :
  on_fh c ev = Ok (a, ev') ->
  exists fh', c (fh ev) = Ok (a, fh') /\ ev' = with_fh ev fh'.
Proof.
  rewrite on_fh_eq. destruct (c (fh ev)) as [[a0 fh']| | |]; try discriminate.
  intros H. injection H as <- <-. now exists fh'.
Qed.

Section Preserves.
Context {S : Type}.
Variable P : S -> Prop.

Lemma preserves_ret {A : Type} (a : A) : preserves P (ret a).
Proof. intros s a' s' HP H. injection H as _ <-. exact HP. Qed.

Lemma preserves_pure {A : Type} (c : outcome A) : preserves P (pure c).
Proof. intros s a s' HP H. apply pure_ok in H as [_ ->]. exact HP. Qed.

Lemma preserves_bind {A B : Type} (c : M S A) (k : A -> M S B) :
  preserves P c -> (forall a, preserves P (k a)) -> preserves P (bind c k).
Proof.
  intros Hc Hk s b s' HP H. apply bind_ok in H as (a & s1 & H1 & H2).
  eapply Hk; [|exact H2]. eapply Hc; eassumption.
Qed.

Lemma preserves_for_range_nat {A : Type} (n : nat) (body : A -> M S A) (a : A) :
  (forall a, preserves P (body a)) -> preserves P (for_range_nat n body a).
Proof.
  intros Hb. revert a. induction n as [|n IH]; intros a; cbn [for_range_nat].
  - apply preserves_ret.
  - apply preserves_bind; [apply Hb | intros a'; apply IH].
Qed.

Lemma preserves_for_range {A : Type} (n : Z) (body : A -> M S A) (a : A) :
  (forall a, preserves P (body a)) -> preserves P (for_range n body a).
Proof. apply preserves_for_range_nat. Qed.
End Preserves.

(** ** The stream only goes forward *)

Lemma forward_refl (s : stream) : forward s s.
Proof. unfold forward. auto. Qed.

Lemma forward_trans (s1 s2 s3 : stream) :
  forward s1 s2 -> forward s2 s3 -> forward s1 s3.
Proof.
  unfold forward. intros (A1 & A2 & A3) (B1 & B2 & B3).
  rewrite B1, A1 in *. repeat split; lia.
Qed.

Lemma readline_forward (s0 : stream) : preserves (forward s0) readline.
Proof.
  intros s l s' H0 H. rewrite readline_eq in H. injection H as H.
  assert (E : s' = snd (next_line s)) by now rewrite H.
  subst s'. clear H.
  apply (forward_trans _ _ _ H0). unfold forward, next_line.
  destruct (nth_error (lines s) (pos s)) eqn:E; cbn [snd lines pos].
  - assert (pos s < length (lines s))%nat by (apply nth_error_Some; congruence).
    repeat split; lia.
  - auto.
Qed.

Lemma line_or_read_forward (s0 : stream) (line : option str) :
  preserves (forward s0) (line_or_read line).
Proof.
  destruct line as [[|c l]|]; cbn [line_or_read];
    [apply readline_forward | apply preserves_ret | apply readline_forward].
Qed.

Lemma block_line_forward {Acc : Type} (s0 : stream) (c : Z)
    (item : str * Acc -> outcome (str * Acc)) (N : Z) (st : Acc * Z) :
  preserves (forward s0) (block_line c item N st).
Proof.
  destruct st as [acc m]. unfold block_line.
  apply preserves_bind; [apply readline_forward | intros l].
  apply preserves_bind; [|intros r; apply preserves_ret].
  apply preserves_for_range. intros st. apply preserves_pure.
Qed.

Lemma ENDFTab1Record_read_forward (s0 : stream) (self : ENDFTab1Record) :
  preserves (forward s0) (ENDFTab1Record_read self).
Proof.
  unfold ENDFTab1Record_read.
  apply preserves_bind; [apply readline_forward | intros l].
  apply preserves_bind; [apply preserves_pure | intros NR].
  apply preserves_bind; [apply preserves_pure | intros NP].
  apply preserves_bind;
    [apply preserves_for_range; intros st;
     apply (block_line_forward s0 3 tab1_region NR st) | intros r1].
  apply preserves_bind;
    [apply preserves_for_range; intros st;
     apply (block_line_forward s0 3 tab1_pair NP st) | intros r2].
  apply preserves_ret.
Qed.

(** The property of the evaluation that its stream is forward of [s0]. *)
Lemma on_fh_forward {A : Type} (s0 : stream) (c : M stream A) :
  preserves (forward s0) c ->
  preserves (fun ev => forward s0 (fh ev)) (on_fh c).
Proof.
  intros Hc ev a ev' HP H. apply on_fh_ok in H as (fh' & H & ->).
  cbn [with_fh fh]. eapply Hc; eassumption.
Qed.

Lemma same_fh_forward {A : Type} (s0 : stream) (c : M Evaluation A) :
  (forall ev a ev', c ev = Ok (a, ev') -> fh ev' = fh ev) ->
  preserves (fun ev => forward s0 (fh ev)) c.
Proof. intros Hc ev a ev' HP H. now rewrite (Hc _ _ _ H). Qed.

Lemma findFile_forward (s0 : stream) (n : Z) :
  preserves (fun ev => forward s0 (fh ev)) (findFile n).
Proof.
  apply same_fh_forward. intros ev a ev' H. now injection H as _ <-.
Qed.

Lemma set_files_forward (s0 : stream) (fs : list ENDFFile) :
  preserves (fun ev => forward s0 (fh ev)) (set_files fs).
Proof.
  apply same_fh_forward. intros ev a ev' H. now injection H as _ <-.
Qed.

Lemma get_files_forward (s0 : stream) :
  preserves (fun ev => forward s0 (fh ev)) (fun self => Ok (files self, self)).
Proof.
  apply same_fh_forward. intros ev a ev' H. now injection H as _ <-.
Qed.

Lemma append_reaction_forward (s0 : stream) (f : option (nat * ENDFFile))
    (r : ENDFReaction) :
  preserves (fun ev => forward s0 (fh ev)) (append_reaction f r).
Proof.
  destruct f as [[i file]|]; cbn [append_reaction].
  - apply preserves_bind; [apply get_files_forward | intros fs].
    apply preserves_bind; [apply set_files_forward | intros _].
    apply preserves_ret.
  - intros ev a ev' _ H. discriminate H.
Qed.

Lemma set_reaction_attr_forward (s0 : stream) (ref : nat * nat)
    (name : String.string) (v : attr) :
  preserves (fun ev => forward s0 (fh ev)) (set_reaction_attr ref name v).
Proof.
  unfold set_reaction_attr.
  apply preserves_bind; [apply get_files_forward | intros fs].
  apply set_files_forward.
Qed.

Lemma getTextRecord_forward (s0 : stream) (line : option str) :
  preserves (fun ev => forward s0 (fh ev)) (getTextRecord line).
Proof.
  unfold getTextRecord.
  apply preserves_bind; [apply on_fh_forward, line_or_read_forward | intros l].
  apply preserves_pure.
Qed.

Lemma getContRecord_forward (s0 : stream) (line : option str) (skipC : bool) :
  preserves (fun ev => forward s0 (fh ev)) (getContRecord line skipC).
Proof.
  unfold getContRecord.
  apply preserves_bind; [apply on_fh_forward, line_or_read_forward | intros l].
  apply preserves_pure.
Qed.

Lemma getHeadRecord_forward (s0 : stream) (line : option str) :
  preserves (fun ev => forward s0 (fh ev)) (getHeadRecord line).
Proof.
  unfold getHeadRecord.
  apply preserves_bind; [apply on_fh_forward, line_or_read_forward | intros l].
  apply preserves_pure.
Qed.

Lemma getListRecord_forward (s0 : stream) (onlyList : bool) :
  preserves (fun ev => forward s0 (fh ev)) (getListRecord onlyList).
Proof.
  unfold getListRecord.
  apply preserves_bind; [apply getContRecord_forward | intros items].
  apply preserves_bind.
  - apply on_fh_forward. apply preserves_for_range. intros st.
    apply (block_line_forward s0 6 list_item (Items.N1 items) st).
  - intros r. destruct onlyList; apply preserves_ret.
Qed.

Lemma getTab1Record_forward (s0 : stream) :
  preserves (fun ev => forward s0 (fh ev)) getTab1Record.
Proof. apply on_fh_forward, ENDFTab1Record_read_forward. Qed.

Ltac forward_step :=
  first
    [ apply preserves_ret
    | apply findFile_forward
    | apply append_reaction_forward
    | apply set_reaction_attr_forward
    | apply getHeadRecord_forward
    | apply getListRecord_forward
    | apply getTab1Record_forward
    | apply on_fh_forward, readline_forward
    | apply preserves_bind; [|intros ?] ].

Lemma dispatch_entry_forward (s0 : stream) (e : entry) :
  preserves (fun ev => forward s0 (fh ev)) (dispatch_entry e).
Proof.
  destruct e as [[[MF MT] NC] MOD]. unfold dispatch_entry.
  unfold readTotalNu, readDelayedNu, readPromptNu, readFissionEnergy,
    readDelayedPhoton.
  repeat match goal with
         | |- preserves _ (if ?b then _ else _) => destruct b
         | |- preserves _ _ => forward_step
         end.
Qed.

Lemma dispatch_forward_from (s0 : stream) (entries : list entry) :
  preserves (fun ev => forward s0 (fh ev)) (dispatch entries).
Proof.
  induction entries as [|e entries IH]; cbn [dispatch].
  - apply preserves_ret.
  - apply preserves_bind; [apply dispatch_entry_forward | intros _; exact IH].
Qed.

(* ================================================================== *)
(** * The document under the handlers *)

Lemma update_nth_twice {A : Type} (i : nat) (f g : A -> A) (l : list A) :
  update_nth i g (update_nth i f l) = update_nth i (fun a => g (f a)) l.
Proof.
  revert i. induction l as [|a l IH]; intros [|i]; cbn; try reflexivity.
  now rewrite IH.
Qed.

Lemma update_nth_ext_at {A : Type} (i : nat) (f g : A -> A) (l : list A) (a : A) :
  nth_error l i = Some a -> f a = g a -> update_nth i f l = update_nth i g l.
Proof.
  revert i. induction l as [|b l IH]; intros [|i] Hn Hfg; cbn in *; try discriminate.
  - injection Hn as ->. now rewrite Hfg.
  - f_equal. now apply IH.
Qed.

Lemma update_nth_snoc {A : Type} (h : A -> A) (l : list A) (r : A) :
  update_nth (length l) h (l ++ [r]) = l ++ [h r].
Proof. induction l as [|a l IH]; cbn; [reflexivity | now rewrite IH]. Qed.

Lemma update_nth_length {A : Type} (i : nat) (f : A -> A) (l : list A) :
  length (update_nth i f l) = length l.
Proof.
  revert i. induction l as [|a l IH]; intros [|i]; cbn; try reflexivity.
  now rewrite IH.
Qed.

Lemma find_first_nth {A : Type} (p : A -> bool) (l : list A) (k i : nat) (a : A) :
  find_first p l k = Some (i, a) ->
  (k <= i)%nat /\ nth_error l (i - k) = Some a /\ p a = true.
Proof.
  revert k. induction l as [|b l IH]; intros k H; [discriminate|].
  cbn in H. destruct (p b) eqn:Hb.
  - injection H as <- <-. rewrite Nat.sub_diag. cbn. auto.
  - apply IH in H as (H1 & H2 & H3).
    replace (i - k)%nat with (Datatypes.S (i - Datatypes.S k)) by lia.
    cbn. repeat split; [lia | assumption | assumption].
Qed.

(** A method working on the stream keeps what is said of the document. *)
Lemma on_fh_document {A : Type} (Q : list ENDFFile -> list entry -> Prop)
    (c : M stream A) :
  preserves (fun ev => Q (files ev) (reactionList ev)) (on_fh c).
Proof.
  intros ev a ev' HQ H. apply on_fh_ok in H as (fh' & _ & ->). exact HQ.
Qed.

Section Document.
Variable Q : list ENDFFile -> list entry -> Prop.

Lemma getTextRecord_document (line : option str) :
  preserves (fun ev => Q (files ev) (reactionList ev))
    (getTextRecord line).
Proof.
  unfold getTextRecord.
  apply preserves_bind; [apply on_fh_document | intros l; apply preserves_pure].
Qed.

Lemma getContRecord_document (line : option str) (skipC : bool) :
  preserves (fun ev => Q (files ev) (reactionList ev))
    (getContRecord line skipC).
Proof.
  unfold getContRecord.
  apply preserves_bind; [apply on_fh_document | intros l; apply preserves_pure].
Qed.

Lemma getHeadRecord_document (line : option str) :
  preserves (fun ev => Q (files ev) (reactionList ev))
    (getHeadRecord line).
Proof.
  unfold getHeadRecord.
  apply preserves_bind; [apply on_fh_document | intros l; apply preserves_pure].
Qed.

Lemma getListRecord_document (onlyList : bool) :
  preserves (fun ev => Q (files ev) (reactionList ev))
    (getListRecord onlyList).
Proof.
  unfold getListRecord.
  apply preserves_bind; [apply getContRecord_document | intros items].
  apply preserves_bind; [apply on_fh_document | intros r].
  destruct onlyList; apply preserves_ret.
Qed.

Lemma getTab1Record_document :
  preserves (fun ev => Q (files ev) (reactionList ev))
    getTab1Record.
Proof. apply on_fh_document. Qed.
End Document.

Lemma set_reaction_attr_added (fs0 : list ENDFFile) (rl0 : list entry) (i : nat)
    (mt : Z) (file : ENDFFile) (name : String.string) (v : attr) :
  nth_error fs0 i = Some file ->
  preserves (reaction_added fs0 rl0 i mt)
    (set_reaction_attr (i, length (reactions file)) name v).
Proof.
  intros Hn ev u ev' (Hrl & r & Hmt & Hf) H.
  unfold set_reaction_attr, bind, set_files in H. injection H as _ <-.
  split; [exact Hrl|]. exists (setattr name v r). split; [exact Hmt|].
  cbn [files fst snd]. rewrite Hf, update_nth_twice.
  apply (update_nth_ext_at i _ _ fs0 file Hn).
  unfold with_reaction. cbn [reactions fileNumber].
  now rewrite update_nth_snoc.
Qed.

Ltac added_step Hn :=
  first
    [ apply preserves_ret
    | apply (set_reaction_attr_added _ _ _ _ _ _ _ Hn)
    | apply (getHeadRecord_document (fun fs rl => rl = _ /\ exists r, MT r = _ /\ fs = _))
    | apply (getListRecord_document (fun fs rl => rl = _ /\ exists r, MT r = _ /\ fs = _))
    | apply (getTab1Record_document (fun fs rl => rl = _ /\ exists r, MT r = _ /\ fs = _))
    | apply (on_fh_document (fun fs rl => rl = _ /\ exists r, MT r = _ /\ fs = _))
    | apply preserves_bind; [|intros ?] ].

Ltac added_all Hn :=
  repeat match goal with
         | |- preserves _ (if ?b then _ else _) => destruct b
         | |- preserves _ _ => added_step Hn
         end.

(** A handler is: find file 1, append the reaction, then the rest. *)
Lemma handler_adds (mt : Z) (rest : nat * nat -> M Evaluation unit) :
  (forall fs0 rl0 i file,
      nth_error fs0 i = Some file ->
      preserves (reaction_added fs0 rl0 i mt) (rest (i, length (reactions file)))) ->
  forall ev u ev',
    bind (findFile 1) (fun file1 =>
      bind (append_reaction file1 (ENDFReaction_init mt)) rest) ev = Ok (u, ev') ->
    exists i file r,
      find_first (fun f => fileNumber f =? 1) (files ev) 0 = Some (i, file) /\
      MT r = mt /\
      files ev' = update_nth i (with_reaction r) (files ev) /\
      reactionList ev' = reactionList ev.
Proof.
  intros Hrest ev u ev' H.
  apply bind_ok in H as (f1 & ev0 & H0 & H).
  injection H0 as <- <-.
  destruct (find_first _ (files ev) 0) as [[i file]|] eqn:Ef;
    [|discriminate H].
  apply bind_ok in H as (ref & ev1 & H1 & H).
  unfold append_reaction, bind, set_files, ret in H1. injection H1 as <- <-.
  apply find_first_nth in Ef as (_ & Hn & _). rewrite Nat.sub_0_r in Hn.
  apply (Hrest (files ev) (reactionList ev) i file Hn) in H.
  - destruct H as (Hrl & r & Hmt & Hf). exists i, file, r. auto.
  - split; [reflexivity|]. exists (ENDFReaction_init mt). split; reflexivity.
Qed.

Lemma readTotalNu_adds (ev : Evaluation) (u : unit) (ev' : Evaluation) :
  readTotalNu ev = Ok (u, ev') ->
  exists i file r,
    find_first (fun f => fileNumber f =? 1) (files ev) 0 = Some (i, file) /\
    MT r = 452 /\ files ev' = update_nth i (with_reaction r) (files ev) /\
    reactionList ev' = reactionList ev.
Proof.
  apply handler_adds. intros fs0 rl0 i file Hn. unfold reaction_added.
  added_all Hn.
Qed.

Lemma readDelayedNu_adds (ev : Evaluation) (u : unit) (ev' : Evaluation) :
  readDelayedNu ev = Ok (u, ev') ->
  exists i file r,
    find_first (fun f => fileNumber f =? 1) (files ev) 0 = Some (i, file) /\
    MT r = 455 /\ files ev' = update_nth i (with_reaction r) (files ev) /\
    reactionList ev' = reactionList ev.
Proof.
  apply handler_adds. intros fs0 rl0 i file Hn. unfold reaction_added.
  added_all Hn.
Qed.

Lemma readPromptNu_adds (ev : Evaluation) (u : unit) (ev' : Evaluation) :
  readPromptNu ev = Ok (u, ev') ->
  exists i file r,
    find_first (fun f => fileNumber f =? 1) (files ev) 0 = Some (i, file) /\
    MT r = 456 /\ files ev' = update_nth i (with_reaction r) (files ev) /\
    reactionList ev' = reactionList ev.
Proof.
  apply handler_adds. intros fs0 rl0 i file Hn. unfold reaction_added.
  added_all Hn.
Qed.

Lemma readFissionEnergy_adds (ev : Evaluation) (u : unit) (ev' : Evaluation) :
  readFissionEnergy ev = Ok (u, ev') ->
  exists i file r,
    find_first (fun f => fileNumber f =? 1) (files ev) 0 = Some (i, file) /\
    MT r = 458 /\ files ev' = update_nth i (with_reaction r) (files ev) /\
    reactionList ev' = reactionList ev.
Proof.
  apply handler_adds. intros fs0 rl0 i file Hn. unfold reaction_added.
  added_all Hn.
Qed.

Lemma readDelayedPhoton_adds (ev : Evaluation) (u : unit) (ev' : Evaluation) :
  readDelayedPhoton ev = Ok (u, ev') ->
  exists i file r,
    find_first (fun f => fileNumber f =? 1) (files ev) 0 = Some (i, file) /\
    MT r = 460 /\ files ev' = update_nth i (with_reaction r) (files ev) /\
    reactionList ev' = reactionList ev.
Proof.
  apply handler_adds. intros fs0 rl0 i file Hn. unfold reaction_added.
  added_all Hn.
Qed.

(* ================================================================== *)
(** * The document under the dispatcher and the header *)

Lemma hoare_bind_keep {S A B : Type} (P : S -> Prop) (c : M S A) (k : A -> M S B)
    (Q : B -> S -> Prop) :
  preserves P c -> (forall a, hoare P (k a) Q) -> hoare P (bind c k) Q.
Proof.
  intros Hc Hk s b s' HP H. apply bind_ok in H as (a & s1 & H1 & H2).
  eapply Hk; [|exact H2]. eapply Hc; eassumption.
Qed.

Lemma preserves_get {S A : Type} (P : S -> Prop) (f : S -> A) :
  preserves P (fun s => Ok (f s, s)).
Proof. intros s a s' HP H. now injection H as _ <-. Qed.

Lemma dispatch_entry_other (e : entry) (ev : Evaluation) :
  recognized e = false -> dispatch_entry e ev = Ok (tt, ev).
Proof.
  destruct e as [[[MF MT] NC] MOD]. unfold recognized, dispatch_entry.
  destruct (MF =? 1); [|reflexivity]. cbn [andb].
  destruct (MT =? 452); [discriminate|].
  destruct (MT =? 455); [discriminate|].
  destruct (MT =? 456); [discriminate|].
  destruct (MT =? 458); [discriminate|].
  destruct (MT =? 460); [discriminate|]. reflexivity.
Qed.

(** Each recognized entry appends one reaction of its type to the first
    file numbered 1. *)
Lemma dispatch_entry_adds (e : entry) (ev : Evaluation) (u : unit) (ev' : Evaluation) :
  recognized e = true ->
  dispatch_entry e ev = Ok (u, ev') ->
  exists i file r,
    find_first (fun f => fileNumber f =? 1) (files ev) 0 = Some (i, file) /\
    MT r = entry_MT e /\
    files ev' = update_nth i (with_reaction r) (files ev) /\
    reactionList ev' = reactionList ev.
Proof.
  destruct e as [[[MF MT] NC] MOD]. unfold recognized, dispatch_entry, entry_MT.
  destruct (MF =? 1); [|discriminate]. cbn [andb].
  destruct (Z.eqb_spec MT 452) as [->|_]; [intros _; apply readTotalNu_adds|].
  destruct (Z.eqb_spec MT 455) as [->|_]; [intros _; apply readDelayedNu_adds|].
  destruct (Z.eqb_spec MT 456) as [->|_]; [intros _; apply readPromptNu_adds|].
  destruct (Z.eqb_spec MT 458) as [->|_]; [intros _; apply readFissionEnergy_adds|].
  destruct (Z.eqb_spec MT 460) as [->|_]; [intros _; apply readDelayedPhoton_adds|].
  discriminate.
Qed.

Lemma handler_no_file (mt : Z) (rest : nat * nat -> M Evaluation unit) (ev : Evaluation) :
  (forall f, In f (files ev) -> fileNumber f <> 1) ->
  bind (findFile 1) (fun file1 =>
    bind (append_reaction file1 (ENDFReaction_init mt)) rest) ev
  = Raise AttributeError.
Proof.
  intros H. unfold bind at 1, findFile.
  rewrite find_first_none; [reflexivity|].
  intros f Hf. apply Z.eqb_neq. now apply H.
Qed.

Lemma extends_refl (fs : list ENDFFile) : extends fs fs.
Proof.
  induction fs as [|f fs IH]; constructor; [|exact IH].
  split; [reflexivity|]. exists []. now rewrite app_nil_r.
Qed.

Lemma extends_trans (fs1 fs2 fs3 : list ENDFFile) :
  extends fs1 fs2 -> extends fs2 fs3 -> extends fs1 fs3.
Proof.
  intros H12. revert fs3. induction H12 as [|f1 f2 fs1 fs2 [Hn (a1 & Ha1)] _ IH];
    intros fs3 H23.
  - inversion H23. constructor.
  - inversion H23 as [|? f3 ? fs3' [Hn' (a2 & Ha2)] H23']; subst.
    constructor; [|now apply IH].
    split; [congruence|]. exists (a1 ++ a2). now rewrite Ha2, Ha1, app_assoc.
Qed.

Lemma extends_update (fs : list ENDFFile) (i : nat) (r : ENDFReaction) :
  extends fs (update_nth i (with_reaction r) fs).
Proof.
  revert i. induction fs as [|f fs IH]; intros [|i]; cbn.
  - constructor.
  - constructor.
  - constructor; [|apply extends_refl]. split; [reflexivity|]. now exists [r].
  - constructor; [|apply IH]. split; [reflexivity|]. exists []. now rewrite app_nil_r.
Qed.

Lemma dispatch_entry_extends (e : entry) (ev : Evaluation) (u : unit) (ev' : Evaluation) :
  dispatch_entry e ev = Ok (u, ev') ->
  extends (files ev) (files ev') /\ reactionList ev' = reactionList ev.
Proof.
  destruct (recognized e) eqn:Er; intros H.
  - apply (dispatch_entry_adds e ev u ev' Er) in H as (i & file & r & _ & _ & -> & ->).
    split; [apply extends_update | reflexivity].
  - rewrite (dispatch_entry_other e ev Er) in H. injection H as _ <-.
    split; [apply extends_refl | reflexivity].
Qed.

Lemma dispatch_extends_all (entries : list entry) :
  forall ev u ev',
    dispatch entries ev = Ok (u, ev') ->
    extends (files ev) (files ev') /\ reactionList ev' = reactionList ev.
Proof.
  induction entries as [|e entries IH]; intros ev u ev' H; cbn [dispatch] in H.
  - injection H as _ <-. split; [apply extends_refl | reflexivity].
  - apply bind_ok in H as (u1 & ev1 & H1 & H2).
    apply dispatch_entry_extends in H1 as [E1 R1].
    apply IH in H2 as [E2 R2].
    split; [eapply extends_trans; eassumption | congruence].
Qed.

(** On a document of one file, numbered 1, the dispatcher appends to it
    one reaction for each recognized entry, in the order of the entries. *)
Lemma dispatch_one_file (entries : list entry) :
  forall ev u ev' rs0,
    dispatch entries ev = Ok (u, ev') ->
    files ev = [{| fileNumber := 1; reactions := rs0 |}] ->
    exists rs,
      files ev' = [{| fileNumber := 1; reactions := rs0 ++ rs |}] /\
      map MT rs = map entry_MT (filter recognized entries) /\
      reactionList ev' = reactionList ev.
Proof.
  induction entries as [|e entries IH]; intros ev u ev' rs0 H Hf; cbn [dispatch] in H.
  - injection H as _ <-. exists []. rewrite app_nil_r. auto.
  - apply bind_ok in H as (u1 & ev1 & H1 & H2). cbn [filter].
    destruct (recognized e) eqn:Er.
    + apply (dispatch_entry_adds e ev u1 ev1 Er) in H1
        as (i & file & r & Hfind & Hmt & Hf1 & Hr1).
      rewrite Hf in Hfind, Hf1. cbn in Hfind. injection Hfind as <- <-.
      cbn in Hf1.
      destruct (IH ev1 u ev' (rs0 ++ [r]) H2 Hf1) as (rs & Hf' & Hm & Hr').
      exists (r :: rs). rewrite <- app_assoc in Hf'. cbn [app] in Hf'.
      split; [exact Hf'|]. split; [cbn; now rewrite Hmt, Hm | congruence].
    + rewrite (dispatch_entry_other e ev Er) in H1. injection H1 as _ <-.
      now apply (IH ev u ev' rs0).
Qed.

(** ** The header *)

Lemma seekFile_files (Q : list ENDFFile -> Prop) (n : Z) :
  preserves (fun ev => Q (files ev)) (seekFile n).
Proof.
  intros ev u ev' HQ H. rewrite seekFile_eq in H.
  destruct (seek_from _ _ _); [|discriminate H]. now injection H as _ <-.
Qed.

Lemma description_line_files (Q : list ENDFFile -> Prop) (d : list str) :
  preserves (fun ev => Q (files ev)) (description_line d).
Proof.
  unfold description_line.
  apply preserves_bind; [|intros l; apply preserves_ret].
  apply (on_fh_document (fun fs _ => Q fs)).
Qed.

Lemma directory_loop_files (Q : list ENDFFile -> Prop) (fuel : nat) :
  forall acc, preserves (fun ev => Q (files ev)) (directory_loop fuel acc).
Proof.
  induction fuel as [|fuel IH]; intros acc; cbn [directory_loop].
  - intros ev a ev' _ H. discriminate H.
  - apply preserves_bind; [apply (on_fh_document (fun fs _ => Q fs)) | intros l].
    destruct (str_eqb _ _); [apply preserves_ret|].
    apply preserves_bind; [|intros items; apply IH].
    apply (getContRecord_document (fun fs _ => Q fs)).
Qed.

Lemma set_reactionList_files (Q : list ENDFFile -> Prop) (rl : list entry) :
  preserves (fun ev => Q (files ev)) (set_reactionList rl).
Proof. intros ev u ev' HQ H. now injection H as _ <-. Qed.

(** [readHeader] appends one file, numbered 1, holding the reaction 451. *)
Lemma readHeader_files (fs0 : list ENDFFile) :
  hoare (fun ev => files ev = fs0) readHeader
    (fun _ ev' => exists data,
         MT data = 451 /\
         files ev' = fs0 ++ [{| fileNumber := 1; reactions := [data] |}]).
Proof.
  unfold readHeader.
  repeat (cbv zeta;
          apply hoare_bind_keep;
          [ first
              [ apply (seekFile_files (fun fs => fs = fs0))
              | apply (getHeadRecord_document (fun fs _ => fs = fs0))
              | apply (getContRecord_document (fun fs _ => fs = fs0))
              | apply (getTextRecord_document (fun fs _ => fs = fs0))
              | apply preserves_pure
              | apply preserves_for_range; intros ?;
                apply (description_line_files (fun fs => fs = fs0))
              | apply (directory_loop_files (fun fs => fs = fs0))
              | apply (set_reactionList_files (fun fs => fs = fs0))
              | apply (preserves_get (fun ev => files ev = fs0) lines_left) ]
          | intros ? ]).
  intros ev u ev' HP H.
  unfold bind, set_files in H. injection H as _ <-. cbn [files].
  eexists. split; [|rewrite HP; reflexivity]. reflexivity.
Qed.

(* ================================================================== *)
(** * The directory loop on a directory *)

Lemma directory_turn (fuel : nat) (acc : list entry) (ev : Evaluation)
    (l : str) (e : entry) (rest : list str) :
  unread (fh ev) = l :: rest -> directory_line l e ->
  directory_loop (Datatypes.S fuel) acc ev
  = directory_loop fuel (acc ++ [e])
      (with_fh ev {| lines := lines (fh ev); pos := Datatypes.S (pos (fh ev)) |}).
Proof.
  intros Hu (Hne & Hs & items & Hc & ->).
  cbn [directory_loop]. unfold bind at 1. rewrite on_fh_eq, readline_eq.
  apply next_line_unread in Hu as [-> _].
  rewrite Hs. unfold bind at 1, getContRecord. unfold bind at 1.
  rewrite on_fh_eq. destruct l as [|c l]; [contradiction|].
  cbn [line_or_read]. unfold ret, pure. rewrite Hc. reflexivity.
Qed.

Lemma directory_loop_dirs (dirs : list str) (entries : list entry) :
  Forall2 directory_line dirs entries ->
  forall (fuel : nat) (acc : list entry) (ev : Evaluation) (after : list str),
    unread (fh ev) = dirs ++ after ->
    directory_loop (length dirs + fuel) acc ev
    = directory_loop fuel (acc ++ entries)
        (with_fh ev {| lines := lines (fh ev);
                       pos := pos (fh ev) + length dirs |}).
Proof.
  induction 1 as [|l e dirs entries Hl _ IH]; intros fuel acc ev after Hu.
  - cbn [length Nat.add]. rewrite app_nil_r, Nat.add_0_r.
    destruct ev as [[ls p] fs rl]. reflexivity.
  - cbn [length Nat.add]. cbn [app] in Hu.
    rewrite (directory_turn _ acc ev l e (dirs ++ after) Hu Hl).
    pose proof (next_line_unread _ _ _ Hu) as [_ Hu'].
    rewrite (IH fuel (acc ++ [e])
               (with_fh ev {| lines := lines (fh ev);
                              pos := Datatypes.S (pos (fh ev)) |}) after Hu').
    rewrite <- app_assoc. cbn [with_fh fh lines pos files reactionList app].
    replace (pos (fh ev) + Datatypes.S (length dirs))%nat
      with (Datatypes.S (pos (fh ev)) + length dirs)%nat by lia.
    reflexivity.
Qed.

Lemma directory_stop (fuel : nat) (acc : list entry) (ev : Evaluation)
    (sentinel : str) (rest : list str) :
  unread (fh ev) = sentinel :: rest ->
  str_eqb (slice 72 75 sentinel) (lit "  0") = true ->
  directory_loop (Datatypes.S fuel) acc ev
  = Ok (acc, with_fh ev {| lines := lines (fh ev);
                           pos := Datatypes.S (pos (fh ev)) |}).
Proof.
  intros Hu Hs. cbn [directory_loop]. unfold bind at 1.
  rewrite on_fh_eq, readline_eq.
  apply next_line_unread in Hu as [-> _]. now rewrite Hs.
Qed.

Lemma directory_end_of_file (fuel : nat) (acc : list entry) (ev : Evaluation) :
  unread (fh ev) = [] ->
  directory_loop (Datatypes.S fuel) acc ev = Raise ValueError.
Proof.
  intros Hu. cbn [directory_loop]. unfold bind at 1.
  rewrite on_fh_eq, readline_eq, (unread_nil_next _ Hu).
  change (str_eqb (slice 72 75 []) (lit "  0")) with false. cbv iota.
  unfold bind at 1, getContRecord. unfold bind at 1. rewrite on_fh_eq.
  cbn [line_or_read with_fh fh]. rewrite readline_eq, (unread_nil_next _ Hu).
  reflexivity.
Qed.

(* ================================================================== *)
(** * [seekFile] *)

Lemma digit_char_digit (d : Z) :
  0 <= d <= 9 -> is_digit (digit_char d) = true /\ digit_val (digit_char d) = d.
Proof.
  intros H.
  assert (E : d = 0 \/ d = 1 \/ d = 2 \/ d = 3 \/ d = 4 \/ d = 5 \/ d = 6 \/
              d = 7 \/ d = 8 \/ d = 9) by lia.
  repeat (destruct E as [-> | E]; [split; reflexivity|]). subst. split; reflexivity.
Qed.

Lemma digits_val_snoc (ds : str) (d : ascii) :
  digits_val (ds ++ [d]) = 10 * digits_val ds + digit_val d.
Proof. unfold digits_val. now rewrite fold_left_app. Qed.

Lemma dec_digits_spec (fuel : nat) :
  forall (n : Z) (acc : str),
    0 <= n < 10 ^ Z.of_nat (Datatypes.S fuel) ->
    exists ds, dec_digits (Datatypes.S fuel) n acc = ds ++ acc /\ ds <> [] /\
               forallb is_digit ds = true /\ digits_val ds = n.
Proof.
  assert (One : forall n acc, 0 <= n -> n / 10 = 0 ->
                  exists ds, digit_char (n mod 10) :: acc = ds ++ acc /\ ds <> [] /\
                             forallb is_digit ds = true /\ digits_val ds = n).
  { intros n acc Hn E.
    pose proof (Z.mod_pos_bound n 10 ltac:(lia)) as Hm.
    destruct (digit_char_digit (n mod 10) ltac:(lia)) as [Hd Hv].
    pose proof (Z.div_mod n 10 ltac:(lia)) as Hdm.
    exists [digit_char (n mod 10)]. repeat split.
    - discriminate.
    - cbn. now rewrite Hd.
    - rewrite digits_val_single, Hv. lia. }
  induction fuel as [|fuel IH]; intros n acc Hn.
  - cbn [dec_digits]. change (10 ^ Z.of_nat 1) with 10 in Hn.
    destruct (Z.eqb_spec (n / 10) 0) as [E|E]; apply One; try lia.
    apply Z.div_small. lia.
  - cbn [dec_digits].
    destruct (Z.eqb_spec (n / 10) 0) as [E|E]; [apply One; lia|].
    pose proof (Z.mod_pos_bound n 10 ltac:(lia)) as Hm.
    destruct (digit_char_digit (n mod 10) ltac:(lia)) as [Hd Hv].
    pose proof (Z.div_mod n 10 ltac:(lia)) as Hdm.
    rewrite Nat2Z.inj_succ, Z.pow_succ_r in Hn by lia.
    destruct (IH (n / 10) (digit_char (n mod 10) :: acc))
      as (ds & Eds & Hne & Hds & Hval).
    { split; [apply Z.div_pos; lia | apply Z.div_lt_upper_bound; lia]. }
    cbn [dec_digits] in Eds. rewrite Eds.
    exists (ds ++ [digit_char (n mod 10)]). repeat split.
    + now rewrite <- app_assoc.
    + destruct ds; discriminate.
    + rewrite forallb_app, Hds. cbn. now rewrite Hd.
    + rewrite digits_val_snoc, Hval, Hv. lia.
Qed.

Lemma pow10_gt (n : Z) : 0 <= n -> n < 10 ^ n.
Proof. intros H. apply Z.pow_gt_lin_r; lia. Qed.

Lemma digit_not_space (c : ascii) : is_digit c = true -> is_space c = false.
Proof.
  intros H. destruct (is_space c) eqn:E; [|reflexivity].
  apply is_space_not_digit in E. congruence.
Qed.

Lemma split_sign_digit (c : ascii) (r : str) :
  is_digit c = true -> split_sign (c :: r) = (false, c :: r).
Proof.
  destruct c as [[] [] [] [] [] [] [] []]; vm_compute; intros H;
    try reflexivity; discriminate H.
Qed.

Lemma rdrop_while_digits (ds : str) :
  ds <> [] -> forallb is_digit ds = true -> rdrop_while is_space ds = ds.
Proof.
  intros Hne Hd. destruct (exists_last Hne) as (ds0 & c & ->).
  apply rdrop_while_snoc. apply digit_not_space.
  rewrite forallb_app in Hd. apply andb_true_iff in Hd as [_ Hc].
  cbn in Hc. now destruct (is_digit c).
Qed.

Lemma drop_while_pad (k : nat) (s : str) :
  drop_while is_space (repeat " "%char k ++ s) = drop_while is_space s.
Proof. induction k as [|k IH]; [reflexivity | exact IH]. Qed.

Lemma py_int_digits (k : nat) (neg : bool) (ds : str) :
  ds <> [] -> forallb is_digit ds = true ->
  py_int (repeat " "%char k ++ (if neg then "-"%char :: ds else ds))
  = Ok (if neg then - digits_val ds else digits_val ds).
Proof.
  intros Hne Hd. unfold py_int, strip. rewrite drop_while_pad.
  destruct ds as [|c ds]; [contradiction|].
  assert (Hc : is_digit c = true) by (cbn in Hd; now destruct (is_digit c)).
  destruct neg.
  - cbn [drop_while]. change (is_space "-") with false. cbv iota.
    replace (rdrop_while is_space ("-"%char :: c :: ds)) with ("-"%char :: c :: ds).
    + cbn [split_sign]. cbn [nonempty andb]. now rewrite Hd.
    + change ("-"%char :: c :: ds) with (["-"%char] ++ (c :: ds)).
      destruct (exists_last Hne) as (ds0 & d & E). rewrite E.
      rewrite app_assoc. symmetry. apply rdrop_while_snoc.
      apply digit_not_space. rewrite E, forallb_app in Hd.
      apply andb_true_iff in Hd as [_ Hd]. cbn in Hd. now destruct (is_digit d).
  - cbn [drop_while]. rewrite (digit_not_space c Hc).
    rewrite rdrop_while_digits by assumption.
    rewrite split_sign_digit by assumption. cbn [nonempty andb]. now rewrite Hd.
Qed.

(** [int('{0:2}'.format(n))] is [n]. *)
Lemma py_int_format_2 (n : Z) : py_int (format_2 n) = Ok n.
Proof.
  unfold format_2. destruct (Z.ltb_spec n 0) as [Hn|Hn].
  - destruct (Z.to_nat (- n)) as [|k] eqn:Ek; [lia|].
    destruct (dec_digits_spec k (- n) [])
      as (ds & E & Hne & Hd & Hv).
    { rewrite <- Ek, Z2Nat.id by lia. split; [lia | apply pow10_gt; lia]. }
    rewrite E, app_nil_r.
    rewrite (py_int_digits _ true ds Hne Hd). f_equal. lia.
  - destruct (dec_digits_spec (Z.to_nat n) n [])
      as (ds & E & Hne & Hd & Hv).
    { rewrite Nat2Z.inj_succ, Z2Nat.id, Z.pow_succ_r by lia.
      pose proof (pow10_gt n Hn). lia. }
    rewrite E, app_nil_r.
    rewrite (py_int_digits _ false ds Hne Hd). now f_equal.
Qed.

(** X3.  A LIST record whose count of items is zero or negative has no
    line of items: [getListRecord] reads the first line only and returns
    the empty list (with the fields of the first line, unless [onlyList]). *)
Lemma getListRecord_nonpositive (onlyList : bool) (ev : Evaluation) (hdr : str)
    (rest : list str) (items : Items.t) :
  unread (fh ev) = hdr :: rest ->
  cont_fields false hdr = Ok items -> Items.N1 items <= 0 ->
  getListRecord onlyList ev
  = Ok (if onlyList then OnlyList [] else ItemsAndList items [],
        with_fh ev {| lines := lines (fh ev); pos := Datatypes.S (pos (fh ev)) |}).
Proof.
  intros Hu Hc HN. rewrite getListRecord_eq.
  apply next_line_unread in Hu as [-> _]. cbn [fst snd]. rewrite Hc.
  rewrite range_count_nonpositive by lia. reflexivity.
Qed.

(** X4.  A TAB1 record whose numbers of regions and of points are zero or
    negative: [read] reads the first line only and leaves the record as
    it was. *)
Lemma ENDFTab1Record_read_nonpositive (self : ENDFTab1Record) (s : stream)
    (hdr : str) (rest : list str) (NR NP : Z) :
  unread s = hdr :: rest ->
  py_int (slice 44 55 hdr) = Ok NR -> py_int (slice 55 66 hdr) = Ok NP ->
  NR <= 0 -> NP <= 0 ->
  ENDFTab1Record_read self s
  = Ok (self, {| lines := lines s; pos := Datatypes.S (pos s) |}).
Proof.
  intros Hu HNR HNP HR HP. rewrite ENDFTab1Record_read_eq.
  apply next_line_unread in Hu as [-> _]. cbn [fst snd]. cbv zeta.
  rewrite HNR, HNP. rewrite !range_count_nonpositive by lia. reflexivity.
Qed.

(* ================================================================== *)
(** * The handlers on well-formed sections *)

Lemma unread_next (s : stream) : unread (snd (next_line s)) = tl (unread s).
Proof.
  destruct (unread s) as [|l r] eqn:E.
  - now rewrite (unread_nil_next s E).
  - apply next_line_unread in E as [-> E]. exact E.
Qed.

Lemma getHeadRecord_line (ev : Evaluation) (hdr : str) (rest : list str)
    (items : Items.t) :
  unread (fh ev) = hdr :: rest -> head_fields hdr = Ok items ->
  getHeadRecord None ev
  = Ok (items, with_fh ev {| lines := lines (fh ev);
                             pos := Datatypes.S (pos (fh ev)) |}).
Proof.
  intros Hu Hh. rewrite getHeadRecord_eq.
  apply next_line_unread in Hu as [-> _]. cbn [fst snd]. now rewrite Hh.
Qed.

Lemma bind_run {S A B : Type} (c : M S A) (k : A -> M S B) (s : S) (a : A) (s1 : S) :
  c s = Ok (a, s1) -> bind c k s = k a s1.
Proof. intros H. unfold bind. now rewrite H. Qed.

Lemma on_fh_readline_run (ev : Evaluation) :
  on_fh readline ev
  = Ok (fst (next_line (fh ev)), with_fh ev (snd (next_line (fh ev)))).
Proof. rewrite on_fh_eq, readline_eq. now destruct (next_line (fh ev)). Qed.

Lemma append_reaction_run (i : nat) (file : ENDFFile) (r : ENDFReaction)
    (ev : Evaluation) :
  append_reaction (Some (i, file)) r ev
  = Ok ((i, length (reactions file)),
        {| fh := fh ev; files := update_nth i (with_reaction r) (files ev);
           reactionList := reactionList ev |}).
Proof. reflexivity. Qed.

Lemma set_reaction_attr_run (ref : nat * nat) (name : String.string) (v : attr)
    (ev : Evaluation) :
  set_reaction_attr ref name v ev
  = Ok (tt,
        {| fh := fh ev;
           files :=
             update_nth (fst ref)
               (fun f => {| fileNumber := fileNumber f;
                            reactions := update_nth (snd ref) (setattr name v)
                                           (reactions f) |})
               (files ev);
           reactionList := reactionList ev |}).
Proof. reflexivity. Qed.

(** The reaction a handler has appended and then set attributes on. *)
Lemma appended_attr (fs : list ENDFFile) (i : nat) (file : ENDFFile)
    (r : ENDFReaction) (name : String.string) (v : attr) :
  nth_error fs i = Some file ->
  update_nth i
    (fun f => {| fileNumber := fileNumber f;
                 reactions := update_nth (length (reactions file)) (setattr name v)
                                (reactions f) |})
    (update_nth i (with_reaction r) fs)
  = update_nth i (with_reaction (setattr name v r)) fs.
Proof.
  intros Hn. rewrite update_nth_twice.
  apply (update_nth_ext_at i _ _ fs file Hn).
  unfold with_reaction. cbn [reactions fileNumber]. now rewrite update_nth_snoc.
Qed.

(** X16.  [readTotalNu] on a section in polynomial representation: a head
    record whose LNU (field 4) is 1, a LIST record, and one more line.
    It reads all of them, the line after the list whatever it is, and
    appends to the first file numbered 1 a reaction 452 whose [LNU] is 1
    and whose [coeffs] is the pair of the fields of the first line of the
    list and its values, in the order of the tape. *)
Lemma readTotalNu_list (ev : Evaluation) (i : nat) (file : ENDFFile)
    (hdr lhdr : str) (hitems items : Items.t) (slots : list str)
    (vals : list scalar) (ls after : list str) :
  find_first (fun f => fileNumber f =? 1) (files ev) 0 = Some (i, file) ->
  unread (fh ev) = hdr :: lhdr :: ls ++ after ->
  head_fields hdr = Ok hitems -> Items.L2 hitems = 1 ->
  cont_fields false lhdr = Ok items ->
  Items.N1 items = Z.of_nat (length slots) ->
  Packed 6 slots ls ->
  Forall2 (fun sl v => length sl = 11%nat /\ convert sl = Ok v) slots vals ->
  exists ev',
    readTotalNu ev = Ok (tt, ev') /\
    unread (fh ev') = tl after /\
    files ev'
    = update_nth i
        (with_reaction
           {| MT := 452;
              attrs := [("coeffs"%string, AList (ItemsAndList items vals));
                        ("LNU"%string, AInt 1)] |})
        (files ev) /\
    reactionList ev' = reactionList ev.
Proof.
  intros Hfind Hu Hh HL Hc Hn HP Hv.
  pose proof (find_first_nth _ _ _ _ _ Hfind) as (_ & Hnth & _).
  rewrite Nat.sub_0_r in Hnth.
  pose proof (next_line_unread _ _ _ Hu) as [_ Hu1].
  pose proof (next_line_unread _ _ _ Hu1) as [_ Hu2].
  cbn [lines pos] in Hu2.
  unfold readTotalNu.
  erewrite bind_run by (unfold findFile; rewrite Hfind; reflexivity).
  erewrite bind_run by (apply append_reaction_run).
  erewrite bind_run by (eapply getHeadRecord_line; [exact Hu | exact Hh]).
  cbv zeta. rewrite HL. change (1 =? 1) with true. cbv iota.
  erewrite bind_run by (apply set_reaction_attr_run).
  cbn [with_fh fh files reactionList].
  rewrite (appended_attr _ _ _ _ _ _ Hnth).
  erewrite bind_run.
  2:{ erewrite bind_run
        by (apply (getListRecord_packed false _ lhdr items slots vals ls after);
            [exact Hu1 | exact Hc | exact Hn | exact HP | exact Hv]).
      apply set_reaction_attr_run. }
  cbn [with_fh fh files reactionList lines pos].
  rewrite (appended_attr _ _ _ _ _ _ Hnth).
  erewrite bind_run by (apply on_fh_readline_run).
  unfold ret. eexists. split; [reflexivity|].
  cbn [with_fh fh files reactionList].
  split; [|split; reflexivity].
  rewrite unread_next.
  replace (Datatypes.S (pos (fh ev)) + 1 + length ls)%nat
    with (Datatypes.S (Datatypes.S (pos (fh ev))) + length ls)%nat by lia.
  pose proof (unread_skip _ _ _ Hu2) as Hu3. cbn [lines pos] in Hu3.
  now rewrite Hu3.
Qed.

Lemma getTab1Record_packed (ev : Evaluation) (hdr : str)
    (regions points : list str) (rvals : list (Z * Z))
    (pvals : list (scalar * scalar)) (rls pls rest : list str) :
  unread (fh ev) = hdr :: rls ++ pls ++ rest ->
  py_int (slice 44 55 hdr) = Ok (Z.of_nat (length regions)) ->
  py_int (slice 55 66 hdr) = Ok (Z.of_nat (length points)) ->
  Packed 3 regions rls -> Packed 3 points pls ->
  Forall2 region_holds regions rvals ->
  Forall2 pair_holds points pvals ->
  getTab1Record ev
  = Ok ({| NBT := map fst rvals; INT := map snd rvals;
           x := map fst pvals; y := map snd pvals |},
        with_fh ev {| lines := lines (fh ev);
                      pos := pos (fh ev) + 1 + length rls + length pls |}).
Proof.
  intros Hu HNR HNP HPr HPp Hr Hp. unfold getTab1Record. rewrite on_fh_eq.
  now rewrite (ENDFTab1Record_read_packed (fh ev) hdr regions points rvals pvals
                 rls pls rest Hu HNR HNP HPr HPp Hr Hp).
Qed.

(** X17.  [readPromptNu] on a section holding a list: a head record whose
    LNU is 1, a LIST record, and one more line.  It reads all of them and
    appends to the first file numbered 1 a reaction 456 whose [LNU] is 1
    and whose [value] is the list of the values alone. *)
Lemma readPromptNu_list (ev : Evaluation) (i : nat) (file : ENDFFile)
    (hdr lhdr : str) (hitems items : Items.t) (slots : list str)
    (vals : list scalar) (ls after : list str) :
  find_first (fun f => fileNumber f =? 1) (files ev) 0 = Some (i, file) ->
  unread (fh ev) = hdr :: lhdr :: ls ++ after ->
  head_fields hdr = Ok hitems -> Items.L2 hitems = 1 ->
  cont_fields false lhdr = Ok items ->
  Items.N1 items = Z.of_nat (length slots) ->
  Packed 6 slots ls ->
  Forall2 (fun sl v => length sl = 11%nat /\ convert sl = Ok v) slots vals ->
  exists ev',
    readPromptNu ev = Ok (tt, ev') /\
    unread (fh ev') = tl after /\
    files ev'
    = update_nth i
        (with_reaction
           {| MT := 456;
              attrs := [("value"%string, AList (OnlyList vals));
                        ("LNU"%string, AInt 1)] |})
        (files ev) /\
    reactionList ev' = reactionList ev.
Proof.
  intros Hfind Hu Hh HL Hc Hn HP Hv.
  pose proof (find_first_nth _ _ _ _ _ Hfind) as (_ & Hnth & _).
  rewrite Nat.sub_0_r in Hnth.
  pose proof (next_line_unread _ _ _ Hu) as [_ Hu1].
  pose proof (next_line_unread _ _ _ Hu1) as [_ Hu2].
  cbn [lines pos] in Hu2.
  unfold readPromptNu.
  erewrite bind_run by (unfold findFile; rewrite Hfind; reflexivity).
  erewrite bind_run by (apply append_reaction_run).
  erewrite bind_run by (eapply getHeadRecord_line; [exact Hu | exact Hh]).
  cbv zeta. rewrite HL. change (1 =? 2) with false. change (1 =? 1) with true.
  cbv iota.
  erewrite bind_run by (apply set_reaction_attr_run).
  cbn [with_fh fh files reactionList].
  rewrite (appended_attr _ _ _ _ _ _ Hnth).
  erewrite bind_run.
  2:{ erewrite bind_run
        by (apply (getListRecord_packed true _ lhdr items slots vals ls after);
            [exact Hu1 | exact Hc | exact Hn | exact HP | exact Hv]).
      apply set_reaction_attr_run. }
  cbn [with_fh fh files reactionList lines pos].
  rewrite (appended_attr _ _ _ _ _ _ Hnth).
  erewrite bind_run by (apply on_fh_readline_run).
  unfold ret. eexists. split; [reflexivity|].
  cbn [with_fh fh files reactionList].
  split; [|split; reflexivity].
  rewrite unread_next.
  replace (Datatypes.S (pos (fh ev)) + 1 + length ls)%nat
    with (Datatypes.S (Datatypes.S (pos (fh ev))) + length ls)%nat by lia.
  pose proof (unread_skip _ _ _ Hu2) as Hu3. cbn [lines pos] in Hu3.
  now rewrite Hu3.
Qed.

(** X18.  [readDelayedNu] on a section with energy-independent decay
    constants: a head record whose LDG (field 3) is 0 and whose LNU
    (field 4) is 2, a LIST record, a TAB1 record, and one more line.  It
    reads all of them and appends to the first file numbered 1 a
    reaction 455 whose [decayConst] is the list of the values of the LIST
    record and whose [value] is the table of the TAB1 record. *)
Lemma readDelayedNu_tabulated (ev : Evaluation) (i : nat) (file : ENDFFile)
    (hdr lhdr thdr : str) (hitems items : Items.t)
    (slots : list str) (vals : list scalar) (ls : list str)
    (regions points : list str) (rvals : list (Z * Z))
    (pvals : list (scalar * scalar)) (rls pls after : list str) :
  find_first (fun f => fileNumber f =? 1) (files ev) 0 = Some (i, file) ->
  unread (fh ev) = hdr :: lhdr :: ls ++ thdr :: rls ++ pls ++ after ->
  head_fields hdr = Ok hitems -> Items.L1 hitems = 0 -> Items.L2 hitems = 2 ->
  cont_fields false lhdr = Ok items ->
  Items.N1 items = Z.of_nat (length slots) ->
  Packed 6 slots ls ->
  Forall2 (fun sl v => length sl = 11%nat /\ convert sl = Ok v) slots vals ->
  py_int (slice 44 55 thdr) = Ok (Z.of_nat (length regions)) ->
  py_int (slice 55 66 thdr) = Ok (Z.of_nat (length points)) ->
  Packed 3 regions rls -> Packed 3 points pls ->
  Forall2 region_holds regions rvals ->
  Forall2 pair_holds points pvals ->
  exists ev',
    readDelayedNu ev = Ok (tt, ev') /\
    unread (fh ev') = tl after /\
    files ev'
    = update_nth i
        (with_reaction
           {| MT := 455;
              attrs :=
                [("value"%string,
                  ATab1 {| NBT := map fst rvals; INT := map snd rvals;
                           x := map fst pvals; y := map snd pvals |});
                 ("decayConst"%string, AList (OnlyList vals));
                 ("LNU"%string, AInt 2); ("LDG"%string, AInt 0)] |})
        (files ev) /\
    reactionList ev' = reactionList ev.
Proof.
  intros Hfind Hu Hh HG HL Hc Hn HP Hv HNR HNP HPr HPp Hr Hp.
  pose proof (find_first_nth _ _ _ _ _ Hfind) as (_ & Hnth & _).
  rewrite Nat.sub_0_r in Hnth.
  pose proof (next_line_unread _ _ _ Hu) as [_ Hu1].
  pose proof (next_line_unread _ _ _ Hu1) as [_ Hu2].
  cbn [lines pos] in Hu2.
  pose proof (unread_skip _ _ _ Hu2) as Hu3. cbn [lines pos] in Hu3.
  pose proof (next_line_unread _ _ _ Hu3) as [_ Hu4]. cbn [lines pos] in Hu4.
  rewrite app_assoc in Hu4.
  pose proof (unread_skip _ _ _ Hu4) as Hu5. cbn [lines pos] in Hu5.
  rewrite <- app_assoc in Hu4.
  unfold readDelayedNu.
  erewrite bind_run by (unfold findFile; rewrite Hfind; reflexivity).
  erewrite bind_run by (apply append_reaction_run).
  erewrite bind_run by (eapply getHeadRecord_line; [exact Hu | exact Hh]).
  cbv zeta. rewrite HL, HG. change ((2 =? 2) && (0 =? 0)) with true. cbv iota.
  erewrite bind_run by (apply set_reaction_attr_run).
  cbn [with_fh fh files reactionList].
  rewrite (appended_attr _ _ _ _ _ _ Hnth).
  erewrite bind_run by (apply set_reaction_attr_run).
  cbn [with_fh fh files reactionList].
  rewrite (appended_attr _ _ _ _ _ _ Hnth).
  erewrite bind_run
    by (apply (getListRecord_packed true _ lhdr items slots vals ls
                 (thdr :: rls ++ pls ++ after));
        [exact Hu1 | exact Hc | exact Hn | exact HP | exact Hv]).
  erewrite bind_run by (apply set_reaction_attr_run).
  cbn [with_fh fh files reactionList lines pos].
  rewrite (appended_attr _ _ _ _ _ _ Hnth).
  replace (Datatypes.S (pos (fh ev)) + 1 + length ls)%nat
    with (Datatypes.S (Datatypes.S (pos (fh ev))) + length ls)%nat by lia.
  erewrite bind_run
    by (apply (getTab1Record_packed _ thdr regions points rvals pvals rls pls after);
        [exact Hu3 | exact HNR | exact HNP | exact HPr | exact HPp
        | exact Hr | exact Hp]).
  erewrite bind_run by (apply set_reaction_attr_run).
  cbn [with_fh fh files reactionList lines pos].
  rewrite (appended_attr _ _ _ _ _ _ Hnth).
  erewrite bind_run by (apply on_fh_readline_run).
  unfold ret. eexists. split; [reflexivity|].
  cbn [with_fh fh files reactionList].
  split; [|split; reflexivity].
  rewrite unread_next.
  replace (Datatypes.S (Datatypes.S (pos (fh ev))) + length ls + 1
           + length rls + length pls)%nat
    with (Datatypes.S (Datatypes.S (Datatypes.S (pos (fh ev))) + length ls)
          + length (rls ++ pls))%nat by (rewrite length_app; lia).
  exact (f_equal (@tl str) Hu5).
Qed.

(** X19.  [readDelayedNu] in any other representation (LNU is not 2, or
    LDG is not 0): it reads the head record and nothing more, not even
    the line that ends the section, and the reaction 455 it appends has
    [LDG] and [LNU] only. *)
Lemma readDelayedNu_other (ev : Evaluation) (i : nat) (file : ENDFFile)
    (hdr : str) (hitems : Items.t) (after : list str) :
  find_first (fun f => fileNumber f =? 1) (files ev) 0 = Some (i, file) ->
  unread (fh ev) = hdr :: after ->
  head_fields hdr = Ok hitems ->
  (Items.L2 hitems =? 2) && (Items.L1 hitems =? 0) = false ->
  exists ev',
    readDelayedNu ev = Ok (tt, ev') /\
    unread (fh ev') = after /\
    files ev'
    = update_nth i
        (with_reaction
           {| MT := 455;
              attrs := [("LNU"%string, AInt (Items.L2 hitems));
                        ("LDG"%string, AInt (Items.L1 hitems))] |})
        (files ev) /\
    reactionList ev' = reactionList ev.
Proof.
  intros Hfind Hu Hh Hb.
  pose proof (find_first_nth _ _ _ _ _ Hfind) as (_ & Hnth & _).
  rewrite Nat.sub_0_r in Hnth.
  pose proof (next_line_unread _ _ _ Hu) as [_ Hu1].
  unfold readDelayedNu.
  erewrite bind_run by (unfold findFile; rewrite Hfind; reflexivity).
  erewrite bind_run by (apply append_reaction_run).
  erewrite bind_run by (eapply getHeadRecord_line; [exact Hu | exact Hh]).
  cbv zeta. rewrite Hb.
  erewrite bind_run by (apply set_reaction_attr_run).
  cbn [with_fh fh files reactionList].
  rewrite (appended_attr _ _ _ _ _ _ Hnth).
  erewrite bind_run by (apply set_reaction_attr_run).
  cbn [with_fh fh files reactionList].
  rewrite (appended_attr _ _ _ _ _ _ Hnth).
  unfold ret. eexists. split; [reflexivity|].
  cbn [with_fh fh files reactionList].
  split; [exact Hu1 | split; reflexivity].
Qed.

(* ================================================================== *)
(** * The record readers and the stream *)

(** X1.  A record reader that returns has only read the stream: the lines
    are the same, the cursor has not moved back (nor past the end of the
    file), and the files and the directory of the evaluation are as they
    were.  This holds for [getTextRecord], [getContRecord],
    [getHeadRecord], [getListRecord] and [getTab1Record], whatever their
    arguments. *)
Theorem record_readers_read_on (ev ev' : Evaluation) :
  (forall line r, getTextRecord line ev = Ok (r, ev') -> read_on ev ev') /\
  (forall line skipC r, getContRecord line skipC ev = Ok (r, ev') -> read_on ev ev') /\
  (forall line r, getHeadRecord line ev = Ok (r, ev') -> read_on ev ev') /\
  (forall onlyList r, getListRecord onlyList ev = Ok (r, ev') -> read_on ev ev') /\
  (forall r, getTab1Record ev = Ok (r, ev') -> read_on ev ev').
Proof.
  assert (K : forall (A : Type) (c : M Evaluation A) (r : A),
             preserves (fun e => forward (fh ev) (fh e)) c ->
             preserves (fun e => files e = files ev /\
                                 reactionList e = reactionList ev) c ->
             c ev = Ok (r, ev') -> read_on ev ev').
  { intros A c r H1 H2 H. split.
    - exact (H1 ev r ev' (forward_refl _) H).
    - exact (H2 ev r ev' (conj eq_refl eq_refl) H). }
  split; [|split; [|split; [|split]]].
  - intros line r. apply K; [apply getTextRecord_forward|].
    apply (getTextRecord_document
             (fun fs rl => fs = files ev /\ rl = reactionList ev)).
  - intros line skipC r. apply K; [apply getContRecord_forward|].
    apply (getContRecord_document
             (fun fs rl => fs = files ev /\ rl = reactionList ev)).
  - intros line r. apply K; [apply getHeadRecord_forward|].
    apply (getHeadRecord_document
             (fun fs rl => fs = files ev /\ rl = reactionList ev)).
  - intros onlyList r. apply K; [apply getListRecord_forward|].
    apply (getListRecord_document
             (fun fs rl => fs = files ev /\ rl = reactionList ev)).
  - intros r. apply K; [apply getTab1Record_forward|].
    apply (getTab1Record_document
             (fun fs rl => fs = files ev /\ rl = reactionList ev)).
Qed.

Lemma record_readers_read_on_witness :
  exists r ev',
    getTab1Record (evaluation_at tab1_four_lines []) = Ok (r, ev') /\
    read_on (evaluation_at tab1_four_lines []) ev'.
Proof.
  destruct (getTab1Record (evaluation_at tab1_four_lines []))
    as [[r ev']| | |] eqn:E; try (vm_compute in E; discriminate E).
  exists r, ev'. split; [reflexivity|].
  exact (proj2 (proj2 (proj2 (proj2
           (record_readers_read_on (evaluation_at tab1_four_lines []) ev')))) r E).
Defined.

(** X2.  [ENDFTab1Record.read] on a well-formed record: a first line
    whose fields 5 and 6 give the numbers of regions and of points, the
    regions three pairs to a line, then the points three pairs to a line.
    It appends the integers of the regions to [NBT] and [INT] and the
    values of the points to [x] and [y], each in the order of the tape and
    after what the record held, and leaves the stream after the last line
    of the points. *)
Theorem tab1_record_appended (self : ENDFTab1Record) (s : stream) (hdr : str)
    (regions points : list str) (rvals : list (Z * Z))
    (pvals : list (scalar * scalar)) (rls pls rest : list str) :
  unread s = hdr :: rls ++ pls ++ rest ->
  py_int (slice 44 55 hdr) = Ok (Z.of_nat (length regions)) ->
  py_int (slice 55 66 hdr) = Ok (Z.of_nat (length points)) ->
  Packed 3 regions rls -> Packed 3 points pls ->
  Forall2 region_holds regions rvals ->
  Forall2 pair_holds points pvals ->
  exists s',
    ENDFTab1Record_read self s
    = Ok ({| NBT := NBT self ++ map fst rvals; INT := INT self ++ map snd rvals;
             x := x self ++ map fst pvals; y := y self ++ map snd pvals |}, s') /\
    lines s' = lines s /\ unread s' = rest.
Proof.
  intros Hu HNR HNP HPr HPp Hr Hp.
  destruct (regions_fold _ _ Hr) as (Gr & _ & Fr).
  destruct (pairs_fold _ _ Hp) as (Gp & _ & Fp).
  rewrite ENDFTab1Record_read_eq.
  apply next_line_unread in Hu as [Hnl Hu]. rewrite Hnl. cbn [fst snd]. cbv zeta.
  rewrite HNR, HNP.
  rewrite (packed_count 3 ltac:(lia) regions rls HPr).
  rewrite (packed_loop 3 tab1_region (Z.of_nat (length regions)) ltac:(lia)
             good_region region_step tab1_region_ok regions rls HPr
             self 0 _ (pls ++ rest) Gr ltac:(lia) Hu).
  cbn [fst].
  rewrite (packed_count 3 ltac:(lia) points pls HPp).
  apply unread_skip in Hu.
  pose proof (unread_skip _ _ _ Hu) as Hu'.
  rewrite (packed_loop 3 tab1_pair (Z.of_nat (length points)) ltac:(lia)
             good_pair pair_step tab1_pair_ok points pls HPp
             _ 0 _ rest Gp ltac:(lia) Hu).
  cbn [fst lines pos] in *. rewrite Fp, Fr. cbn [NBT INT x y].
  eexists. split; [reflexivity|]. split; [reflexivity | exact Hu'].
Qed.

Lemma Packed_single (c : nat) (chunk : list str) (tail : str) :
  chunk <> [] -> (length chunk <= c)%nat ->
  Packed c chunk [concat chunk ++ tail].
Proof.
  intros H1 H2. rewrite <- (app_nil_r chunk) at 1.
  apply Packed_line; [exact H1 | exact H2 | reflexivity | apply Packed_nil].
Qed.

Lemma tab1_record_appended_witness :
  exists s',
    ENDFTab1Record_read ENDFTab1Record_init {| lines := tab1_lines; pos := 0 |}
    = Ok ({| NBT := [2]; INT := [2];
             x := [SFloat (Fin (1 # 100000)); SFloat (Fin (20000000 # 1))];
             y := [SFloat (Fin (24367 # 10000)); SFloat (Fin (1041969 # 200000))] |},
          s') /\
    lines s' = tab1_lines /\ unread s' = [].
Proof.
  apply (tab1_record_appended ENDFTab1Record_init {| lines := tab1_lines; pos := 0 |}
           (hd [] tab1_lines)
           (slots_22 1 (nth 1 tab1_lines []))
           (slots_22 2 (nth 2 tab1_lines []))
           [(2, 2)]
           [(SFloat (Fin (1 # 100000)), SFloat (Fin (24367 # 10000)));
            (SFloat (Fin (20000000 # 1)), SFloat (Fin (1041969 # 200000)))]
           [nth 1 tab1_lines []] [nth 2 tab1_lines []] []).
  - reflexivity.
  - vm_compute. reflexivity.
  - vm_compute. reflexivity.
  - change [nth 1 tab1_lines []]
      with [concat (slots_22 1 (nth 1 tab1_lines []))
            ++ skipn 22 (nth 1 tab1_lines [])].
    apply Packed_single; [intros E; discriminate E | cbn; lia].
  - change [nth 2 tab1_lines []]
      with [concat (slots_22 2 (nth 2 tab1_lines []))
            ++ skipn 44 (nth 2 tab1_lines [])].
    apply Packed_single; [intros E; discriminate E | cbn; lia].
  - repeat (constructor; [split; [reflexivity | split; vm_compute; reflexivity]|]).
    constructor.
  - repeat (constructor; [split; [reflexivity | split; vm_compute; reflexivity]|]).
    constructor.
Defined.

(* ================================================================== *)
(** * Non-positive counts *)

Lemma getListRecord_nonpositive_witness :
  getListRecord true (evaluation_at (tl section_453) [])
  = Ok (OnlyList [],
        with_fh (evaluation_at (tl section_453) [])
          {| lines := tl section_453; pos := 1 |}).
Proof.
  destruct (cont_fields false (hd [] (tl section_453))) as [items| | |] eqn:Ec;
    try (vm_compute in Ec; discriminate Ec).
  apply (getListRecord_nonpositive true (evaluation_at (tl section_453) [])
           (hd [] (tl section_453)) (tl (tl section_453)) items).
  - reflexivity.
  - exact Ec.
  - vm_compute in Ec. injection Ec as <-. vm_compute. intros E. discriminate E.
Defined.

Lemma ENDFTab1Record_read_nonpositive_witness :
  ENDFTab1Record_read ENDFTab1Record_init {| lines := tl section_453; pos := 0 |}
  = Ok (ENDFTab1Record_init, {| lines := tl section_453; pos := 1 |}).
Proof.
  apply (ENDFTab1Record_read_nonpositive ENDFTab1Record_init
           {| lines := tl section_453; pos := 0 |}
           (hd [] (tl section_453)) (tl (tl section_453)) 0 0).
  - reflexivity.
  - vm_compute. reflexivity.
  - vm_compute. reflexivity.
  - lia.
  - lia.
Defined.

(* ================================================================== *)
(** * Finding a file on the tape *)

(** X5.  [seekFile] rewinds: wherever the cursor is, it ends at the first
    line of the file whose columns 71-72 are the number, formatted to two
    characters; the document is not touched. *)
Theorem seekFile_first (fileNum : Z) (ev : Evaluation) (pre : list str) (l : str)
    (post : list str) :
  lines (fh ev) = pre ++ l :: post ->
  (forall l', In l' pre -> slice 70 72 l' <> format_2 fileNum) ->
  slice 70 72 l = format_2 fileNum ->
  seekFile fileNum ev
  = Ok (tt, with_fh ev {| lines := lines (fh ev); pos := length pre |}).
Proof.
  intros Hl Hpre Hm. rewrite seekFile_eq.
  rewrite Hl at 1. rewrite (seek_from_first pre l post 0 _ Hpre Hm). reflexivity.
Qed.

Lemma seekFile_first_witness :
  seekFile 1 {| fh := {| lines := tape_sandwich; pos := 20 |};
                files := []; reactionList := [] |}
  = Ok (tt, {| fh := {| lines := tape_sandwich; pos := 1 |};
               files := []; reactionList := [] |}).
Proof.
  apply (seekFile_first 1
           {| fh := {| lines := tape_sandwich; pos := 20 |};
              files := []; reactionList := [] |}
           [hd [] tape_sandwich] (nth 1 tape_sandwich []) (skipn 2 tape_sandwich)).
  - reflexivity.
  - intros l' [<- | []]. vm_compute. intros E. discriminate E.
  - vm_compute. reflexivity.
Defined.

(** X6.  [seekFile] on a tape without a line of the file never returns.
    Its loop, started anywhere on the tape and given any number of turns,
    has not ended when they are used up: a line that is not of the file
    does not end it, and at the end of the file [readline] keeps
    returning the empty string, which is not the formatted number either,
    with the stream staying where it is. *)
Theorem seekFile_absent (fileNum : Z) (ev : Evaluation) :
  (forall l, In l (lines (fh ev)) -> slice 70 72 l <> format_2 fileNum) ->
  (forall fuel position : nat,
      seek_loop fuel (format_2 fileNum)
        {| lines := lines (fh ev); pos := position |} = Loops) /\
  seekFile fileNum ev = Loops.
Proof.
  intros H. split.
  - intros fuel position.
    apply (seek_loop_absent _ (format_2_nonempty fileNum)).
    intros l Hl. apply H. unfold unread in Hl. cbn [lines pos] in Hl.
    rewrite <- (firstn_skipn position (lines (fh ev))).
    apply in_or_app. now right.
  - rewrite seekFile_eq. now rewrite (seek_from_none _ 0 _ H).
Qed.

Lemma seekFile_absent_witness :
  (forall fuel position : nat,
      seek_loop fuel (format_2 2) {| lines := tape_sandwich; pos := position |}
      = Loops) /\
  seekFile 2 (Evaluation_init tape_sandwich) = Loops.
Proof.
  apply (seekFile_absent 2 (Evaluation_init tape_sandwich)).
  intros l Hin. vm_compute in Hin.
  repeat (destruct Hin as [<- | Hin];
          [vm_compute; intros E; discriminate E|]).
  destruct Hin.
Defined.

(** X7.  When [seekFile] returns, the cursor is on a line of the file: no
    line before it has the formatted number in columns 71-72, this one
    has, and [int] of these columns is the number asked for.  Nothing but
    the cursor has changed. *)
Theorem seekFile_found (fileNum : Z) (ev : Evaluation) (u : unit) (ev' : Evaluation) :
  seekFile fileNum ev = Ok (u, ev') ->
  exists pre l post,
    lines (fh ev) = pre ++ l :: post /\
    (forall l', In l' pre -> slice 70 72 l' <> format_2 fileNum) /\
    py_int (slice 70 72 l) = Ok fileNum /\
    ev' = with_fh ev {| lines := lines (fh ev); pos := length pre |} /\
    unread (fh ev') = l :: post.
Proof.
  intros H. rewrite seekFile_eq in H.
  destruct (seek_from (lines (fh ev)) 0 (format_2 fileNum)) as [k|] eqn:E;
    [|discriminate H].
  apply seek_from_split in E as (pre & l & post & Hl & -> & Hpre & Hm).
  injection H as _ <-. exists pre, l, post.
  split; [exact Hl|]. split; [exact Hpre|].
  split; [rewrite Hm; apply py_int_format_2|].
  split; [reflexivity|].
  unfold unread. cbn [fh lines pos Nat.add]. rewrite Hl.
  rewrite skipn_app, Nat.sub_diag, skipn_all. reflexivity.
Qed.

Lemma seekFile_found_witness :
  exists pre l post,
    tape_sandwich = pre ++ l :: post /\
    (forall l', In l' pre -> slice 70 72 l' <> format_2 1) /\
    py_int (slice 70 72 l) = Ok 1 /\
    {| fh := {| lines := tape_sandwich; pos := 1 |}; files := []; reactionList := [] |}
    = with_fh (Evaluation_init tape_sandwich)
        {| lines := tape_sandwich; pos := length pre |} /\
    skipn 1 tape_sandwich = l :: post.
Proof.
  apply (seekFile_found 1 (Evaluation_init tape_sandwich) tt
           {| fh := {| lines := tape_sandwich; pos := 1 |};
              files := []; reactionList := [] |}).
  vm_compute. reflexivity.
Defined.

(* ================================================================== *)
(** * The directory *)

Lemma directory_loop_ends (dirs : list str) (entries : list entry) (sentinel : str)
    (after : list str) (ev : Evaluation) (acc : list entry) (fuel : nat) :
  Forall2 directory_line dirs entries ->
  str_eqb (slice 72 75 sentinel) (lit "  0") = true ->
  unread (fh ev) = dirs ++ sentinel :: after ->
  (length dirs < fuel)%nat ->
  directory_loop fuel acc ev
  = Ok (acc ++ entries,
        with_fh ev {| lines := lines (fh ev);
                      pos := pos (fh ev) + length dirs + 1 |}).
Proof.
  intros Hd Hs Hu Hf.
  replace fuel with (length dirs + Datatypes.S (fuel - length dirs - 1))%nat by lia.
  rewrite (directory_loop_dirs dirs entries Hd _ acc ev _ Hu).
  apply unread_skip in Hu.
  rewrite (directory_stop _ _ _ sentinel after); [|exact Hu | exact Hs].
  cbn [with_fh fh files reactionList lines pos].
  replace (pos (fh ev) + length dirs + 1)%nat
    with (Datatypes.S (pos (fh ev) + length dirs)) by lia.
  reflexivity.
Qed.

(** X8.  The directory loop of [readHeader] on a directory that ends: it
    returns the entries (MF, MT, NC, MOD) of the lines before the first
    line whose columns 73-75 are ["  0"], in the order of the tape, and
    leaves the stream after that line.  The lines left in the file bound
    the number of turns. *)
Theorem directory_read (dirs : list str) (entries : list entry) (sentinel : str)
    (after : list str) (ev : Evaluation) (acc : list entry) (fuel : nat) :
  Forall2 directory_line dirs entries ->
  str_eqb (slice 72 75 sentinel) (lit "  0") = true ->
  unread (fh ev) = dirs ++ sentinel :: after ->
  (length dirs < fuel)%nat ->
  directory_loop fuel acc ev
  = Ok (acc ++ entries,
        with_fh ev {| lines := lines (fh ev);
                      pos := pos (fh ev) + length dirs + 1 |}) /\
  (length dirs < Datatypes.S (lines_left ev))%nat.
Proof.
  intros Hd Hs Hu Hf. split.
  - exact (directory_loop_ends dirs entries sentinel after ev acc fuel Hd Hs Hu Hf).
  - unfold lines_left. rewrite <- unread_length, Hu, length_app. cbn [length]. lia.
Qed.

Lemma directory_read_witness :
  directory_loop 14 []
    {| fh := {| lines := tape_header; pos := 8 |}; files := []; reactionList := [] |}
  = Ok ([] ++ [(1, 451, 13, 0); (1, 452, 4, 0); (1, 453, 3, 0); (1, 456, 4, 0)],
        with_fh
          {| fh := {| lines := tape_header; pos := 8 |}; files := [];
             reactionList := [] |}
          {| lines := tape_header; pos := 8 + 4 + 1 |}) /\
  (4 < Datatypes.S
         (lines_left {| fh := {| lines := tape_header; pos := 8 |}; files := [];
                        reactionList := [] |}))%nat.
Proof.
  apply (directory_read (firstn 4 (skipn 8 tape_header))
           [(1, 451, 13, 0); (1, 452, 4, 0); (1, 453, 3, 0); (1, 456, 4, 0)]
           (nth 12 tape_header []) []
           {| fh := {| lines := tape_header; pos := 8 |}; files := [];
              reactionList := [] |} [] 14).
  - repeat (constructor;
            [split; [intros E; discriminate E
                    |split; [vm_compute; reflexivity
                            |eexists; split; [vm_compute; reflexivity | reflexivity]]]|]).
    constructor.
  - vm_compute. reflexivity.
  - reflexivity.
  - cbn. lia.
Defined.

(** X9.  A directory that does not end: when every line up to the end of
    the file is a directory line, the loop raises ValueError, from [int]
    on the empty string [readline] returns at the end of the file. *)
Theorem directory_unterminated (dirs : list str) (entries : list entry)
    (ev : Evaluation) (acc : list entry) (fuel : nat) :
  Forall2 directory_line dirs entries ->
  unread (fh ev) = dirs ->
  (length dirs < fuel)%nat ->
  directory_loop fuel acc ev = Raise ValueError.
Proof.
  intros Hd Hu Hf.
  replace fuel with (length dirs + Datatypes.S (fuel - length dirs - 1))%nat by lia.
  rewrite <- (app_nil_r dirs) in Hu.
  rewrite (directory_loop_dirs dirs entries Hd _ acc ev _ Hu).
  apply unread_skip in Hu.
  now apply directory_end_of_file.
Qed.

Lemma directory_unterminated_witness :
  directory_loop 5 []
    {| fh := {| lines := firstn 12 tape_header; pos := 8 |}; files := [];
       reactionList := [] |}
  = Raise ValueError.
Proof.
  apply (directory_unterminated (firstn 4 (skipn 8 tape_header))
           [(1, 451, 13, 0); (1, 452, 4, 0); (1, 453, 3, 0); (1, 456, 4, 0)]).
  - repeat (constructor;
            [split; [intros E; discriminate E
                    |split; [vm_compute; reflexivity
                            |eexists; split; [vm_compute; reflexivity | reflexivity]]]|]).
    constructor.
  - reflexivity.
  - cbn. lia.
Defined.

(* ================================================================== *)
(** * The header *)

Lemma getContRecord_line (ev : Evaluation) (skipC : bool) (l : str)
    (rest : list str) (items : Items.t) :
  unread (fh ev) = l :: rest -> cont_fields skipC l = Ok items ->
  getContRecord None skipC ev
  = Ok (items, with_fh ev {| lines := lines (fh ev);
                             pos := Datatypes.S (pos (fh ev)) |}).
Proof.
  intros Hu Hh. rewrite getContRecord_eq.
  apply next_line_unread in Hu as [-> _]. cbn [fst snd]. now rewrite Hh.
Qed.

Lemma getTextRecord_line (ev : Evaluation) (l : str) (rest : list str)
    (items : TextItems.t) :
  unread (fh ev) = l :: rest -> text_fields l = Ok items ->
  getTextRecord None ev
  = Ok (items, with_fh ev {| lines := lines (fh ev);
                             pos := Datatypes.S (pos (fh ev)) |}).
Proof.
  intros Hu Hh. rewrite getTextRecord_eq.
  apply next_line_unread in Hu as [-> _]. cbn [fst snd]. now rewrite Hh.
Qed.

Lemma description_lines (descr : list str) :
  forall (acc : list str) (ev : Evaluation) (rest : list str),
    unread (fh ev) = descr ++ rest ->
    for_range_nat (length descr) description_line acc ev
    = Ok (acc ++ map (slice 0 66) descr,
          with_fh ev {| lines := lines (fh ev);
                        pos := pos (fh ev) + length descr |}).
Proof.
  induction descr as [|d descr IH]; intros acc ev rest Hu.
  - cbn [for_range_nat length map]. unfold ret.
    rewrite app_nil_r, Nat.add_0_r. destruct ev as [[ls p] fs rl]. reflexivity.
  - cbn [for_range_nat length]. cbn [app] in Hu.
    apply next_line_unread in Hu as [Hn Hu].
    erewrite bind_run.
    2:{ unfold description_line. erewrite bind_run by apply on_fh_readline_run.
        unfold ret. rewrite Hn. cbn [fst snd]. reflexivity. }
    rewrite (IH _ (with_fh ev _) rest Hu).
    cbn [with_fh fh files reactionList lines pos map].
    rewrite <- app_assoc. cbn [app].
    replace (Datatypes.S (pos (fh ev)) + length descr)%nat
      with (pos (fh ev) + Datatypes.S (length descr))%nat by lia.
    reflexivity.
Qed.

(** X10.  [readHeader] on a well-formed header.  The tape may hold lines of
    other files first; the header is the first line of file 1, three
    control records (the third gives NWD), three text records, NWD - 3
    lines of description, the directory, and the line that ends it.  Then
    [readHeader] returns, the stream is after the line that ends the
    directory, [reactionList] is the directory, and one file numbered 1 is
    appended to the files, holding the one reaction 451 with exactly the
    attributes below. *)
Theorem readHeader_tape (ev : Evaluation) (pre : list str)
    (head c1 c2 c3 t1 t2 t3 : str) (descr dirs : list str) (sentinel : str)
    (after : list str) (h i1 i2 i3 : Items.t) (STA : Z)
    (x1 x2 x3 : TextItems.t) (entries : list entry) :
  lines (fh ev)
  = pre ++ head :: c1 :: c2 :: c3 :: t1 :: t2 :: t3 ::
      descr ++ dirs ++ sentinel :: after ->
  (forall l, In l pre -> slice 70 72 l <> lit " 1") ->
  slice 70 72 head = lit " 1" ->
  head_fields head = Ok h ->
  cont_fields false c1 = Ok i1 -> int_of_scalar (Items.C2 i1) = Ok STA ->
  cont_fields false c2 = Ok i2 ->
  cont_fields false c3 = Ok i3 ->
  Items.N1 i3 - 3 = Z.of_nat (length descr) ->
  text_fields t1 = Ok x1 -> text_fields t2 = Ok x2 -> text_fields t3 = Ok x3 ->
  Forall2 directory_line dirs entries ->
  str_eqb (slice 72 75 sentinel) (lit "  0") = true ->
  exists ev',
    readHeader ev = Ok (tt, ev') /\
    lines (fh ev') = lines (fh ev) /\ unread (fh ev') = after /\
    reactionList ev' = entries /\
    files ev'
    = files ev ++
      [{| fileNumber := 1;
          reactions :=
            [{| MT := 451;
                attrs :=
                  [("description"%string, ALines (map (slice 0 66) descr));
                   ("HSUB"%string, AStr (TextItems.HL x3));
                   ("ENDATE"%string, AStr (slice 55 63 (TextItems.HL x2)));
                   ("RDATE"%string, AStr (slice 33 43 (TextItems.HL x2)));
                   ("DDATE"%string, AStr (slice 22 32 (TextItems.HL x2)));
                   ("REF"%string, AStr (slice 1 22 (TextItems.HL x2)));
                   ("AUTH"%string, AStr (slice 32 66 (TextItems.HL x1)));
                   ("EDATE"%string, AStr (slice 22 32 (TextItems.HL x1)));
                   ("ALAB"%string, AStr (slice 11 22 (TextItems.HL x1)));
                   ("ZSYMAM"%string, AStr (slice 0 11 (TextItems.HL x1)));
                   ("NXC"%string, AInt (Items.N2 i3));
                   ("NWD"%string, AInt (Items.N1 i3));
                   ("LDRV"%string, AInt (Items.L1 i3));
                   ("TEMP"%string, AScalar (Items.C1 i3));
                   ("NVER"%string, AInt (Items.N2 i2));
                   ("NSUB"%string, AInt (Items.N1 i2));
                   ("LREL"%string, AInt (Items.L1 i2));
                   ("EMAX"%string, AScalar (Items.C2 i2));
                   ("AWI"%string, AScalar (Items.C1 i2));
                   ("NFOR"%string, AInt (Items.N2 i1));
                   ("LISO"%string, AInt (Items.L2 i1));
                   ("LIS"%string, AInt (Items.L1 i1));
                   ("STA"%string, AInt STA);
                   ("ELIS"%string, AScalar (Items.C1 i1));
                   ("NMOD"%string, AInt (Items.N2 h));
                   ("NLIB"%string, AInt (Items.N1 h));
                   ("LFI"%string, AInt (Items.L2 h));
                   ("LRP"%string, AInt (Items.L1 h));
                   ("AWR"%string, AScalar (Items.C2 h));
                   ("ZA"%string, AScalar (Items.C1 h))] |}] |}].
Proof.
  intros Hl Hpre Hm Hh Hc1 HSTA Hc2 Hc3 HNWD Ht1 Ht2 Ht3 Hd Hs.
  assert (Hseek : seekFile 1 ev
                  = Ok (tt, with_fh ev {| lines := lines (fh ev);
                                          pos := length pre |})).
  { rewrite seekFile_eq. rewrite Hl at 1.
    rewrite (seek_from_first pre head _ 0 (format_2 1) Hpre Hm). reflexivity. }
  assert (Hu0 : unread {| lines := lines (fh ev); pos := length pre |}
                = head :: c1 :: c2 :: c3 :: t1 :: t2 :: t3 ::
                    descr ++ dirs ++ sentinel :: after).
  { unfold unread. cbn [lines pos]. rewrite Hl.
    rewrite skipn_app, Nat.sub_diag, skipn_all. reflexivity. }
  pose proof (next_line_unread _ _ _ Hu0) as [_ Hu1]. cbn [lines pos] in Hu1.
  pose proof (next_line_unread _ _ _ Hu1) as [_ Hu2]. cbn [lines pos] in Hu2.
  pose proof (next_line_unread _ _ _ Hu2) as [_ Hu3]. cbn [lines pos] in Hu3.
  pose proof (next_line_unread _ _ _ Hu3) as [_ Hu4]. cbn [lines pos] in Hu4.
  pose proof (next_line_unread _ _ _ Hu4) as [_ Hu5]. cbn [lines pos] in Hu5.
  pose proof (next_line_unread _ _ _ Hu5) as [_ Hu6]. cbn [lines pos] in Hu6.
  pose proof (next_line_unread _ _ _ Hu6) as [_ Hu7]. cbn [lines pos] in Hu7.
  pose proof (unread_skip _ _ _ Hu7) as Hu8. cbn [lines pos] in Hu8.
  unfold readHeader.
  erewrite bind_run by exact Hseek.
  erewrite bind_run
    by (eapply getHeadRecord_line; [cbn [with_fh fh]; exact Hu0 | exact Hh]).
  cbn [with_fh fh files reactionList lines pos].
  erewrite bind_run
    by (eapply getContRecord_line; [cbn [fh]; exact Hu1 | exact Hc1]).
  cbn [with_fh fh files reactionList lines pos].
  erewrite bind_run by (unfold pure; rewrite HSTA; reflexivity).
  erewrite bind_run
    by (eapply getContRecord_line; [cbn [fh]; exact Hu2 | exact Hc2]).
  cbn [with_fh fh files reactionList lines pos].
  erewrite bind_run
    by (eapply getContRecord_line; [cbn [fh]; exact Hu3 | exact Hc3]).
  cbn [with_fh fh files reactionList lines pos].
  erewrite bind_run
    by (eapply getTextRecord_line; [cbn [fh]; exact Hu4 | exact Ht1]).
  cbn [with_fh fh files reactionList lines pos].
  erewrite bind_run
    by (eapply getTextRecord_line; [cbn [fh]; exact Hu5 | exact Ht2]).
  cbn [with_fh fh files reactionList lines pos].
  erewrite bind_run
    by (eapply getTextRecord_line; [cbn [fh]; exact Hu6 | exact Ht3]).
  cbn [with_fh fh files reactionList lines pos].
  erewrite bind_run.
  2:{ unfold for_range. rewrite HNWD, Nat2Z.id.
      apply (description_lines descr [] _ (dirs ++ sentinel :: after)).
      cbn [fh]. exact Hu7. }
  cbn [with_fh fh files reactionList lines pos app].
  erewrite bind_run by reflexivity.
  erewrite bind_run.
  2:{ apply (directory_loop_ends dirs entries sentinel after _ [] _ Hd Hs).
      - cbn [fh]. exact Hu8.
      - pose proof (f_equal (@length str) Hu8) as HL8.
        rewrite unread_length, length_app in HL8.
        cbn [lines pos length] in HL8.
        unfold lines_left. cbn [with_fh fh lines pos]. lia. }
  cbn [with_fh fh files reactionList lines pos app].
  erewrite bind_run by reflexivity.
  erewrite bind_run by reflexivity.
  unfold set_files. eexists. split; [reflexivity|].
  cbn [with_fh fh files reactionList lines pos].
  split; [reflexivity|]. split; [|split; reflexivity].
  pose proof (unread_skip _ _ _ Hu8) as Hu9. cbn [lines pos] in Hu9.
  pose proof (next_line_unread _ _ _ Hu9) as [_ Hu10]. cbn [lines pos] in Hu10.
  rewrite <- Hu10. f_equal. f_equal. lia.
Qed.

Lemma readHeader_tape_witness :
  exists ev',
    readHeader (Evaluation_init tape_sandwich) = Ok (tt, ev') /\
    unread (fh ev') = section_452 ++ section_453 ++ section_456 /\
    reactionList ev' = [(1, 451, 13, 0); (1, 452, 4, 0); (1, 453, 3, 0); (1, 456, 4, 0)].
Proof.
  destruct (head_fields (nth 1 tape_sandwich [])) as [h| | |] eqn:Eh;
    try (vm_compute in Eh; discriminate Eh).
  destruct (cont_fields false (nth 2 tape_sandwich [])) as [i1| | |] eqn:E1;
    try (vm_compute in E1; discriminate E1).
  destruct (cont_fields false (nth 3 tape_sandwich [])) as [i2| | |] eqn:E2;
    try (vm_compute in E2; discriminate E2).
  destruct (cont_fields false (nth 4 tape_sandwich [])) as [i3| | |] eqn:E3;
    try (vm_compute in E3; discriminate E3).
  destruct (text_fields (nth 5 tape_sandwich [])) as [x1| | |] eqn:F1;
    try (vm_compute in F1; discriminate F1).
  destruct (text_fields (nth 6 tape_sandwich [])) as [x2| | |] eqn:F2;
    try (vm_compute in F2; discriminate F2).
  destruct (text_fields (nth 7 tape_sandwich [])) as [x3| | |] eqn:F3;
    try (vm_compute in F3; discriminate F3).
  destruct (readHeader_tape (Evaluation_init tape_sandwich)
              [hd [] tape_sandwich]
              (nth 1 tape_sandwich []) (nth 2 tape_sandwich [])
              (nth 3 tape_sandwich []) (nth 4 tape_sandwich [])
              (nth 5 tape_sandwich []) (nth 6 tape_sandwich [])
              (nth 7 tape_sandwich []) []
              (firstn 4 (skipn 8 tape_sandwich)) (nth 12 tape_sandwich [])
              (section_452 ++ section_453 ++ section_456)
              h i1 i2 i3 0 x1 x2 x3
              [(1, 451, 13, 0); (1, 452, 4, 0); (1, 453, 3, 0); (1, 456, 4, 0)])
    as (ev' & H1 & _ & H3 & H4 & _).
  - reflexivity.
  - intros l [<- | []]. vm_compute. intros E. discriminate E.
  - vm_compute. reflexivity.
  - exact Eh.
  - exact E1.
  - vm_compute in E1. injection E1 as <-. vm_compute. reflexivity.
  - exact E2.
  - exact E3.
  - vm_compute in E3. injection E3 as <-. vm_compute. reflexivity.
  - exact F1.
  - exact F2.
  - exact F3.
  - repeat (constructor;
            [split; [intros E; discriminate E
                    |split; [vm_compute; reflexivity
                            |eexists; split; [vm_compute; reflexivity | reflexivity]]]|]).
    constructor.
  - vm_compute. reflexivity.
  - exists ev'. split; [exact H1|]. split; [exact H3 | exact H4].
Defined.

(* ================================================================== *)
(** * Reading a tape *)

(** X11.  [read] on a tape none of whose lines has [" 1"] in columns 71-72
    never returns: [readHeader] starts with [seekFile(1)], whose loop no
    number of turns ends on such a tape. *)
Theorem read_without_file1 (ev : Evaluation) :
  (forall l, In l (lines (fh ev)) -> slice 70 72 l <> lit " 1") ->
  readHeader ev = Loops /\ read ev = Loops.
Proof.
  intros H.
  assert (Hs : seekFile 1 ev = Loops).
  { rewrite seekFile_eq. now rewrite (seek_from_none _ 0 (format_2 1) H). }
  assert (Hr : readHeader ev = Loops).
  { unfold readHeader. unfold bind at 1. now rewrite Hs. }
  split; [exact Hr|]. unfold read. unfold bind at 1. now rewrite Hr.
Qed.

Lemma read_without_file1_witness :
  readHeader (Evaluation_init [hd [] tape_header]) = Loops /\
  read (Evaluation_init [hd [] tape_header]) = Loops.
Proof.
  apply (read_without_file1 (Evaluation_init [hd [] tape_header])).
  intros l [<- | []]. vm_compute. intros E. discriminate E.
Defined.

(** X12.  What [read] leaves in a new evaluation (no files yet): one file,
    numbered 1, whose first reaction is the 451 of the header and whose
    other reactions are, in the order of the directory, one for each
    entry after the first that the dispatcher has a handler for. *)
Theorem read_document (ev : Evaluation) (u : unit) (ev' : Evaluation) :
  files ev = [] ->
  read ev = Ok (u, ev') ->
  exists data rs,
    files ev' = [{| fileNumber := 1; reactions := data :: rs |}] /\
    MT data = 451 /\
    map MT rs = map entry_MT (filter recognized (tl (reactionList ev'))).
Proof.
  intros Hf H. unfold read in H.
  apply bind_ok in H as (u1 & ev1 & Hh & H).
  apply bind_ok in H as (entries & ev2 & Hg & H).
  injection Hg as <- <-.
  destruct (readHeader_files [] ev u1 ev1 Hf Hh) as (data & Hmt & Hfs).
  cbn [app] in Hfs.
  destruct (dispatch_one_file _ _ _ _ [data] H Hfs) as (rs & Hfs' & Hrs & Hrl).
  exists data, rs. split; [exact Hfs'|]. split; [exact Hmt|].
  now rewrite Hrl.
Qed.

Lemma read_document_witness :
  exists ev' data rs,
    read (Evaluation_init tape_sandwich) = Ok (tt, ev') /\
    files ev' = [{| fileNumber := 1; reactions := data :: rs |}] /\
    MT data = 451 /\
    map MT rs = map entry_MT (filter recognized (tl (reactionList ev'))).
Proof.
  destruct (read (Evaluation_init tape_sandwich)) as [[[] ev']| | |] eqn:E;
    try (vm_compute in E; discriminate E).
  destruct (read_document (Evaluation_init tape_sandwich) tt ev' eq_refl E)
    as (data & rs & H1 & H2 & H3).
  exists ev', data, rs. split; [reflexivity|]. split; [exact H1|].
  split; [exact H2 | exact H3].
Defined.

(* ================================================================== *)
(** * The dispatcher *)

(** X13.  An entry the dispatcher has a handler for, when the handler
    returns: one reaction of the entry's MT is appended to the first file
    numbered 1, after the reactions that file holds; the other files, the
    directory and the lines of the stream are as they were, and the cursor
    has not moved back. *)
Theorem recognized_entry_appends (e : entry) (ev : Evaluation) (u : unit)
    (ev' : Evaluation) :
  recognized e = true ->
  dispatch_entry e ev = Ok (u, ev') ->
  exists i file r,
    find_first (fun f => fileNumber f =? 1) (files ev) 0 = Some (i, file) /\
    MT r = entry_MT e /\
    files ev' = update_nth i (with_reaction r) (files ev) /\
    reactionList ev' = reactionList ev /\
    forward (fh ev) (fh ev').
Proof.
  intros Hr H.
  destruct (dispatch_entry_adds e ev u ev' Hr H) as (i & file & r & H1 & H2 & H3 & H4).
  exists i, file, r. repeat (split; [assumption|]).
  exact (dispatch_entry_forward (fh ev) e ev u ev' (forward_refl _) H).
Qed.

Lemma recognized_entry_appends_witness :
  exists ev' i file r,
    dispatch_entry (1, 452, 4, 0) (file1_document section_452) = Ok (tt, ev') /\
    find_first (fun f => fileNumber f =? 1) [ENDFFile1_init] 0 = Some (i, file) /\
    MT r = 452 /\
    files ev' = update_nth i (with_reaction r) [ENDFFile1_init] /\
    reactionList ev' = [] /\
    forward {| lines := section_452; pos := 0 |} (fh ev').
Proof.
  destruct (dispatch_entry (1, 452, 4, 0) (file1_document section_452))
    as [[[] ev']| | |] eqn:E; try (vm_compute in E; discriminate E).
  destruct (recognized_entry_appends (1, 452, 4, 0) (file1_document section_452)
              tt ev' eq_refl E) as (i & file & r & H1 & H2 & H3 & H4 & H5).
  exists ev', i, file, r. split; [reflexivity|]. split; [exact H1|].
  split; [exact H2|]. split; [exact H3|]. split; [exact H4 | exact H5].
Defined.

(** X14.  An entry the dispatcher has a handler for, in an evaluation with
    no file numbered 1: the handler raises AttributeError ([findFile]
    returns None, and the handler takes its [reactions]) before anything
    is read. *)
Theorem recognized_entry_no_file1 (e : entry) (ev : Evaluation) :
  recognized e = true ->
  (forall f, In f (files ev) -> fileNumber f <> 1) ->
  dispatch_entry e ev = Raise AttributeError.
Proof.
  destruct e as [[[MF MT_] NC] MOD]. unfold recognized, dispatch_entry.
  intros Hr Hno.
  destruct (MF =? 1); [|discriminate Hr]. cbn [andb] in Hr.
  destruct (MT_ =? 452); [apply handler_no_file; exact Hno|].
  destruct (MT_ =? 455); [apply handler_no_file; exact Hno|].
  destruct (MT_ =? 456); [apply handler_no_file; exact Hno|].
  destruct (MT_ =? 458); [apply handler_no_file; exact Hno|].
  destruct (MT_ =? 460); [apply handler_no_file; exact Hno|].
  discriminate Hr.
Qed.

Lemma recognized_entry_no_file1_witness :
  dispatch_entry (1, 456, 4, 0) (evaluation_at section_456 []) = Raise AttributeError.
Proof.
  apply (recognized_entry_no_file1 (1, 456, 4, 0) (evaluation_at section_456 []));
    [reflexivity | intros f []].
Defined.

(** X15.  The loop of [read] over a directory, when it returns: the lines
    of the stream are the same and the cursor has not moved back; every
    file is still there, with its number and with the reactions it had, in
    their order and unchanged, new ones coming after them; the directory
    is the same. *)
Theorem dispatch_monotone (entries : list entry) (ev : Evaluation) (u : unit)
    (ev' : Evaluation) :
  dispatch entries ev = Ok (u, ev') ->
  forward (fh ev) (fh ev') /\ extends (files ev) (files ev') /\
  reactionList ev' = reactionList ev.
Proof.
  intros H. split.
  - exact (dispatch_forward_from (fh ev) entries ev u ev' (forward_refl _) H).
  - exact (dispatch_extends_all entries ev u ev' H).
Qed.

Lemma dispatch_monotone_witness :
  exists ev',
    dispatch [(1, 452, 4, 0); (1, 453, 3, 0); (1, 456, 4, 0)]
      (file1_document (section_452 ++ section_453 ++ section_456)) = Ok (tt, ev') /\
    forward {| lines := section_452 ++ section_453 ++ section_456; pos := 0 |} (fh ev') /\
    extends [ENDFFile1_init] (files ev') /\ reactionList ev' = [].
Proof.
  destruct (dispatch [(1, 452, 4, 0); (1, 453, 3, 0); (1, 456, 4, 0)]
              (file1_document (section_452 ++ section_453 ++ section_456)))
    as [[[] ev']| | |] eqn:E; try (vm_compute in E; discriminate E).
  exists ev'. split; [reflexivity|].
  exact (dispatch_monotone _ _ tt ev' E).
Defined.

(* ================================================================== *)
(** * The sections of the synthetic tape *)

Lemma readTotalNu_list_witness :
  exists ev',
    readTotalNu (file1_document section_452) = Ok (tt, ev') /\
    unread (fh ev') = [] /\
    reactionList ev' = [].
Proof.
  destruct (head_fields (nth 0 section_452 [])) as [h| | |] eqn:Eh;
    try (vm_compute in Eh; discriminate Eh).
  destruct (cont_fields false (nth 1 section_452 [])) as [items| | |] eqn:Ec;
    try (vm_compute in Ec; discriminate Ec).
  destruct (readTotalNu_list (file1_document section_452) 0 ENDFFile1_init
              (nth 0 section_452 []) (nth 1 section_452 []) h items
              (slots_11 2 (nth 2 section_452 []))
              (map slot_value (slots_11 2 (nth 2 section_452 [])))
              [nth 2 section_452 []] [nth 3 section_452 []])
    as (ev' & H1 & H2 & _ & H4).
  - reflexivity.
  - reflexivity.
  - exact Eh.
  - vm_compute in Eh. injection Eh as <-. reflexivity.
  - exact Ec.
  - vm_compute in Ec. injection Ec as <-. reflexivity.
  - change [nth 2 section_452 []]
      with [concat (slots_11 2 (nth 2 section_452 []))
            ++ skipn 22 (nth 2 section_452 [])].
    apply Packed_single; [intros E; discriminate E | cbn; lia].
  - repeat (constructor; [split; [reflexivity | vm_compute; reflexivity]|]).
    constructor.
  - exists ev'. split; [exact H1|]. split; [exact H2 | exact H4].
Defined.

Lemma readPromptNu_list_witness :
  exists ev',
    readPromptNu (file1_document section_456) = Ok (tt, ev') /\
    unread (fh ev') = [] /\
    reactionList ev' = [].
Proof.
  destruct (head_fields (nth 0 section_456 [])) as [h| | |] eqn:Eh;
    try (vm_compute in Eh; discriminate Eh).
  destruct (cont_fields false (nth 1 section_456 [])) as [items| | |] eqn:Ec;
    try (vm_compute in Ec; discriminate Ec).
  destruct (readPromptNu_list (file1_document section_456) 0 ENDFFile1_init
              (nth 0 section_456 []) (nth 1 section_456 []) h items
              (slots_11 1 (nth 2 section_456 []))
              (map slot_value (slots_11 1 (nth 2 section_456 [])))
              [nth 2 section_456 []] [nth 3 section_456 []])
    as (ev' & H1 & H2 & _ & H4).
  - reflexivity.
  - reflexivity.
  - exact Eh.
  - vm_compute in Eh. injection Eh as <-. reflexivity.
  - exact Ec.
  - vm_compute in Ec. injection Ec as <-. reflexivity.
  - change [nth 2 section_456 []]
      with [concat (slots_11 1 (nth 2 section_456 []))
            ++ skipn 11 (nth 2 section_456 [])].
    apply Packed_single; [intros E; discriminate E | cbn; lia].
  - repeat (constructor; [split; [reflexivity | vm_compute; reflexivity]|]).
    constructor.
  - exists ev'. split; [exact H1|]. split; [exact H2 | exact H4].
Defined.

Lemma readDelayedNu_tabulated_witness :
  exists ev',
    readDelayedNu (file1_document section_455) = Ok (tt, ev') /\
    unread (fh ev') = [] /\
    reactionList ev' = [].
Proof.
  destruct (head_fields (nth 0 section_455 [])) as [h| | |] eqn:Eh;
    try (vm_compute in Eh; discriminate Eh).
  destruct (cont_fields false (nth 1 section_455 [])) as [items| | |] eqn:Ec;
    try (vm_compute in Ec; discriminate Ec).
  destruct (readDelayedNu_tabulated (file1_document section_455) 0 ENDFFile1_init
              (nth 0 section_455 []) (nth 1 section_455 []) (nth 3 section_455 [])
              h items
              (slots_11 6 (nth 2 section_455 []))
              (map slot_value (slots_11 6 (nth 2 section_455 [])))
              [nth 2 section_455 []]
              (slots_22 1 (nth 4 section_455 []))
              (slots_22 2 (nth 5 section_455 []))
              [(2, 2)]
              (map (fun sl => (slot_value (firstn 11 sl), slot_value (skipn 11 sl)))
                   (slots_22 2 (nth 5 section_455 [])))
              [nth 4 section_455 []] [nth 5 section_455 []]
              [nth 6 section_455 []])
    as (ev' & H1 & H2 & _ & H4).
  - reflexivity.
  - reflexivity.
  - exact Eh.
  - vm_compute in Eh. injection Eh as <-. reflexivity.
  - vm_compute in Eh. injection Eh as <-. reflexivity.
  - exact Ec.
  - vm_compute in Ec. injection Ec as <-. reflexivity.
  - change [nth 2 section_455 []]
      with [concat (slots_11 6 (nth 2 section_455 []))
            ++ skipn 66 (nth 2 section_455 [])].
    apply Packed_single; [intros E; discriminate E | cbn; lia].
  - repeat (constructor; [split; [reflexivity | vm_compute; reflexivity]|]).
    constructor.
  - vm_compute. reflexivity.
  - vm_compute. reflexivity.
  - change [nth 4 section_455 []]
      with [concat (slots_22 1 (nth 4 section_455 []))
            ++ skipn 22 (nth 4 section_455 [])].
    apply Packed_single; [intros E; discriminate E | cbn; lia].
  - change [nth 5 section_455 []]
      with [concat (slots_22 2 (nth 5 section_455 []))
            ++ skipn 44 (nth 5 section_455 [])].
    apply Packed_single; [intros E; discriminate E | cbn; lia].
  - repeat (constructor; [split; [reflexivity | split; vm_compute; reflexivity]|]).
    constructor.
  - repeat (constructor; [split; [reflexivity | split; vm_compute; reflexivity]|]).
    constructor.
  - exists ev'. split; [exact H1|]. split; [exact H2 | exact H4].
Defined.

Lemma readDelayedNu_other_witness :
  exists ev',
    readDelayedNu (file1_document section_460) = Ok (tt, ev') /\
    unread (fh ev') = tl section_460 /\
    reactionList ev' = [].
Proof.
  destruct (head_fields (nth 0 section_460 [])) as [h| | |] eqn:Eh;
    try (vm_compute in Eh; discriminate Eh).
  destruct (readDelayedNu_other (file1_document section_460) 0 ENDFFile1_init
              (nth 0 section_460 []) h (tl section_460))
    as (ev' & H1 & H2 & _ & H4).
  - reflexivity.
  - reflexivity.
  - exact Eh.
  - vm_compute in Eh. injection Eh as <-. reflexivity.
  - exists ev'. split; [exact H1|]. split; [exact H2 | exact H4].
Defined.

(* ================================================================== *)
(** * The files of a tape *)

Lemma py_int_cases (s : str) : (exists n, py_int s = Ok n) \/ py_int s = Raise ValueError.
Proof.
  unfold py_int. destruct (split_sign (strip s)) as [neg body].
  destruct (nonempty body && forallb is_digit body); [left; eauto | now right].
Qed.

Lemma set_add_In (n m : Z) (s : list Z) : In m (set_add n s) <-> m = n \/ In m s.
Proof.
  unfold set_add. destruct (existsb (Z.eqb n) s) eqn:E.
  - split; [now right|]. intros [-> | H]; [|exact H].
    apply existsb_exists in E as (k & Hk & Ek). apply Z.eqb_eq in Ek. now subst.
  - rewrite in_app_iff. cbn [In]. split.
    + intros [H | [<- | []]]; [now right | now left].
    + intros [-> | H]; [right; now left | now left].
Qed.

Lemma set_add_NoDup (n : Z) (s : list Z) : NoDup s -> NoDup (set_add n s).
Proof.
  intros H. unfold set_add. destruct (existsb (Z.eqb n) s) eqn:E; [exact H|].
  apply NoDup_app; [exact H | repeat constructor; intros [] |].
  intros k Hk [Ek | []]. subst k.
  assert (existsb (Z.eqb n) s = true)
    by (apply existsb_exists; exists n; split; [exact Hk | apply Z.eqb_refl]).
  congruence.
Qed.

Lemma look_lines_spec (ls : list str) :
  forall (acc fs : list Z),
    look_lines ls acc = Ok fs -> NoDup acc ->
    NoDup fs /\
    forall n, In n fs <->
              In n acc \/
              (n <> 0 /\ exists l, In l ls /\ py_int (slice 70 72 l) = Ok n).
Proof.
  induction ls as [|a ls IH]; intros acc fs H Hnd.
  - injection H as <-. split; [exact Hnd|]. intros n. split; [now left|].
    intros [H | (_ & l & [] & _)]. exact H.
  - cbn [look_lines] in H.
    destruct (py_int (slice 70 72 a)) as [k| | |] eqn:Ek; try discriminate H.
    cbn [obind] in H. destruct (k =? 0) eqn:Ez.
    + apply Z.eqb_eq in Ez. subst k.
      destruct (IH _ _ H Hnd) as [N I]. split; [exact N|]. intros n.
      rewrite I. split.
      * intros [Hn | (Hn & l & Hl & El)]; [now left|].
        right. split; [exact Hn|]. exists l. split; [now right | exact El].
      * intros [Hn | (Hn & l & [<- | Hl] & El)]; [now left | |].
        -- rewrite Ek in El. injection El as <-. contradiction.
        -- right. split; [exact Hn|]. now exists l.
    + apply Z.eqb_neq in Ez.
      destruct (IH _ _ H (set_add_NoDup k acc Hnd)) as [N I]. split; [exact N|].
      intros n. rewrite I, set_add_In. split.
      * intros [[-> | Hn] | (Hn & l & Hl & El)].
        -- right. split; [exact Ez|]. exists a. split; [now left | exact Ek].
        -- now left.
        -- right. split; [exact Hn|]. exists l. split; [now right | exact El].
      * intros [Hn | (Hn & l & [<- | Hl] & El)].
        -- left. now right.
        -- rewrite Ek in El. injection El as <-. left. now left.
        -- right. split; [exact Hn|]. now exists l.
Qed.

Lemma look_lines_raise (ls : list str) :
  forall (acc : list Z) (l : str),
    In l ls -> py_int (slice 70 72 l) = Raise ValueError ->
    look_lines ls acc = Raise ValueError.
Proof.
  induction ls as [|a ls IH]; intros acc l Hin Hl; [destruct Hin|].
  destruct Hin as [<- | Hin].
  - cbn [look_lines]. now rewrite Hl.
  - cbn [look_lines].
    destruct (py_int_cases (slice 70 72 a)) as [[k Ek] | Ek]; rewrite Ek; cbn [obind].
    + destruct (k =? 0); now apply (IH _ l).
    + reflexivity.
Qed.

Lemma look_lines_ok (ls : list str) :
  forall acc : list Z,
    (forall l, In l ls -> exists n, py_int (slice 70 72 l) = Ok n) ->
    exists fs, look_lines ls acc = Ok fs.
Proof.
  induction ls as [|a ls IH]; intros acc H; [now exists acc|].
  cbn [look_lines]. destruct (H a (or_introl eq_refl)) as [k ->]. cbn [obind].
  destruct (k =? 0); apply IH; intros l Hl; apply H; now right.
Qed.

(** X20.  What [lookForFiles] finds, when it returns: each number once;
    a number is found exactly when it is not zero and some line of the
    file, before or after the cursor, has it in columns 71-72 as [int]
    reads them.  The stream is left at the end of the file and the
    document is not touched. *)
Theorem lookForFiles_members (ev : Evaluation) (fs : list Z) (ev' : Evaluation) :
  lookForFiles ev = Ok (fs, ev') ->
  NoDup fs /\
  (forall n, In n fs <->
             n <> 0 /\
             exists l, In l (lines (fh ev)) /\ py_int (slice 70 72 l) = Ok n) /\
  lines (fh ev') = lines (fh ev) /\ unread (fh ev') = [] /\
  files ev' = files ev /\ reactionList ev' = reactionList ev.
Proof.
  unfold lookForFiles. intros H.
  destruct (look_lines (lines (fh ev)) []) as [fs0| | |] eqn:E; try discriminate H.
  cbn [obind] in H. injection H as <- <-.
  destruct (look_lines_spec _ _ _ E (NoDup_nil Z)) as [N I].
  split; [exact N|]. split.
  - intros n. rewrite I. split; [intros [[] | H]; exact H | now right].
  - cbn [with_fh fh files reactionList lines]. split; [reflexivity|].
    split; [|split; reflexivity]. unfold unread. cbn [lines pos]. apply skipn_all.
Qed.

Lemma lookForFiles_members_witness :
  exists fs ev',
    lookForFiles (Evaluation_init tape_sandwich) = Ok (fs, ev') /\
    NoDup fs /\
    (forall n, In n fs <->
               n <> 0 /\
               exists l, In l tape_sandwich /\ py_int (slice 70 72 l) = Ok n) /\
    unread (fh ev') = [].
Proof.
  destruct (lookForFiles (Evaluation_init tape_sandwich)) as [[fs ev']| | |] eqn:E;
    try (vm_compute in E; discriminate E).
  destruct (lookForFiles_members (Evaluation_init tape_sandwich) fs ev' E)
    as (H1 & H2 & _ & H4 & _).
  exists fs, ev'. split; [reflexivity|]. split; [exact H1|].
  split; [exact H2 | exact H4].
Defined.

(** X21.  [lookForFiles] returns exactly when [int] reads columns 71-72
    of every line of the file; one line where it does not (a line of
    fewer than 71 characters, blank columns, a letter), anywhere in the
    file, and it raises ValueError. *)
Theorem lookForFiles_undecodable (ev : Evaluation) :
  ((forall l, In l (lines (fh ev)) -> exists n, py_int (slice 70 72 l) = Ok n) ->
   exists fs ev', lookForFiles ev = Ok (fs, ev')) /\
  (forall l, In l (lines (fh ev)) -> py_int (slice 70 72 l) = Raise ValueError ->
             lookForFiles ev = Raise ValueError).
Proof.
  split.
  - intros H. destruct (look_lines_ok _ [] H) as [fs E].
    unfold lookForFiles. rewrite E. cbn [obind]. eauto.
  - intros l Hin Hl. unfold lookForFiles.
    now rewrite (look_lines_raise _ [] l Hin Hl).
Qed.

Lemma lookForFiles_undecodable_witness :
  lookForFiles (Evaluation_init (tape_sandwich ++ [[nl]])) = Raise ValueError.
Proof.
  apply (proj2 (lookForFiles_undecodable (Evaluation_init (tape_sandwich ++ [[nl]])))
           [nl]).
  - apply in_or_app. right. left. reflexivity.
  - vm_compute. reflexivity.
Defined.

(** X22.  [seekFile] and [lookForFiles] agree one way: a file [seekFile]
    finds, if its number is not zero, is among those [lookForFiles]
    lists, whenever that returns. *)
Theorem seekFile_listed (fileNum : Z) (ev : Evaluation) (u : unit)
    (ev1 : Evaluation) (fs : list Z) (ev2 : Evaluation) :
  seekFile fileNum ev = Ok (u, ev1) ->
  lookForFiles ev = Ok (fs, ev2) ->
  fileNum <> 0 ->
  In fileNum fs.
Proof.
  unfold lookForFiles. intros Hs Hl Hn. rewrite seekFile_eq in Hs.
  destruct (seek_from (lines (fh ev)) 0 (format_2 fileNum)) as [k|] eqn:E;
    [|discriminate Hs].
  apply seek_from_split in E as (pre & l & post & Hls & _ & _ & Hm).
  destruct (look_lines (lines (fh ev)) []) as [fs0| | |] eqn:El; try discriminate Hl.
  cbn [obind] in Hl. injection Hl as <- _.
  apply (look_lines_spec _ _ _ El (NoDup_nil Z)). right.
  split; [exact Hn|]. exists l. split.
  - rewrite Hls. apply in_or_app. right. now left.
  - rewrite Hm. apply py_int_format_2.
Qed.

Lemma seekFile_listed_witness :
  In 1 (match lookForFiles (Evaluation_init tape_sandwich) with
        | Ok (fs, _) => fs
        | _ => []
        end).
Proof.
  destruct (lookForFiles (Evaluation_init tape_sandwich)) as [[fs ev2]| | |] eqn:E;
    try (vm_compute in E; discriminate E).
  apply (seekFile_listed 1 (Evaluation_init tape_sandwich) tt
           {| fh := {| lines := tape_sandwich; pos := 1 |};
              files := []; reactionList := [] |} fs ev2).
  - vm_compute. reflexivity.
  - exact E.
  - intros H. discriminate H.
Defined.

(* ================================================================== *)
(** * File numbers of three characters *)

Lemma format_2_length (n : Z) :
  100 <= n \/ n <= -10 -> (3 <= length (format_2 n))%nat.
Proof.
  assert (Short : forall ds : str, forallb is_digit ds = true ->
                    (length ds <= 1)%nat -> digits_val ds < 10).
  { intros ds Hd Hl. pose proof (digits_val_bound ds Hd) as B.
    destruct ds as [|c1 [|c2 ds]]; cbn [length] in *;
      try (change (10 ^ Z.of_nat 1) with 10 in B); lia. }
  assert (Short2 : forall ds : str, forallb is_digit ds = true ->
                     (length ds <= 2)%nat -> digits_val ds < 100).
  { intros ds Hd Hl. pose proof (digits_val_bound ds Hd) as B.
    destruct ds as [|c1 [|c2 [|c3 ds]]]; cbn [length] in *;
      try (change (10 ^ Z.of_nat 1) with 10 in B);
      try (change (10 ^ Z.of_nat 2) with 100 in B); lia. }
  intros H. unfold format_2. rewrite length_app.
  destruct (Z.ltb_spec n 0) as [Hn|Hn].
  - destruct (Z.to_nat (- n)) as [|k] eqn:Ek; [lia|].
    destruct (dec_digits_spec k (- n) []) as (ds & E & Hne & Hd & Hv).
    { rewrite <- Ek, Z2Nat.id by lia. split; [lia | apply pow10_gt; lia]. }
    rewrite E, app_nil_r. cbn [length].
    assert (~ (length ds <= 1)%nat) by (intros Hl; pose proof (Short ds Hd Hl); lia).
    lia.
  - destruct (dec_digits_spec (Z.to_nat n) n []) as (ds & E & Hne & Hd & Hv).
    { rewrite Nat2Z.inj_succ, Z2Nat.id, Z.pow_succ_r by lia.
      pose proof (pow10_gt n Hn). lia. }
    rewrite E, app_nil_r.
    assert (~ (length ds <= 2)%nat) by (intros Hl; pose proof (Short2 ds Hd Hl); lia).
    lia.
Qed.

(** X23.  [seekFile] for a file number that takes three characters or
    more (100 and above, -10 and below) never returns, whatever the tape:
    the text it looks for is longer than the two columns it is compared
    with. *)
Theorem seekFile_wide (fileNum : Z) (ev : Evaluation) :
  100 <= fileNum \/ fileNum <= -10 ->
  seekFile fileNum ev = Loops.
Proof.
  intros H. pose proof (format_2_length fileNum H) as L.
  rewrite seekFile_eq. rewrite seek_from_none; [reflexivity|].
  intros l _ E. rewrite <- E in L. unfold slice in L.
  rewrite length_firstn in L. lia.
Qed.

Lemma seekFile_wide_witness :
  seekFile 100 (Evaluation_init tape_sandwich) = Loops.
Proof.
  apply (seekFile_wide 100 (Evaluation_init tape_sandwich)). left. lia.
Defined.

(* ================================================================== *)
(** * Finding what a handler appended *)

Lemma update_nth_app {A : Type} (g : A -> A) (pre : list A) (a : A) (post : list A) :
  update_nth (length pre) g (pre ++ a :: post) = pre ++ g a :: post.
Proof. induction pre as [|b pre IH]; cbn; [reflexivity | now rewrite IH]. Qed.

(** X24.  Appending, then looking up: after the handler of an entry has
    returned, in a document that held no reaction of the entry's MT,
    [findMT] of that MT returns the reaction the handler appended, the
    last one of the first file numbered 1. *)
Theorem appended_reaction_found (e : entry) (ev : Evaluation) (u : unit)
    (ev' : Evaluation) :
  recognized e = true ->
  dispatch_entry e ev = Ok (u, ev') ->
  (forall f r, In f (files ev) -> In r (reactions f) -> MT r <> entry_MT e) ->
  exists i file r,
    find_first (fun f => fileNumber f =? 1) (files ev) 0 = Some (i, file) /\
    files ev' = update_nth i (with_reaction r) (files ev) /\
    findMT (entry_MT e) ev' = Ok (Some (i, length (reactions file), r), ev').
Proof.
  intros Hr H Hnew.
  destruct (dispatch_entry_adds e ev u ev' Hr H)
    as (i & file & r & Hfind & Hmt & Hfs & _).
  exists i, file, r. split; [exact Hfind|]. split; [exact Hfs|].
  pose proof (find_first_nth _ _ _ _ _ Hfind) as (_ & Hnth & _).
  rewrite Nat.sub_0_r in Hnth.
  apply nth_error_split in Hnth as (pre & post & Hsplit & Hlen).
  unfold findMT. rewrite Hfs, Hsplit, <- Hlen, update_nth_app.
  rewrite (findMT_files_first (entry_MT e) pre (with_reaction r file) post
             (reactions file) r [] 0).
  - reflexivity.
  - intros g r' Hg. apply Hnew. rewrite Hsplit. apply in_or_app. now left.
  - reflexivity.
  - intros r'. apply Hnew. rewrite Hsplit. apply in_or_app. right. now left.
  - exact Hmt.
Qed.

Lemma appended_reaction_found_witness :
  exists ev' i file r,
    dispatch_entry (1, 456, 4, 0) (file1_document section_456) = Ok (tt, ev') /\
    find_first (fun f => fileNumber f =? 1) [ENDFFile1_init] 0 = Some (i, file) /\
    files ev' = update_nth i (with_reaction r) [ENDFFile1_init] /\
    findMT 456 ev' = Ok (Some (i, length (reactions file), r), ev').
Proof.
  destruct (dispatch_entry (1, 456, 4, 0) (file1_document section_456))
    as [[[] ev']| | |] eqn:E; try (vm_compute in E; discriminate E).
  destruct (appended_reaction_found (1, 456, 4, 0) (file1_document section_456)
              tt ev' eq_refl E) as (i & file & r & H1 & H2 & H3).
  - intros f r [<- | []] [].
  - exists ev', i, file, r. split; [reflexivity|]. split; [exact H1|].
    split; [exact H2 | exact H3].
Defined.
